(** * voice-clone-memo: the local text-to-speech service and its client

    A shallow embedding of [Scripts/server.py] (the Flask generation
    service) and [Skills/local-tts/speak.py] (the command-line client),
    with the properties of the service contract stated and settled
    against it.

    Conventions of the embedding.
    - Python [str] is [string]; one [ascii] stands for one character.
    - The filesystem is a finite map from canonical paths (lists of
      names below the root) to nodes.  There are no symbolic links and
      relative paths are resolved from the root directory.
    - Python exceptions are values of [exn]; a function that may raise
      returns [exn + A].
    - The inference stack (transformers, torch, soundfile) is a record
      of oracle functions; every call made to it is appended to a log.
      The decoder of the [json] module and the order in which the
      operating system lists a directory are oracles of the same record.
    - Wall-clock time and the random bits behind [uuid.uuid4] are
      inputs of the request that consumes them. *)

From Stdlib Require Import ZArith NArith Ascii.
From stdpp Require Import base option list strings pretty gmap.

Set Warnings "-register-all".

(** ** Python strings *)

Module Py.

(** [s.startswith("/")] *)
Definition starts_with_sep (s : string) : bool :=
  match s with
  | String c _ => bool_decide (c = "/"%char)
  | "" => false
  end.

(** [s.endswith("/")] *)
Fixpoint ends_with_sep (s : string) : bool :=
  match s with
  | "" => false
  | String c "" => bool_decide (c = "/"%char)
  | String _ r => ends_with_sep r
  end.

(** [s.rstrip("/")] *)
Fixpoint rstrip_sep (s : string) : string :=
  match s with
  | "" => ""
  | String c r =>
      let r' := rstrip_sep r in
      if bool_decide (c = "/"%char) && bool_decide (r' = "") then ""
      else String c r'
  end.

(** [s.split("/")]: never empty, [split_sep "" = [""]]. *)
Fixpoint split_sep (s : string) : list string :=
  match s with
  | "" => [""]
  | String c r =>
      if bool_decide (c = "/"%char) then "" :: split_sep r
      else match split_sep r with
           | h :: t => String c h :: t
           | [] => [String c ""]
           end
  end.

(** ["/" in s] *)
Fixpoint has_sep (s : string) : bool :=
  match s with
  | "" => false
  | String c r => bool_decide (c = "/"%char) || has_sep r
  end.

(** [s[:n]] *)
Definition take (n : nat) (s : string) : string := String.substring 0 n s.

(** [str(n)] for a non-negative [int]. *)
Definition str_of_int (n : N) : string := pretty n.

End Py.

(** ** [os.path] on POSIX *)

Module PosixPath.

(** One round of the loop of [posixpath.join]: an absolute component
    discards what came before it. *)
Definition join2 (path b : string) : string :=
  if Py.starts_with_sep b then b
  else if bool_decide (path = "") || Py.ends_with_sep path then path +:+ b
  else path +:+ "/" +:+ b.

(** [os.path.join(a, *p)] *)
Definition join (a : string) (p : list string) : string :=
  foldl join2 a p.

(** [os.path.expanduser] for the current user, whose home directory is
    the value [home] of the HOME variable.  A path that does not start
    with [~] or [~/] is returned as it is. *)
Definition expanduser (home path : string) : string :=
  match path with
  | String c rest =>
      if bool_decide (c = "~"%char)
         && (bool_decide (rest = "") || Py.starts_with_sep rest) then
        let r := Py.rstrip_sep home +:+ rest in
        if bool_decide (r = "") then "/" else r
      else path
  | "" => path
  end.

End PosixPath.

(** ** Exceptions *)

Inductive errno := ENOENT | EEXIST | ENOTDIR | EISDIR.

Inductive exn :=
  | OSError (e : errno) (filename : string)
  | TypeError (msg : string)
  | AttributeError (msg : string)
  | JSONDecodeError (msg : string)
  | RuntimeFailure (msg : string).

Definition strerror (e : errno) : string :=
  match e with
  | ENOENT => "[Errno 2] No such file or directory"
  | EEXIST => "[Errno 17] File exists"
  | ENOTDIR => "[Errno 20] Not a directory"
  | EISDIR => "[Errno 21] Is a directory"
  end.

(** [str(e)] *)
Definition str_exn (e : exn) : string :=
  match e with
  | OSError n f => strerror n +:+ ": '" +:+ f +:+ "'"
  | TypeError m | AttributeError m | JSONDecodeError m | RuntimeFailure m => m
  end.

(** The computation returned: it raised nothing. *)
Definition succeeds {A} (r : exn + A) : bool :=
  match r with
  | inr _ => true
  | inl _ => false
  end.

(** ** JSON values and Python's [json] module *)

(** What [json.loads] returns and [jsonify] accepts.  A JSON object is a
    Python [dict]: an association list with distinct keys in insertion
    order.  A [float] is given by the text that [repr] prints for it
    ([1.5], [1e+16], [inf], [nan]); no arithmetic is done on floats. *)
Inductive json :=
  | JNull
  | JBool (b : bool)
  | JInt (z : Z)
  | JFloat (repr : string)
  | JStr (s : string)
  | JArr (items : list json)
  | JObj (fields : list (string * json)).

(** The double quote character. *)
Definition dquote : ascii := ascii_of_N 34.

Module Json.

(** Truth value of a Python object ([if x], [not x]). *)
Definition truthy (j : json) : bool :=
  match j with
  | JNull => false
  | JBool b => b
  | JInt z => negb (z =? 0)%Z
  | JFloat r => negb (bool_decide (r = "0.0") || bool_decide (r = "-0.0"))
  | JStr s => negb (bool_decide (s = ""))
  | JArr l => match l with [] => false | _ => true end
  | JObj l => match l with [] => false | _ => true end
  end.

(** [d.get(k)] on the fields of a dict. *)
Fixpoint dict_get (d : list (string * json)) (k : string) : option json :=
  match d with
  | [] => None
  | (k', v) :: r => if bool_decide (k' = k) then Some v else dict_get r k
  end.

(** [d[k] = v]: replaces the value of an existing key where it stands,
    appends a new key. *)
Fixpoint dict_set (d : list (string * json)) (k : string) (v : json)
  : list (string * json) :=
  match d with
  | [] => [(k, v)]
  | (k', v') :: r =>
      if bool_decide (k' = k) then (k, v) :: r else (k', v') :: dict_set r k v
  end.

(** Python's name of the type of a value, as error messages print it. *)
Definition type_name (j : json) : string :=
  match j with
  | JNull => "NoneType"
  | JBool _ => "bool"
  | JInt _ => "int"
  | JFloat _ => "float"
  | JStr _ => "str"
  | JArr _ => "list"
  | JObj _ => "dict"
  end.

(** *** Encoding: [json.dumps] with its defaults ([ensure_ascii], the
    separators [", "] and [": "]) *)

Definition hex_char (n : N) : ascii :=
  match n with
  | 0 => "0" | 1 => "1" | 2 => "2" | 3 => "3" | 4 => "4" | 5 => "5"
  | 6 => "6" | 7 => "7" | 8 => "8" | 9 => "9" | 10 => "a" | 11 => "b"
  | 12 => "c" | 13 => "d" | 14 => "e" | _ => "f"
  end%N%char.

Definition escape_char (c : ascii) : string :=
  let n := N_of_ascii c in
  if bool_decide (c = dquote) then String "\" (String dquote "")
  else if bool_decide (c = "\"%char) then "\\"
  else if (n =? 8)%N then "\b"
  else if (n =? 9)%N then "\t"
  else if (n =? 10)%N then "\n"
  else if (n =? 12)%N then "\f"
  else if (n =? 13)%N then "\r"
  else if (32 <=? n)%N && (n <=? 126)%N then String c ""
  else "\u00" +:+ String (hex_char (n / 16)) (String (hex_char (n mod 16)) "").

Fixpoint escape (s : string) : string :=
  match s with
  | "" => ""
  | String c r => escape_char c +:+ escape r
  end.

Definition quote (s : string) : string :=
  String dquote (escape s +:+ String dquote "").

Fixpoint dumps (j : json) : string :=
  match j with
  | JNull => "null"
  | JBool true => "true"
  | JBool false => "false"
  | JInt z => pretty z
  | JFloat r =>
      if bool_decide (r = "nan") then "NaN"
      else if bool_decide (r = "inf") then "Infinity"
      else if bool_decide (r = "-inf") then "-Infinity"
      else r
  | JStr s => quote s
  | JArr l => "[" +:+ String.concat ", " (map dumps l) +:+ "]"
  | JObj l =>
      "{" +:+ String.concat ", "
                (map (fun kv => quote (fst kv) +:+ ": " +:+ dumps (snd kv)) l)
          +:+ "}"
  end.

End Json.

(** *** Decoding: a reference decoder for a fragment of JSON

    The decoder accepts the JSON documents made of printable ASCII
    characters whose numbers are integers and whose string escapes
    denote characters below 256; on those, nested no deeper than Python's
    recursion limit, it returns what [json.loads] returns.  [None] says
    that the text is not in this fragment: [json.loads] refuses it or
    reads a value that this decoder does not produce.  The service and
    the client take their decoder as a parameter; this one serves the
    examples and the encoding of requests. *)

Module JsonDecode.

Definition is_ws (c : ascii) : bool :=
  let n := N_of_ascii c in
  (n =? 32)%N || (n =? 9)%N || (n =? 10)%N || (n =? 13)%N.

Fixpoint skip_ws (s : string) : string :=
  match s with
  | String c r => if is_ws c then skip_ws r else s
  | "" => ""
  end.

Definition digit_val (c : ascii) : option Z :=
  let n := Z.of_N (N_of_ascii c) in
  if (48 <=? n)%Z && (n <=? 57)%Z then Some (n - 48)%Z else None.

Definition hex_val (c : ascii) : option N :=
  let n := N_of_ascii c in
  if (48 <=? n)%N && (n <=? 57)%N then Some (n - 48)%N
  else if (97 <=? n)%N && (n <=? 102)%N then Some (n - 87)%N
  else if (65 <=? n)%N && (n <=? 70)%N then Some (n - 55)%N
  else None.

(** The literal [lit] must come next. *)
Fixpoint expect (lit s : string) : option string :=
  match lit, s with
  | "", _ => Some s
  | String a l, String b r => if bool_decide (a = b) then expect l r else None
  | _, "" => None
  end.

(** The rest of a string literal, after its opening quote. *)
Fixpoint string_body (s : string) : option (string * string) :=
  match s with
  | "" => None
  | String c r =>
      let n := N_of_ascii c in
      if bool_decide (c = dquote) then Some ("", r)
      else if bool_decide (c = "\"%char) then
        match r with
        | String e r1 =>
            let cont (ch : ascii) (rest : string) :=
              match string_body rest with
              | Some (t, rest') => Some (String ch t, rest')
              | None => None
              end in
            if bool_decide (e = dquote) then cont dquote r1
            else if bool_decide (e = "\"%char) then cont "\"%char r1
            else if bool_decide (e = "/"%char) then cont "/"%char r1
            else if bool_decide (e = "b"%char) then cont (ascii_of_N 8) r1
            else if bool_decide (e = "f"%char) then cont (ascii_of_N 12) r1
            else if bool_decide (e = "n"%char) then cont (ascii_of_N 10) r1
            else if bool_decide (e = "r"%char) then cont (ascii_of_N 13) r1
            else if bool_decide (e = "t"%char) then cont (ascii_of_N 9) r1
            else if bool_decide (e = "u"%char) then
              match r1 with
              | String h1 (String h2 (String h3 (String h4 r2))) =>
                  match hex_val h1, hex_val h2, hex_val h3, hex_val h4 with
                  | Some 0%N, Some 0%N, Some a, Some b =>
                      cont (ascii_of_N (16 * a + b)) r2
                  | _, _, _, _ => None
                  end
              | _ => None
              end
            else None
        | "" => None
        end
      else if (n <? 32)%N || (126 <? n)%N then None
      else match string_body r with
           | Some (t, rest') => Some (String c t, rest')
           | None => None
           end
  end.

(** Decimal digits, most significant first. *)
Fixpoint digits (acc : Z) (s : string) : Z * string :=
  match s with
  | String c r =>
      match digit_val c with
      | Some d => digits (10 * acc + d) r
      | None => (acc, s)
      end
  | "" => (acc, "")
  end.

(** An integer literal [0] or [[1-9][0-9]*]; a following fraction or
    exponent makes the number a float, which is not modelled. *)
Definition natural (s : string) : option (Z * string) :=
  match s with
  | String c r =>
      match digit_val c with
      | Some d =>
          let '(v, rest) := if (d =? 0)%Z then (0%Z, r) else digits d r in
          match rest with
          | String x _ =>
              if bool_decide (x = "."%char) || bool_decide (x = "e"%char)
                 || bool_decide (x = "E"%char)
              then None else Some (v, rest)
          | "" => Some (v, rest)
          end
      | None => None
      end
  | "" => None
  end.

(** A value, with the white space around it.  [fuel] bounds the
    nesting depth plus one; [loads] gives the length of the text. *)
Fixpoint value (fuel : nat) (s : string) : option (json * string) :=
  match fuel with
  | O => None
  | S fuel =>
      let elements :=
        fix elements (n : nat) (s : string) (acc : list json)
          : option (json * string) :=
          match n with
          | O => None
          | S n =>
              match value fuel s with
              | Some (v, r) =>
                  match skip_ws r with
                  | String c r' =>
                      if bool_decide (c = ","%char)
                      then elements n r' (acc ++ [v])
                      else if bool_decide (c = "]"%char)
                      then Some (JArr (acc ++ [v]), r')
                      else None
                  | "" => None
                  end
              | None => None
              end
          end in
      let members :=
        fix members (n : nat) (s : string) (acc : list (string * json))
          : option (json * string) :=
          match n with
          | O => None
          | S n =>
              match skip_ws s with
              | String q r0 =>
                  if bool_decide (q = dquote) then
                    match string_body r0 with
                    | Some (k, r1) =>
                        match skip_ws r1 with
                        | String c r2 =>
                            if bool_decide (c = ":"%char) then
                              match value fuel r2 with
                              | Some (v, r3) =>
                                  match skip_ws r3 with
                                  | String d r4 =>
                                      if bool_decide (d = ","%char)
                                      then members n r4 (Json.dict_set acc k v)
                                      else if bool_decide (d = "}"%char)
                                      then Some (JObj (Json.dict_set acc k v), r4)
                                      else None
                                  | "" => None
                                  end
                              | None => None
                              end
                            else None
                        | "" => None
                        end
                    | None => None
                    end
                  else None
              | "" => None
              end
          end in
      match skip_ws s with
      | "" => None
      | String c r =>
          if bool_decide (c = "n"%char) then
            option_map (pair JNull) (expect "ull" r)
          else if bool_decide (c = "t"%char) then
            option_map (pair (JBool true)) (expect "rue" r)
          else if bool_decide (c = "f"%char) then
            option_map (pair (JBool false)) (expect "alse" r)
          else if bool_decide (c = dquote) then
            match string_body r with
            | Some (t, r') => Some (JStr t, r')
            | None => None
            end
          else if bool_decide (c = "["%char) then
            match skip_ws r with
            | String c' r' =>
                if bool_decide (c' = "]"%char) then Some (JArr [], r')
                else elements (String.length r) r []
            | "" => None
            end
          else if bool_decide (c = "{"%char) then
            match skip_ws r with
            | String c' r' =>
                if bool_decide (c' = "}"%char) then Some (JObj [], r')
                else members (String.length r) r []
            | "" => None
            end
          else if bool_decide (c = "-"%char) then
            match natural r with
            | Some (v, r') => Some (JInt (- v), r')
            | None => None
            end
          else
            match natural (String c r) with
            | Some (v, r') => Some (JInt v, r')
            | None => None
            end
      end
  end.

(** One value and nothing but white space after it. *)
Definition loads (s : string) : option json :=
  match value (S (String.length s)) s with
  | Some (v, r) => if bool_decide (skip_ws r = "") then Some v else None
  | None => None
  end.

(** The loop of [value] over the members of an object, on its own;
    [pv] reads the value of a member. *)
Definition members_with (pv : string → option (json * string))
  : nat → string → list (string * json) → option (json * string) :=
  fix members (n : nat) (s : string) (acc : list (string * json))
    : option (json * string) :=
    match n with
    | O => None
    | S n =>
        match skip_ws s with
        | String q r0 =>
            if bool_decide (q = dquote) then
              match string_body r0 with
              | Some (k, r1) =>
                  match skip_ws r1 with
                  | String c r2 =>
                      if bool_decide (c = ":"%char) then
                        match pv r2 with
                        | Some (v, r3) =>
                            match skip_ws r3 with
                            | String d r4 =>
                                if bool_decide (d = ","%char)
                                then members n r4 (Json.dict_set acc k v)
                                else if bool_decide (d = "}"%char)
                                then Some (JObj (Json.dict_set acc k v), r4)
                                else None
                            | "" => None
                            end
                        | None => None
                        end
                      else None
                  | "" => None
                  end
              | None => None
              end
            else None
        | "" => None
        end
    end.

End JsonDecode.

(** ** [str] and [repr] of the values [json.loads] returns *)

Module Repr.

Definition hex2 (n : N) : string :=
  String (Json.hex_char (n / 16)) (String (Json.hex_char (n mod 16)) "").

(** [c in s] *)
Fixpoint has_char (c : ascii) (s : string) : bool :=
  match s with
  | "" => false
  | String c' r => bool_decide (c' = c) || has_char c r
  end.

(** One character of [repr(s)] between quotes [q]: the quote and the
    backslash are escaped, and so is every character that
    [str.isprintable] refuses. *)
Definition repr_char (q c : ascii) : string :=
  let n := N_of_ascii c in
  if bool_decide (c = q) || bool_decide (c = "\"%char) then String "\" (String c "")
  else if (n =? 9)%N then "\t"
  else if (n =? 10)%N then "\n"
  else if (n =? 13)%N then "\r"
  else if (n <? 32)%N || (n =? 127)%N || ((128 <=? n)%N && (n <=? 160)%N)
          || (n =? 173)%N
  then "\x" +:+ hex2 n
  else String c "".

Fixpoint repr_chars (q : ascii) (s : string) : string :=
  match s with
  | "" => ""
  | String c r => repr_char q c +:+ repr_chars q r
  end.

(** [repr(s)]: single quotes, unless [s] has one and no double quote. *)
Definition repr_str (s : string) : string :=
  let q := if has_char "'" s && negb (has_char dquote s) then dquote else "'"%char in
  String q (repr_chars q s +:+ String q "").

Fixpoint repr (j : json) : string :=
  match j with
  | JNull => "None"
  | JBool true => "True"
  | JBool false => "False"
  | JInt z => pretty z
  | JFloat r => r
  | JStr s => repr_str s
  | JArr l => "[" +:+ String.concat ", " (map repr l) +:+ "]"
  | JObj l =>
      "{" +:+ String.concat ", "
                (map (fun kv => repr_str (fst kv) +:+ ": " +:+ repr (snd kv)) l)
          +:+ "}"
  end.

(** [str(j)], which an f-string puts in the place of [{j}]. *)
Definition str (j : json) : string :=
  match j with
  | JStr s => s
  | _ => repr j
  end.

End Repr.

(** ** The filesystem *)

Inductive node :=
  | File (data : string)
  | Dir.

(** A canonical path: the names from the root down. *)
Abbreviation cpath := (list string) (only parsing).

Abbreviation filesys := (gmap (list string) node) (only parsing).

Module FS.

(** The root directory always exists. *)
Definition node_at (fs : filesys) (p : cpath) : option node :=
  match p with
  | [] => Some Dir
  | _ => fs !! p
  end.

Definition parent (p : cpath) : cpath := removelast p.

Definition is_dot (c : string) : bool :=
  bool_decide (c = "") || bool_decide (c = ".").

(** The names a directory entry can have. *)
Definition plain_name (c : string) : bool :=
  negb (Py.has_sep c) && negb (is_dot c) && negb (bool_decide (c = "..")).

(** Path resolution: follows the components [cs] from the directory
    [cur].  Every component is looked up in a directory; an empty
    component or [.] stays, [..] goes up. *)
Fixpoint walk (fs : filesys) (cur : cpath) (cs : list string)
  : errno + cpath :=
  match cs with
  | [] => inr cur
  | c :: rest =>
      match node_at fs cur with
      | Some Dir =>
          if is_dot c then walk fs cur rest
          else if bool_decide (c = "..") then walk fs (parent cur) rest
          else match fs !! (cur ++ [c]) with
               | Some _ => walk fs (cur ++ [c]) rest
               | None => inl ENOENT
               end
      | Some (File _) => inl ENOTDIR
      | None => inl ENOENT
      end
  end.

(** The canonical path a path string denotes, when it exists. *)
Definition resolve (fs : filesys) (path : string) : errno + cpath :=
  if bool_decide (path = "") then inl ENOENT
  else walk fs [] (Py.split_sep path).

(** [os.path.exists]: any failure of the lookup is [False]. *)
Definition exists_ (fs : filesys) (path : string) : bool :=
  match resolve fs path with
  | inr _ => true
  | inl _ => false
  end.

(** [os.makedirs(path, exist_ok=True)]: creates the missing
    directories along [cs]; the path may exist, as a directory. *)
Fixpoint makedirs_from (fs : filesys) (cur : cpath) (cs : list string)
  (path : string) : exn + filesys :=
  match cs with
  | [] =>
      match node_at fs cur with
      | Some Dir => inr fs
      | _ => inl (OSError EEXIST path)
      end
  | c :: rest =>
      match node_at fs cur with
      | Some Dir =>
          if is_dot c then makedirs_from fs cur rest path
          else if bool_decide (c = "..")
          then makedirs_from fs (parent cur) rest path
          else match fs !! (cur ++ [c]) with
               | Some _ => makedirs_from fs (cur ++ [c]) rest path
               | None =>
                   makedirs_from (<[cur ++ [c] := Dir]> fs) (cur ++ [c]) rest path
               end
      | Some (File _) => inl (OSError ENOTDIR path)
      | None => inl (OSError ENOENT path)
      end
  end.

Definition makedirs (fs : filesys) (path : string) : exn + filesys :=
  if bool_decide (path = "") then inl (OSError ENOENT path)
  else makedirs_from fs [] (Py.split_sep path) path.

(** Where [open(path, "w")] puts its file: the directory part is
    resolved, the last component names the file in it. *)
Definition target (fs : filesys) (path : string) : exn + cpath :=
  if bool_decide (path = "") then inl (OSError ENOENT path)
  else
    let cs := Py.split_sep path in
    let name := List.last cs "" in
    match walk fs [] (removelast cs) with
    | inl e => inl (OSError e path)
    | inr d =>
        match node_at fs d with
        | Some Dir =>
            if is_dot name || bool_decide (name = "..")
            then inl (OSError EISDIR path)
            else inr (d ++ [name])
        | Some (File _) => inl (OSError ENOTDIR path)
        | None => inl (OSError ENOENT path)
        end
    end.

(** [open(path, "w")] and [open(path, "wb")]: creates the file, or
    empties the one that is there. *)
Definition open_w (fs : filesys) (path : string) : exn + filesys :=
  match target fs path with
  | inl e => inl e
  | inr p =>
      match fs !! p with
      | Some Dir => inl (OSError EISDIR path)
      | _ => inr (<[p := File ""]> fs)
      end
  end.

(** Writing [data] through a file opened on [path] and closing it. *)
Definition write (fs : filesys) (path data : string) : exn + filesys :=
  match resolve fs path with
  | inl e => inl (OSError e path)
  | inr p =>
      match fs !! p with
      | Some (File _) => inr (<[p := File data]> fs)
      | _ => inl (OSError EISDIR path)
      end
  end.

(** [open(path).read()] *)
Definition read (fs : filesys) (path : string) : exn + string :=
  match resolve fs path with
  | inl e => inl (OSError e path)
  | inr p =>
      match node_at fs p with
      | Some (File data) => inr data
      | _ => inl (OSError EISDIR path)
      end
  end.

(** [fs'] has every entry of [fs], of the same kind: nothing was
    removed, no file became a directory or the reverse. *)
Definition same_kind (a b : node) : Prop :=
  match a, b with
  | Dir, Dir => True
  | File _, File _ => True
  | _, _ => False
  end.

Definition extends (fs fs' : filesys) : Prop :=
  ∀ p n, fs !! p = Some n → ∃ n', fs' !! p = Some n' ∧ same_kind n n'.

Fixpoint strip_prefix (p k : cpath) : option cpath :=
  match p, k with
  | [], _ => Some k
  | a :: p', b :: k' => if bool_decide (a = b) then strip_prefix p' k' else None
  | _ :: _, [] => None
  end.

(** The names of the entries of the directory [d]. *)
Definition children (fs : filesys) (d : cpath) : list string :=
  omap (fun kv => match strip_prefix d (fst kv) with
                  | Some [n] => Some n
                  | _ => None
                  end) (map_to_list fs).

(** [os.listdir(path)]: the names of the entries, in the order [order]
    that the operating system gives them. *)
Definition listdir (order : list string → list string) (fs : filesys)
  (path : string) : exn + list string :=
  match resolve fs path with
  | inl e => inl (OSError e path)
  | inr d =>
      match node_at fs d with
      | Some Dir => inr (order (children fs d))
      | _ => inl (OSError ENOTDIR path)
      end
  end.

End FS.

(** ** [uuid.uuid4] *)

Module Uuid.

(** [UUID(bytes=os.urandom(16), version=4).int], where [r] is the
    integer the 16 random bytes denote: the variant bits are set to
    RFC 4122 and the version to 4. *)
Definition uuid4 (r : N) : N :=
  let i := N.lor (N.ldiff r (N.shiftl 0xc000 48)) (N.shiftl 0x8000 48) in
  N.lor (N.ldiff i (N.shiftl 0xf000 64)) (N.shiftl 4 76).

(** The last [k] hexadecimal digits of [n], put before [acc]. *)
Fixpoint hex_go (k : nat) (n : N) (acc : string) : string :=
  match k with
  | O => acc
  | S k => hex_go k (n / 16) (String (Json.hex_char (n mod 16)) acc)
  end.

(** ['%032x' % n], for [n] below [2^128]. *)
Definition hex32 (n : N) : string := hex_go 32 n "".

(** [str(u)]: the digits in groups of 8, 4, 4, 4 and 12. *)
Definition str (u : N) : string :=
  let h := hex32 u in
  String.substring 0 8 h +:+ "-" +:+ String.substring 8 4 h +:+ "-"
    +:+ String.substring 12 4 h +:+ "-" +:+ String.substring 16 4 h +:+ "-"
    +:+ String.substring 20 12 h.

End Uuid.

(** ** Operations on the filesystem, one system call at a time *)

Inductive fs_op :=
  | Makedirs (path : string)
  | OpenW (path : string)
  | Write (path data : string).

Definition exec_op (fs : filesys) (op : fs_op) : exn + filesys :=
  match op with
  | Makedirs p => FS.makedirs fs p
  | OpenW p => FS.open_w fs p
  | Write p d => FS.write fs p d
  end.

(** Runs the operations in order and stops at the first that raises;
    what the earlier ones wrote stays. *)
Fixpoint run_ops (fs : filesys) (ops : list fs_op) : filesys * option exn :=
  match ops with
  | [] => (fs, None)
  | op :: rest =>
      match exec_op fs op with
      | inl e => (fs, Some e)
      | inr fs' => run_ops fs' rest
      end
  end.

(** ** HTTP responses *)

Inductive body :=
  | JsonBody (j : json)                       (* [jsonify(j)] *)
  | FileBody (mimetype : string) (data : string)  (* [send_file] *)
  | ErrorPage.                                (* Flask's page for an unhandled exception *)

Record response := Response { status : N; payload : body }.

(** ** The generation service, [Scripts/server.py] *)

Module Server.

(** The calls a request makes to the inference stack, in order. *)
Inductive call :=
  | CallProcessor (text : json) (audio : option string)
  | CallGenerate (max_new_tokens : N)
  | CallDecode
  | CallSoundfile (path : string) (samplerate : N).

(** What a request can change: the filesystem and the log of calls. *)
Record world := World { fs : filesys; calls : list call }.

(** A multipart file of [request.files]. *)
Record upload := Upload { filename : string; content : string }.

Inductive request :=
  | GetHealth
  | PostClone (files : list (string * upload)) (form : list (string * string))
  | PostTts (data : json)
  | GetVoices.

(** A request with the time and the random number it will draw. *)
Record arrival := Arrival { req : request; now : N; rand : N }.

(** [d.get(k)] and [k in d] on [request.files] and [request.form]. *)
Fixpoint multi_get {A} (d : list (string * A)) (k : string) : option A :=
  match d with
  | [] => None
  | (k', v) :: r => if bool_decide (k' = k) then Some v else multi_get r k
  end.

(** The one answer of the health route. *)
Definition health_ok : response :=
  Response 200 (JsonBody (JObj [("status", JStr "ok");
                                ("model", JStr "qwen3-tts-1.7b")])).

(** [jsonify({"error": msg}), code] *)
Definition error_response (code : N) (msg : string) : response :=
  Response code (JsonBody (JObj [("error", JStr msg)])).

(** A health answer that says the service is up. *)
Definition reports_ready (r : response) : bool :=
  (status r =? 200)%N &&
  match payload r with
  | JsonBody (JObj d) =>
      match Json.dict_get d "status" with
      | Some (JStr v) => bool_decide (v = "ok")
      | _ => false
      end
  | _ => false
  end.

Section Service.

(** The tensors of the inference stack are opaque. *)
Context {Inputs Output Audio : Type}.

(** [AutoProcessor]: the call and [decode]. *)
Record Processor := {
  proc_call : json → option string → filesys → exn + Inputs;
  proc_decode : Output → exn + Audio
}.

(** [AutoModelForCausalLM]: [generate]. *)
Record Model := {
  generate : Inputs → N → exn + Output
}.

(** What the process finds around it: torch, transformers and
    soundfile, the decoder of the [json] module, and the order in which
    the operating system lists the names of a directory. *)
Record Stack := {
  mps_is_available : bool;
  processor_from_pretrained : string → exn + Processor;
  model_from_pretrained : string → string → exn + Model;
  to_device : string → Inputs → exn + Inputs;
  first : Output → exn + Output;                (* [output[0]] *)
  soundfile_array : Audio → exn + Audio;        (* [np.asarray], first step of [sf.write] *)
  soundfile_encode : Audio → N → exn + string;  (* the bytes [sf.write] writes *)
  json_load : string → exn + json;              (* [json.load] on the text of a file *)
  dir_order : list string → list string         (* the order of [os.listdir] *)
}.

(** The module globals [model] and [processor]. *)
Record globals := Globals {
  model : option Model;
  processor : option Processor
}.

(** Value of the HOME variable. *)
Variable home : string.
Variable stack : Stack.

Definition MODEL_PATH : string := PosixPath.expanduser home "~/qwen3-tts/model-1.7b".
Definition VOICES_DIR : string := PosixPath.expanduser home "~/qwen3-tts/voices".
Definition OUTPUT_DIR : string := PosixPath.expanduser home "~/qwen3-tts/output".

(** Lines 23-24, run when the module is imported. *)
Definition import_module (fs : filesys) : exn + filesys :=
  match FS.makedirs fs VOICES_DIR with
  | inl e => inl e
  | inr fs1 => FS.makedirs fs1 OUTPUT_DIR
  end.

Definition device : string := if mps_is_available stack then "mps" else "cpu".

Definition load_model : exn + globals :=
  match processor_from_pretrained stack MODEL_PATH with
  | inl e => inl e
  | inr p =>
      match model_from_pretrained stack MODEL_PATH device with
      | inl e => inl e
      | inr m => inr {| model := Some m; processor := Some p |}
      end
  end.

(** A handler runs on the globals and the world and leaves a world
    and either a response or an exception it did not catch. *)
Definition handler := globals → world → world * (exn + response).

Definition health : handler := fun g w => (w, inr health_ok).

(** Both globals are set: the model runtime is ready. *)
Definition ready (g : globals) : bool :=
  match model g, processor g with
  | Some _, Some _ => true
  | _, _ => false
  end.

(** *** [clone_voice] *)

Definition voice_id_of (rand : N) : string :=
  Py.take 8 (Uuid.str (Uuid.uuid4 rand)).

Definition voice_dir (voice_id : string) : string :=
  PosixPath.join VOICES_DIR [voice_id].

Definition audio_path (voice_id : string) : string :=
  PosixPath.join (voice_dir voice_id) ["reference.wav"].

Definition meta_path (voice_id : string) : string :=
  PosixPath.join (voice_dir voice_id) ["meta.json"].

Definition meta (name voice_id : string) : json :=
  JObj [("name", JStr name); ("voice_id", JStr voice_id);
        ("audio", JStr (audio_path voice_id))].

(** Lines 60-68: what a clone request does to the filesystem. *)
Definition clone_ops (voice_id name data : string) : list fs_op :=
  [ Makedirs (voice_dir voice_id);
    OpenW (audio_path voice_id);
    Write (audio_path voice_id) data;
    OpenW (meta_path voice_id);
    Write (meta_path voice_id) (Json.dumps (meta name voice_id)) ].

Definition clone_voice (files : list (string * upload))
  (form : list (string * string)) (now rand : N) : handler := fun g w =>
  match multi_get files "audio" with
  | None =>
      (w, inr (error_response 400 "No audio file"))
  | Some audio_file =>
      let name := default ("voice_" +:+ Py.str_of_int now) (multi_get form "name") in
      let voice_id := voice_id_of rand in
      match run_ops (fs w) (clone_ops voice_id name (content audio_file)) with
      | (fs', Some e) => (World fs' (calls w), inl e)
      | (fs', None) =>
          (World fs' (calls w),
           inr (Response 200
                  (JsonBody (JObj [("voice_id", JStr voice_id);
                                   ("name", JStr name)]))))
      end
  end.

(** *** [text_to_speech] *)

(** The condition of line 87: the reference recording to clone
    from, when [voice_id] is true and names one that exists.
    [os.path.join] raises on a component that is not a string. *)
Definition resolve_voice (fs : filesys) (voice_id : json) : exn + option string :=
  if Json.truthy voice_id then
    match voice_id with
    | JStr s =>
        let ref_audio := PosixPath.join VOICES_DIR [s; "reference.wav"] in
        if FS.exists_ fs ref_audio then inr (Some ref_audio) else inr None
    | _ =>
        inl (TypeError ("join() argument must be str, bytes, or os.PathLike object, not '"
                          +:+ Json.type_name voice_id +:+ "'"))
    end
  else inr None.

Definition output_path (now : N) : string :=
  PosixPath.join OUTPUT_DIR ["memo_" +:+ Py.str_of_int now +:+ ".wav"].

(** The body of the [try] block, lines 86-116, as a computation on
    the world that stops at the first exception. *)
Definition M (A : Type) : Type := world → world * (exn + A).

Definition ret {A} (a : A) : M A := fun w => (w, inr a).

Definition bind {A B} (m : M A) (k : A → M B) : M B := fun w =>
  match m w with
  | (w', inl e) => (w', inl e)
  | (w', inr a) => k a w'
  end.

Definition lift {A} (r : exn + A) : M A := fun w => (w, r).

Definition read_fs {A} (f : filesys → exn + A) : M A := fun w => (w, f (fs w)).

Definition log (c : call) : M unit := fun w =>
  (World (fs w) (calls w ++ [c]), inr tt).

(** [str(e)] for the error of [sf.write] on a file that it cannot
    open or write: libsndfile reports a failure of the operating system
    as a system error, whatever its cause. *)
Definition soundfile_error (path : string) : exn :=
  RuntimeFailure ("Error opening " +:+ Repr.repr_str path +:+ ": System error.").

(** A file operation done by soundfile. *)
Definition sf_do (path : string) (op : fs_op) : M unit := fun w =>
  match exec_op (fs w) op with
  | inl _ => (w, inl (soundfile_error path))
  | inr fs' => (World fs' (calls w), inr tt)
  end.

Notation "'let!' x ':=' m 'in' k" := (bind m (fun x => k))
  (at level 10, x name, k at level 200, only parsing).
Notation "'run!' m 'in' k" := (bind m (fun _ => k))
  (at level 10, k at level 200, only parsing).

Definition the_processor (g : globals) : exn + Processor :=
  match processor g with
  | Some p => inr p
  | None => inl (TypeError "'NoneType' object is not callable")
  end.

Definition the_model (g : globals) : exn + Model :=
  match model g with
  | Some m => inr m
  | None => inl (AttributeError "'NoneType' object has no attribute 'generate'")
  end.

(** Lines 90-116, with the reference recording already chosen:
    [ref_audio] is [None] on the branch that calls the processor
    with the text alone. *)
Definition pipeline (g : globals) (now : N) (text : json)
  (ref_audio : option string) : M response :=
  let! p := lift (the_processor g) in
  run! log (CallProcessor text ref_audio) in
  let! inputs := read_fs (proc_call p text ref_audio) in
  let! inputs := lift (to_device stack device inputs) in
  let! m := lift (the_model g) in
  run! log (CallGenerate 2048) in
  let! output := lift (generate m inputs 2048) in
  let! output0 := lift (first stack output) in
  run! log CallDecode in
  let! audio_array := lift (proc_decode p output0) in
  run! log (CallSoundfile (output_path now) 24000) in
  let! samples := lift (soundfile_array stack audio_array) in
  run! sf_do (output_path now) (OpenW (output_path now)) in
  let! bytes := lift (soundfile_encode stack samples 24000) in
  run! sf_do (output_path now) (Write (output_path now) bytes) in
  let! sent := read_fs (fun fs => FS.read fs (output_path now)) in
  ret (Response 200 (FileBody "audio/wav" sent)).

Definition synthesize (g : globals) (now : N) (text voice_id : json) : M response :=
  let! ref_audio := read_fs (fun fs => resolve_voice fs voice_id) in
  pipeline g now text ref_audio.

(** [except Exception as e], line 118. *)
Definition catch (r : world * (exn + response)) : world * (exn + response) :=
  match r with
  | (w', inr resp) => (w', inr resp)
  | (w', inl e) =>
      (w', inr (error_response 500 (str_exn e)))
  end.

(** [data] is what [request.get_json()] returned.  The imports of
    lines 75-76 are taken to succeed: the packages are installed. *)
Definition text_to_speech (data : json) (now : N) : handler := fun g w =>
  match data with
  | JObj d =>
      let text := default (JStr "") (Json.dict_get d "text") in
      let voice_id := default (JStr "") (Json.dict_get d "voice_id") in
      if negb (Json.truthy text) then
        (w, inr (error_response 400 "No text provided"))
      else catch (synthesize g now text voice_id w)
  | _ =>
      (w, inl (AttributeError ("'" +:+ Json.type_name data
                                   +:+ "' object has no attribute 'get'")))
  end.

(** *** [list_voices] *)

(** The loop of lines 125-129 over the names [ds]. *)
Fixpoint load_metas (fs : filesys) (ds : list string) (voices : list json)
  : exn + list json :=
  match ds with
  | [] => inr voices
  | d :: rest =>
      let meta_path := PosixPath.join VOICES_DIR [d; "meta.json"] in
      if FS.exists_ fs meta_path then
        match FS.read fs meta_path with
        | inl e => inl e
        | inr text =>
            match json_load stack text with
            | inl e => inl e
            | inr j => load_metas fs rest (voices ++ [j])
            end
        end
      else load_metas fs rest voices
  end.

Definition list_voices : handler := fun g w =>
  match FS.listdir (dir_order stack) (fs w) VOICES_DIR with
  | inl e => (w, inl e)
  | inr ds =>
      match load_metas (fs w) ds [] with
      | inl e => (w, inl e)
      | inr voices =>
          (w, inr (Response 200 (JsonBody (JObj [("voices", JArr voices)]))))
      end
  end.

(** *** Flask *)

Definition route (a : arrival) : handler :=
  match req a with
  | GetHealth => health
  | PostClone files form => clone_voice files form (now a) (rand a)
  | PostTts data => text_to_speech data (now a)
  | GetVoices => list_voices
  end.

(** An exception that leaves a view is logged and answered with
    the page of status 500; the process keeps serving. *)
Definition dispatch (g : globals) (w : world) (a : arrival) : world * response :=
  match route a g w with
  | (w', inr r) => (w', r)
  | (w', inl _) => (w', Response 500 ErrorPage)
  end.

(** [app.run] on the requests as they arrive. *)
Fixpoint serve (g : globals) (w : world) (reqs : list arrival)
  : world * list response :=
  match reqs with
  | [] => (w, [])
  | a :: rest =>
      let '(w1, r) := dispatch g w a in
      let '(w2, rs) := serve g w1 rest in
      (w2, r :: rs)
  end.

Inductive run :=
  | Crashed (e : exn)
  | Served (g : globals) (w : world) (responses : list response).

(** The process from its start: the imports, lines 132-135. *)
Definition main (fs0 : filesys) (reqs : list arrival) : run :=
  match import_module fs0 with
  | inl e => Crashed e
  | inr fs1 =>
      match load_model with
      | inl e => Crashed e
      | inr g =>
          let '(w, rs) := serve g (World fs1 []) reqs in
          Served g w rs
      end
  end.

(** *** Requests in flight

    The server of [app.run] handles requests in threads.  A thread
    is the list of filesystem operations its request has still to
    do; a step starts a request or performs the next operation of
    one thread.  A thread whose operation raises is gone, and so is
    one that a crash stops: it just takes no further step. *)

Definition tts_ops (now : N) (bytes : string) : list fs_op :=
  [ OpenW (output_path now); Write (output_path now) bytes ].

Inductive step : filesys * list (list fs_op) → filesys * list (list fs_op) → Prop :=
  | step_clone fs ts rand name data :
      step (fs, ts) (fs, clone_ops (voice_id_of rand) name data :: ts)
  | step_tts fs ts now bytes :
      step (fs, ts) (fs, tts_ops now bytes :: ts)
  | step_op fs fs' ts1 op rest ts2 :
      exec_op fs op = inr fs' →
      step (fs, ts1 ++ (op :: rest) :: ts2) (fs', ts1 ++ rest :: ts2)
  | step_raise fs e ts1 op rest ts2 :
      exec_op fs op = inl e →
      step (fs, ts1 ++ (op :: rest) :: ts2) (fs, ts1 ++ ts2).

(** The voices directory holds no metadata record without its
    reference recording. *)
Definition no_orphan_meta (fs : filesys) : Prop :=
  ∀ vp d, FS.resolve fs VOICES_DIR = inr vp →
    is_Some (fs !! (vp ++ [d; "meta.json"])) →
    is_Some (fs !! (vp ++ [d; "reference.wav"])).

(** The voices directory exists, at the canonical path [vp]. *)
Definition registry_at (fs : filesys) (vp : cpath) : Prop :=
  FS.resolve fs VOICES_DIR = inr vp ∧ FS.node_at fs vp = Some Dir.

(** The place of profile [d] is free or holds a profile: no file
    stands where its directory goes, no directory where its two files
    go. *)
Definition slot_usable (fs : filesys) (vp : cpath) (d : string) : Prop :=
  (∀ x, fs !! (vp ++ [d]) ≠ Some (File x)) ∧
  fs !! (vp ++ [d; "reference.wav"]) ≠ Some Dir ∧
  fs !! (vp ++ [d; "meta.json"]) ≠ Some Dir.

(** The metadata record of the entry [d] of the voices directory, when
    [d] is a directory whose [meta.json] is a file that [json.load]
    decodes. *)
Definition record_of (fs : filesys) (vp : cpath) (d : string) : option json :=
  match fs !! (vp ++ [d]), fs !! (vp ++ [d; "meta.json"]) with
  | Some Dir, Some (File text) =>
      match json_load stack text with
      | inr j => Some j
      | inl _ => None
      end
  | _, _ => None
  end.

(** The entry [d] has no metadata record, or one that can be read and
    decoded. *)
Definition record_readable (fs : filesys) (vp : cpath) (d : string) : Prop :=
  fs !! (vp ++ [d]) = Some Dir →
  match fs !! (vp ++ [d; "meta.json"]) with
  | Some (File text) => ∃ j, json_load stack text = inr j
  | Some Dir => False
  | None => True
  end.

(** A thread of a request in flight that is in order: what is left of
    a synthesis request, or what is left of a clone request whose
    recording is stored once its first two operations are done. *)
Definition in_flight (fs : filesys) (vp : cpath) (t : list fs_op) : Prop :=
  (∃ now bytes k, t = drop k (tts_ops now bytes)) ∨
  (∃ rand name data k,
     t = drop k (clone_ops (voice_id_of rand) name data) ∧
     (2 ≤ k → is_Some (fs !! (vp ++ [voice_id_of rand; "reference.wav"])))).

(** The invariant of a run: the voices directory exists, no metadata
    record is without its recording, and every thread is in order. *)
Definition consistent (s : filesys * list (list fs_op)) : Prop :=
  ∃ vp, registry_at s.1 vp ∧
        (∀ d, is_Some (s.1 !! (vp ++ [d; "meta.json"])) →
              is_Some (s.1 !! (vp ++ [d; "reference.wav"]))) ∧
        Forall (in_flight s.1 vp) s.2.

(** The states of a run that starts, with no request in flight, on
    a filesystem where the two directories exist (line 23-24) and
    no metadata is orphaned. *)
Inductive reachable : filesys * list (list fs_op) → Prop :=
  | reach_start fs0 fs :
      import_module fs0 = inr fs → no_orphan_meta fs → reachable (fs, [])
  | reach_step s s' : reachable s → step s s' → reachable s'.

End Service.

End Server.

(** ** The command-line client, [Skills/local-tts/speak.py] *)

Module Client.

Record http_request := HttpRequest {
  method : string;
  url : string;
  headers : list (string * string);
  data : option string
}.

(** What [urllib.request.urlopen] does with a request: a response of
    status 2xx with its body, an [HTTPError] with the status and body of
    an error response, or any other exception (connection refused,
    timeout). *)
Inductive http_result :=
  | HttpOk (status : N) (body : string)
  | HttpError (code : N) (body : string)
  | HttpFailed (e : exn).

(** The client's world: its filesystem, what it printed on the two
    streams, and the requests it sent with their timeouts. *)
Record world := World {
  fs : filesys;
  stdout : list string;
  stderr : list string;
  sent : list (http_request * N)
}.

(** A function returns or leaves the process through [sys.exit]. *)
Inductive result (A : Type) :=
  | Return (a : A)
  | Exit (code : N).
Arguments Return {A} a.
Arguments Exit {A} code.

Definition SERVER : string := "http://localhost:5123".

Section Client.

Variable home : string.

(** The network and the service behind it: the answer to a request,
    given the requests sent before. *)
Variable urlopen : list (http_request * N) → http_request → N → http_result.

Definition OUTPUT_DIR : string := PosixPath.expanduser home "~/.clawdbot/media/tts".

Definition send (rq : http_request) (timeout : N) (w : world) : world * http_result :=
  (World (fs w) (stdout w) (stderr w) (sent w ++ [(rq, timeout)]),
   urlopen (sent w) rq timeout).

Definition print_err (line : string) (w : world) : world :=
  World (fs w) (stdout w) (stderr w ++ [line]) (sent w).

Definition print_out (line : string) (w : world) : world :=
  World (fs w) (stdout w ++ [line]) (stderr w) (sent w).

Definition health_request : http_request :=
  HttpRequest "GET" (SERVER +:+ "/health") [] None.

Definition check_server (w : world) : world * bool :=
  match send health_request 2 w with
  | (w', HttpOk st _) => (w', (st =? 200)%N)
  | (w', _) => (w', false)
  end.

Definition tts_request (text : string) (voice_id : option string) : http_request :=
  let payload :=
    match voice_id with
    | Some v => if bool_decide (v = "") then [("text", JStr text)]
                else [("text", JStr text); ("voice_id", JStr v)]
    | None => [("text", JStr text)]
    end in
  HttpRequest "POST" (SERVER +:+ "/v1/tts")
    [("Content-Type", "application/json")] (Some (Json.dumps (JObj payload))).

Definition output_path (now : N) : string :=
  PosixPath.join OUTPUT_DIR ["tts_" +:+ Py.str_of_int now +:+ ".wav"].

Definition generate (text : string) (voice_id : option string) (now : N)
  (w : world) : world * result string :=
  let '(w1, up) := check_server w in
  if negb up then
    (print_err "  bash ~/.voiceclonememo/start.sh"
       (print_err "Erreur: serveur local non démarré. Lance VoiceCloneMemo ou:" w1),
     Exit 1)
  else
    match send (tts_request text voice_id) 120 w1 with
    | (w2, HttpOk _ audio_data) =>
        match run_ops (fs w2) [OpenW (output_path now);
                               Write (output_path now) audio_data] with
        | (fs', None) =>
            (print_out (output_path now) (World fs' (stdout w2) (stderr w2) (sent w2)),
             Return (output_path now))
        | (fs', Some e) =>
            (print_err ("Erreur: " +:+ str_exn e)
               (World fs' (stdout w2) (stderr w2) (sent w2)),
             Exit 1)
        end
    | (w2, HttpError code error_body) =>
        (print_err ("Erreur API: " +:+ Py.str_of_int code +:+ " - " +:+ error_body) w2,
         Exit 1)
    | (w2, HttpFailed e) =>
        (print_err ("Erreur: " +:+ str_exn e) w2, Exit 1)
    end.

(** *** [list_voices] *)

(** The reason phrase the service sends with a status, which
    [str(HTTPError)] shows, and [json.loads] on the body of an answer. *)
Variable reason : N → string.
Variable json_loads : string → exn + json.

Definition voices_request : http_request :=
  HttpRequest "GET" (SERVER +:+ "/v1/voices") [] None.

(** [str(e)] for the [HTTPError] of a response of status [code]. *)
Definition http_error (code : N) : exn :=
  RuntimeFailure ("HTTP Error " +:+ Py.str_of_int code +:+ ": " +:+ reason code).

Definition no_get (j : json) : exn :=
  AttributeError ("'" +:+ Json.type_name j +:+ "' object has no attribute 'get'").

(** The line of line 36 for the voice [v]. *)
Definition voice_line (v : json) : exn + string :=
  match v with
  | JObj d =>
      inr ("  " +:+ Repr.str (default (JStr "?") (Json.dict_get d "voice_id"))
                +:+ " - "
                +:+ Repr.str (default (JStr "Sans nom") (Json.dict_get d "name")))
  | _ => inl (no_get v)
  end.

(** The voice [v] is a dict that shows the name [name] and the id
    [id]: its field [voice_id] is the string [id], or it has none and
    [id] is [?]; its field [name] is the string [name], or it has none
    and [name] is [Sans nom].  The dict may hold any other field, in any
    order. *)
Definition shows (v : json) (name id : string) : Prop :=
  ∃ d, v = JObj d ∧
       default (JStr "?") (Json.dict_get d "voice_id") = JStr id ∧
       default (JStr "Sans nom") (Json.dict_get d "name") = JStr name.

(** What [for v in voices] goes through: the items of a list, the
    characters of a string, the keys of a dict. *)
Definition iterate (voices : json) : exn + list json :=
  match voices with
  | JArr l => inr l
  | JStr s => inr (map (fun c => JStr (String c "")) (String.list_ascii_of_string s))
  | JObj d => inr (map (fun kv => JStr (fst kv)) d)
  | _ => inl (TypeError ("'" +:+ Json.type_name voices +:+ "' object is not iterable"))
  end.

(** The loop of lines 35-36: it stops at the first voice that raises,
    with the lines of the voices before it printed. *)
Fixpoint print_voices (vs : list json) (w : world) : world * option exn :=
  match vs with
  | [] => (w, None)
  | v :: rest =>
      match voice_line v with
      | inl e => (w, Some e)
      | inr line => print_voices rest (print_out line w)
      end
  end.

Definition list_voices (w : world) : world * result unit :=
  let fail (e : exn) (w : world) : world * result unit :=
    (print_err ("Erreur: " +:+ str_exn e) w, Exit 1) in
  match send voices_request 5 w with
  | (w1, HttpOk _ body) =>
      match json_loads body with
      | inl e => fail e w1
      | inr (JObj d) =>
          let voices := default (JArr []) (Json.dict_get d "voices") in
          if negb (Json.truthy voices) then
            (print_out "Aucune voix clonée. Utilise VoiceCloneMemo pour en créer." w1,
             Return tt)
          else
            match iterate voices with
            | inl e => fail e w1
            | inr vs =>
                match print_voices vs w1 with
                | (w2, None) => (w2, Return tt)
                | (w2, Some e) => fail e w2
                end
            end
      | inr data => fail (no_get data) w1
      end
  | (w1, HttpError code _) => fail (http_error code) w1
  | (w1, HttpFailed e) => fail e w1
  end.

(** *** [main] *)

(** What [parser.parse_args()] returned. *)
Record args := Args {
  arg_text : option string;
  arg_voice : option string;
  arg_list : bool;
  arg_status : bool
}.

(** What [parser.print_help()] prints. *)
Variable usage : string.

(** The process from [main()] to its end, with its exit status. *)
Definition main (a : args) (now : N) (w : world) : world * N :=
  if arg_status a then
    let '(w1, up) := check_server w in
    (print_out (if up then "✅ Serveur local Qwen3-TTS en ligne"
                else "❌ Serveur local non démarré") w1, 0%N)
  else if arg_list a then
    match list_voices w with
    | (w1, Exit code) => (w1, code)
    | (w1, Return _) => (w1, 0%N)
    end
  else
    match arg_text a with
    | Some text =>
        if bool_decide (text = "") then (print_out usage w, 1%N)
        else
          match generate text (arg_voice a) now w with
          | (w1, Exit code) => (w1, code)
          | (w1, Return _) => (w1, 0%N)
          end
    | None => (print_out usage w, 1%N)
    end.

End Client.

End Client.

(** ** A small installation, for the examples *)

Module Sample.

Definition home : string := "/home/u".

(** A filesystem with the home directory and nothing else. *)
Definition base : gmap (list string) node :=
  {[ ["home"] := Dir; ["home"; "u"] := Dir ]}.

(** For the examples: the decoder of the fragment, with the message
    of [json.loads] for a document that holds no value. *)
Definition json_load (text : string) : exn + json :=
  match JsonDecode.loads text with
  | Some j => inr j
  | None => inl (JSONDecodeError "Expecting value: line 1 column 1 (char 0)")
  end.

(** An inference stack on trivial tensors that always succeeds, on an
    operating system that lists a directory from its last name to its
    first. *)
Definition the_processor : @Server.Processor unit unit unit :=
  {| Server.proc_call := fun _ _ _ => inr tt;
     Server.proc_decode := fun _ => inr tt |}.

Definition the_model : @Server.Model unit unit :=
  {| Server.generate := fun _ _ => inr tt |}.

Definition stack : @Server.Stack unit unit unit :=
  {| Server.mps_is_available := false;
     Server.processor_from_pretrained := fun _ => inr the_processor;
     Server.model_from_pretrained := fun _ _ => inr the_model;
     Server.to_device := fun _ i => inr i;
     Server.first := fun o => inr o;
     Server.soundfile_array := fun a => inr a;
     Server.soundfile_encode := fun _ _ => inr "RIFF";
     Server.json_load := json_load;
     Server.dir_order := reverse |}.

(** The globals before and after [load_model]. *)
Definition unloaded : @Server.globals unit unit unit :=
  Server.Globals None None.

Definition loaded : @Server.globals unit unit unit :=
  Server.Globals (Some the_model) (Some the_processor).

(** The filesystem once the module is imported. *)
Definition booted : gmap (list string) node :=
  match Server.import_module home base with
  | inr fs => fs
  | inl _ => base
  end.

Definition world0 : Server.world := Server.World booted [].

(** The world after one voice was cloned: profile [deadbeef], "Alice". *)
Definition alice : Server.arrival :=
  Server.Arrival
    (Server.PostClone [("audio", Server.Upload "alice.wav" "RIFF-alice")]
                      [("name", "Alice")])
    1700000000 0xdeadbeef0123456789abcdef01234567.

Definition world1 : Server.world :=
  fst (Server.dispatch home stack loaded world0 alice).



(** The booted filesystem with a recording that belongs to nobody's
    voice profile, at [/tmp/x/reference.wav]. *)
Definition with_outside_recording : gmap (list string) node :=
  <[ ["tmp"; "x"; "reference.wav"] := File "RIFF-elsewhere" ]>
    (<[ ["tmp"; "x"] := Dir ]> (<[ ["tmp"] := Dir ]> booted)).

(** The client's world once [speak.py] is imported (line 14), and two
    networks: one where nothing listens, one where the service answers. *)
Definition client_world : Client.world :=
  Client.World
    (match FS.makedirs base (Client.OUTPUT_DIR home) with
     | inr fs => fs
     | inl _ => base
     end) [] [] [].

Definition network_down : list (Client.http_request * N) → Client.http_request → N
                          → Client.http_result :=
  fun _ _ _ => Client.HttpFailed (RuntimeFailure "<urlopen error [Errno 111] Connection refused>").

Definition network_up : list (Client.http_request * N) → Client.http_request → N
                        → Client.http_result :=
  fun _ rq _ =>
    if bool_decide (Client.method rq = "GET") then Client.HttpOk 200 "{}"
    else Client.HttpOk 200 "RIFF".

(** A second clone request, whose UUID differs from Alice's but starts
    with the same eight digits, and one whose audio part is empty. *)
Definition bob : Server.arrival :=
  Server.Arrival
    (Server.PostClone [("audio", Server.Upload "bob.wav" "RIFF-bob")]
                      [("name", "Bob")])
    1700000005 0xdeadbeef00000000000000000000ffff.

Definition silent : Server.arrival :=
  Server.Arrival
    (Server.PostClone [("audio", Server.Upload "" "")] [])
    1700000004 0x0badcafe000000000000000000000000.

(** Where the voices directory of this installation is. *)
Definition voices : list string := ["home"; "u"; "qwen3-tts"; "voices"].

(** The filesystem while Alice's clone request is in flight: after the
    first three operations (the recording is stored, the metadata is not
    yet opened) and after the first four (the metadata file is created,
    still empty). *)
Definition alice_ops : list fs_op :=
  Server.clone_ops home (Server.voice_id_of (Server.rand alice)) "Alice" "RIFF-alice".

Definition after_recording : gmap (list string) node :=
  fst (run_ops booted (take 3 alice_ops)).


(** Alice's record as the service sends it: [jsonify] sorts the
    keys. *)
Definition alice_record : json :=
  JObj [("audio", JStr (Server.audio_path home "deadbeef"));
        ("name", JStr "Alice"); ("voice_id", JStr "deadbeef")].

(** Two networks where the service answers the listing: with Alice's
    record, and with her record followed by a voice that is a string. *)
Definition network_listing : list (Client.http_request * N) → Client.http_request → N
                             → Client.http_result :=
  fun _ rq _ =>
    if bool_decide (Client.url rq = Client.SERVER +:+ "/v1/voices")
    then Client.HttpOk 200 (Json.dumps (JObj [("voices", JArr [alice_record])]))
    else Client.HttpOk 200 "{}".

Definition network_listing_bad : list (Client.http_request * N) → Client.http_request → N
                                 → Client.http_result :=
  fun _ rq _ =>
    if bool_decide (Client.url rq = Client.SERVER +:+ "/v1/voices")
    then Client.HttpOk 200
           (Json.dumps (JObj [("voices", JArr [alice_record; JStr "oops"])]))
    else Client.HttpOk 200 "{}".

(** The reason phrases of the service and the help of the parser. *)
Definition reason (code : N) : string :=
  if (code =? 500)%N then "INTERNAL SERVER ERROR" else "BAD REQUEST".

Definition usage : string :=
  "usage: speak.py [-h] [--voice VOICE] [--list] [--status] [text]".

End Sample.

(** * Properties *)

(** ** Strings and paths *)

Section PathFacts.

Lemma app_cons c a b : String c a +:+ b = String c (a +:+ b).
Proof. reflexivity. Qed.

Lemma str_app_assoc a b c : (a +:+ b) +:+ c = a +:+ (b +:+ c).
Proof. induction a as [|x a IH]; [done|]. by rewrite !app_cons, IH. Qed.

Lemma split_sep_nonempty s : Py.split_sep s ≠ [].
Proof.
  destruct s as [|c r]; simpl; [done|].
  case_bool_decide; [done|]. by destruct (Py.split_sep r).
Qed.

Lemma split_sep_app_sep a b :
  Py.split_sep (a +:+ "/" +:+ b) = Py.split_sep a ++ Py.split_sep b.
Proof.
  induction a as [|c a IH]; [done|].
  rewrite app_cons. simpl. case_bool_decide.
  - by rewrite IH.
  - rewrite IH. pose proof (split_sep_nonempty a). by destruct (Py.split_sep a).
Qed.

Lemma split_sep_no_sep s : Py.has_sep s = false → Py.split_sep s = [s].
Proof.
  induction s as [|c s IH]; simpl; [done|].
  intros [Hc Hs]%orb_false_elim. rewrite Hc, (IH Hs). done.
Qed.

Lemma starts_with_sep_no_sep s : Py.has_sep s = false → Py.starts_with_sep s = false.
Proof. destruct s; simpl; [done|]. by intros [? ?]%orb_false_elim. Qed.

Lemma ends_with_sep_app a b : b ≠ "" → Py.ends_with_sep (a +:+ b) = Py.ends_with_sep b.
Proof.
  intros Hb. induction a as [|c a IH]; [done|].
  rewrite app_cons. simpl. rewrite IH.
  destruct (a +:+ b) eqn:E; [|done].
  destruct a; [done|discriminate].
Qed.

Lemma app_nonempty_r a b : b ≠ "" → a +:+ b ≠ "".
Proof. destruct a; [done|]. by rewrite app_cons. Qed.

(** A directory name that is not empty and does not end in a slash
    is joined to a relative component with one slash. *)
Lemma join2_relative dir b :
  dir ≠ "" → Py.ends_with_sep dir = false → Py.starts_with_sep b = false →
  PosixPath.join2 dir b = dir +:+ "/" +:+ b.
Proof.
  intros Hd He Hb. unfold PosixPath.join2. rewrite Hb, He.
  by rewrite bool_decide_eq_false_2.
Qed.

(** An absolute component replaces everything before it. *)
Lemma join2_absolute dir b : Py.starts_with_sep b = true → PosixPath.join2 dir b = b.
Proof. intros Hb. unfold PosixPath.join2. by rewrite Hb. Qed.

Lemma expanduser_home home rest :
  Py.starts_with_sep rest = true →
  PosixPath.expanduser home (String "~" rest) = Py.rstrip_sep home +:+ rest.
Proof.
  intros Hr. unfold PosixPath.expanduser. rewrite Hr, orb_true_r. simpl.
  rewrite bool_decide_eq_false_2; [done|].
  apply app_nonempty_r. by destruct rest.
Qed.

End PathFacts.

(** ** The filesystem *)

Section FsFacts.

Implicit Types (fs : gmap (list string) node) (cur p : list string).

Lemma same_kind_refl n : FS.same_kind n n.
Proof. by destruct n. Qed.

Lemma same_kind_trans a b c : FS.same_kind a b → FS.same_kind b c → FS.same_kind a c.
Proof. by destruct a, b, c. Qed.

Lemma extends_refl fs : FS.extends fs fs.
Proof. intros p n H. exists n. auto using same_kind_refl. Qed.

Lemma extends_trans fs1 fs2 fs3 :
  FS.extends fs1 fs2 → FS.extends fs2 fs3 → FS.extends fs1 fs3.
Proof.
  intros H12 H23 p n H. destruct (H12 p n H) as (n2 & H2 & K2).
  destruct (H23 p n2 H2) as (n3 & H3 & K3). exists n3.
  eauto using same_kind_trans.
Qed.

Lemma extends_insert fs p n :
  (∀ n0, fs !! p = Some n0 → FS.same_kind n0 n) → FS.extends fs (<[p:=n]> fs).
Proof.
  intros H q m Hq. destruct (decide (p = q)) as [->|Hne].
  - exists n. rewrite lookup_insert_eq. auto.
  - exists m. rewrite lookup_insert_ne by done. auto using same_kind_refl.
Qed.

Lemma extends_is_Some fs fs' p : FS.extends fs fs' → is_Some (fs !! p) → is_Some (fs' !! p).
Proof. intros H [n Hn]. destruct (H p n Hn) as (n' & -> & _). eauto. Qed.

Lemma extends_dir fs fs' p : FS.extends fs fs' → fs !! p = Some Dir → fs' !! p = Some Dir.
Proof. intros H Hn. destruct (H p _ Hn) as ([|] & -> & K); [done|done]. Qed.

Lemma extends_node_at_dir fs fs' p :
  FS.extends fs fs' → FS.node_at fs p = Some Dir → FS.node_at fs' p = Some Dir.
Proof. destruct p; [done|]. simpl. apply extends_dir. Qed.

(** Resolution goes through the components one after the other. *)
Lemma walk_app fs cur cs1 cs2 :
  FS.walk fs cur (cs1 ++ cs2) =
  match FS.walk fs cur cs1 with
  | inr p => FS.walk fs p cs2
  | inl e => inl e
  end.
Proof.
  revert cur. induction cs1 as [|c cs1 IH]; intros cur; simpl; [done|].
  destruct (FS.node_at fs cur) as [[|]|]; try done.
  destruct (FS.is_dot c); [apply IH|].
  case_bool_decide; [apply IH|].
  destruct (fs !! (cur ++ [c])); [apply IH|done].
Qed.

(** A path that resolves keeps resolving, to the same place, on a
    filesystem that extends this one. *)
Lemma walk_extends fs fs' cur cs p :
  FS.extends fs fs' → FS.walk fs cur cs = inr p → FS.walk fs' cur cs = inr p.
Proof.
  intros Hext. revert cur. induction cs as [|c cs IH]; intros cur; simpl; [done|].
  destruct (FS.node_at fs cur) as [[|]|] eqn:Hn; try done.
  rewrite (extends_node_at_dir _ _ _ Hext Hn).
  destruct (FS.is_dot c); [apply IH|].
  case_bool_decide; [apply IH|].
  destruct (fs !! (cur ++ [c])) eqn:Hc; [|done].
  destruct (Hext _ _ Hc) as (n' & -> & _). apply IH.
Qed.

Lemma resolve_extends fs fs' path p :
  FS.extends fs fs' → FS.resolve fs path = inr p → FS.resolve fs' path = inr p.
Proof.
  unfold FS.resolve. intros Hext. case_bool_decide; [done|]. by apply walk_extends.
Qed.

Lemma makedirs_from_extends fs fs' cur cs path :
  FS.makedirs_from fs cur cs path = inr fs' → FS.extends fs fs'.
Proof.
  revert fs cur. induction cs as [|c cs IH]; intros fs cur; simpl.
  - destruct (FS.node_at fs cur) as [[|]|]; intros ?; simplify_eq. apply extends_refl.
  - destruct (FS.node_at fs cur) as [[|]|]; try done.
    destruct (FS.is_dot c); [apply IH|].
    case_bool_decide; [apply IH|].
    destruct (fs !! (cur ++ [c])) eqn:Hc; [apply IH|].
    intros Hm%IH. eapply extends_trans; [|exact Hm].
    apply extends_insert. intros n0. by rewrite Hc.
Qed.

(** Creating directories below a path that exists starts where the
    path leads. *)
Lemma makedirs_from_walk fs cur cs cs' path p :
  FS.walk fs cur cs = inr p →
  FS.makedirs_from fs cur (cs ++ cs') path = FS.makedirs_from fs p cs' path.
Proof.
  revert cur. induction cs as [|c cs IH]; intros cur; simpl.
  - by intros [= ->].
  - destruct (FS.node_at fs cur) as [[|]|]; try done.
    destruct (FS.is_dot c); [apply IH|].
    case_bool_decide; [apply IH|].
    destruct (fs !! (cur ++ [c])); [apply IH|done].
Qed.

Lemma open_w_extends fs fs' path : FS.open_w fs path = inr fs' → FS.extends fs fs'.
Proof.
  unfold FS.open_w. destruct (FS.target fs path) as [|p]; [done|].
  destruct (fs !! p) as [[|]|] eqn:Hp; intros ?; simplify_eq;
    apply extends_insert; intros n0; rewrite Hp; intros ?; by simplify_eq.
Qed.

Lemma write_extends fs fs' path data : FS.write fs path data = inr fs' → FS.extends fs fs'.
Proof.
  unfold FS.write. destruct (FS.resolve fs path) as [|p]; [done|].
  destruct (fs !! p) as [[|]|] eqn:Hp; intros ?; simplify_eq;
    apply extends_insert; intros n0; rewrite Hp; intros ?; by simplify_eq.
Qed.

Lemma exec_op_extends fs fs' op : exec_op fs op = inr fs' → FS.extends fs fs'.
Proof.
  destruct op; simpl.
  - unfold FS.makedirs. case_bool_decide; [done|]. apply makedirs_from_extends.
  - apply open_w_extends.
  - apply write_extends.
Qed.

End FsFacts.

(** ** Health *)

Section Health.

Context {Inputs Output Audio : Type}.
Implicit Types g : @Server.globals Inputs Output Audio.

Lemma health_constant g w : Server.health g w = (w, inr Server.health_ok).
Proof. reflexivity. Qed.

Lemma serve_length home stack g w reqs :
  length (snd (Server.serve home stack g w reqs)) = length reqs.
Proof.
  revert w. induction reqs as [|a reqs IH]; intros w; simpl; [done|].
  destruct (Server.dispatch home stack g w a) as [w1 r].
  specialize (IH w1). destruct (Server.serve home stack g w1 reqs) as [w2 rs].
  simpl in *. by rewrite IH.
Qed.

Lemma load_model_ready home stack g :
  Server.load_model home stack = inr g → Server.ready g = true.
Proof.
  unfold Server.load_model.
  destruct (Server.processor_from_pretrained _ _); [done|].
  destruct (Server.model_from_pretrained _ _ _); [done|].
  by intros [= <-].
Qed.

End Health.

(** C1, as the specification states it, fails: the health answer does
    not depend on the globals.  With neither the model nor the processor
    loaded, [health] still answers 200 with status "ok". *)
Lemma C1_health_ready_before_load :
  Server.ready Sample.unloaded = false ∧
  ∃ r, Server.health Sample.unloaded Sample.world0 = (Sample.world0, inr r) ∧
       Server.reports_ready r = true.
Proof. split; [reflexivity|]. eexists. split; reflexivity. Qed.

(** C1, amended: [health] answers 200 with status "ok" whatever the
    state of the model runtime; and a process started through [main]
    answers requests, health requests among them, only after
    [load_model] has returned with both globals set. *)
Theorem C1_health_constant_and_served_after_load
  {Inputs Output Audio : Type} home (stack : @Server.Stack Inputs Output Audio)
  fs0 reqs g w rs :
  Server.main home stack fs0 reqs = Server.Served g w rs →
  Server.load_model home stack = inr g ∧
  Server.ready g = true ∧
  length rs = length reqs ∧
  ∀ (g' : @Server.globals Inputs Output Audio) w',
    Server.health g' w' = (w', inr Server.health_ok) ∧
    Server.reports_ready Server.health_ok = true.
Proof.
  unfold Server.main. intros H.
  destruct (Server.import_module home fs0) as [|fs1]; [done|].
  destruct (Server.load_model home stack) as [|g0] eqn:Hl; [done|].
  pose proof (serve_length home stack g0 (Server.World fs1 []) reqs) as Hlen.
  destruct (Server.serve home stack g0 (Server.World fs1 []) reqs) as [w1 rs1].
  simplify_eq. split_and!; [done|by eapply load_model_ready|done|].
  intros g' w'. split; reflexivity.
Qed.

Lemma C1_health_constant_and_served_after_load_witness :
  Server.load_model Sample.home Sample.stack = inr Sample.loaded ∧
  Server.ready Sample.loaded = true ∧
  length [Server.health_ok] = length [Server.Arrival Server.GetHealth 0 0] ∧
  ∀ (g' : @Server.globals unit unit unit) w',
    Server.health g' w' = (w', inr Server.health_ok) ∧
    Server.reports_ready Server.health_ok = true.
Proof.
  apply (C1_health_constant_and_served_after_load Sample.home Sample.stack
           Sample.base [Server.Arrival Server.GetHealth 0 0]
           Sample.loaded Sample.world0 [Server.health_ok]).
  vm_compute. reflexivity.
Defined.

(** ** Synthesis *)

Section Synthesis.

Context {Inputs Output Audio : Type}.
Variable home : string.
Variable stack : @Server.Stack Inputs Output Audio.
Implicit Types (g : @Server.globals Inputs Output Audio) (w : Server.world).

Lemma tts_unfold g w d now text :
  Json.dict_get d "text" = Some text → Json.truthy text = true →
  Server.text_to_speech home stack (JObj d) now g w =
  Server.catch (Server.synthesize home stack g now text
                  (default (JStr "") (Json.dict_get d "voice_id")) w).
Proof. intros Ht Hy. unfold Server.text_to_speech. rewrite Ht. simpl. by rewrite Hy. Qed.

Lemma synthesize_resolved g w now text voice_id ref_audio :
  Server.resolve_voice home (Server.fs w) voice_id = inr ref_audio →
  Server.synthesize home stack g now text voice_id w =
  Server.pipeline home stack g now text ref_audio w.
Proof.
  intros Hr. unfold Server.synthesize, Server.bind, Server.read_fs. by rewrite Hr.
Qed.

(** A [voice_id] that is true and not a string makes [os.path.join]
    raise: such a request is answered 500 by the [except] clause. *)
Lemma resolve_voice_not_a_string fs z :
  z ≠ 0%Z →
  Server.resolve_voice home fs (JInt z)
  = inl (TypeError
           "join() argument must be str, bytes, or os.PathLike object, not 'int'").
Proof.
  intros Hz. unfold Server.resolve_voice. simpl.
  by destruct (Z.eqb_spec z 0).
Qed.

(** Every step of the pipeline only adds to the log of calls. *)
Lemma bind_grows {A B} (m : Server.M A) (k : A → Server.M B) :
  (∀ w, ∃ more, Server.calls (fst (m w)) = Server.calls w ++ more) →
  (∀ a w, ∃ more, Server.calls (fst (k a w)) = Server.calls w ++ more) →
  ∀ w, ∃ more, Server.calls (fst (Server.bind m k w)) = Server.calls w ++ more.
Proof.
  intros Hm Hk w. unfold Server.bind. destruct (Hm w) as [m1 H1].
  destruct (m w) as [w1 [e|a]]; simpl in *; [eauto|].
  destruct (Hk a w1) as [m2 H2]. exists (m1 ++ m2).
  by rewrite H2, H1, (assoc_L (++)).
Qed.

Lemma lift_grows {A} (r : exn + A) w :
  ∃ more, Server.calls (fst (Server.lift r w)) = Server.calls w ++ more.
Proof. exists []. by rewrite (right_id_L [] (++)). Qed.

Lemma read_fs_grows {A} (f : gmap (list string) node → exn + A) w :
  ∃ more, Server.calls (fst (Server.read_fs f w)) = Server.calls w ++ more.
Proof. exists []. by rewrite (right_id_L [] (++)). Qed.

Lemma ret_grows {A} (a : A) w :
  ∃ more, Server.calls (fst (Server.ret a w)) = Server.calls w ++ more.
Proof. exists []. by rewrite (right_id_L [] (++)). Qed.

Lemma log_grows c w :
  ∃ more, Server.calls (fst (Server.log c w)) = Server.calls w ++ more.
Proof. by exists [c]. Qed.

Lemma sf_do_grows path op w :
  ∃ more, Server.calls (fst (Server.sf_do path op w)) = Server.calls w ++ more.
Proof.
  exists []. unfold Server.sf_do. rewrite (right_id_L [] (++)).
  by destruct (exec_op (Server.fs w) op).
Qed.

(** The first call the pipeline adds to the log is the processor's,
    with the reference recording it was given. *)
Lemma pipeline_first_call g w now text ref_audio p :
  Server.processor g = Some p →
  ∃ more, Server.calls (fst (Server.pipeline home stack g now text ref_audio w)) =
          Server.calls w ++ Server.CallProcessor text ref_audio :: more.
Proof.
  intros Hp. unfold Server.pipeline, Server.the_processor. rewrite Hp.
  unfold Server.bind at 1. simpl. unfold Server.bind at 1. simpl.
  match goal with
  | |- ∃ more, Server.calls (fst (?k ?w1)) = _ =>
      assert (∃ more, Server.calls (fst (k w1)) = Server.calls w1 ++ more) as [more Hm]
  end.
  { repeat (apply bind_grows; [intros ?|intros ? ?]);
      auto using lift_grows, read_fs_grows, ret_grows, log_grows, sf_do_grows. }
  exists more. rewrite Hm. simpl. by rewrite <- (assoc_L (++)).
Qed.

(** A failing [generate] ends the pipeline with its exception, after
    the processor and the model have been called. *)
Lemma pipeline_generate_fails g w now text ref_audio p m i i' e :
  Server.processor g = Some p → Server.model g = Some m →
  Server.proc_call p text ref_audio (Server.fs w) = inr i →
  Server.to_device stack (Server.device stack) i = inr i' →
  Server.generate m i' 2048 = inl e →
  Server.pipeline home stack g now text ref_audio w =
  (Server.World (Server.fs w)
     (Server.calls w ++ [Server.CallProcessor text ref_audio; Server.CallGenerate 2048]),
   inl e).
Proof.
  intros Hp Hm Hc Hd Hg.
  unfold Server.pipeline, Server.bind, Server.lift, Server.log, Server.read_fs,
    Server.the_processor, Server.the_model.
  rewrite Hp, Hm. simpl. rewrite Hc, Hd. simpl. rewrite Hg.
  by rewrite <- (assoc_L (++)).
Qed.

End Synthesis.

(** C7, as the specification states it, fails: a synthesis request
    whose JSON body is not an object has no text, and it is not answered
    with a client error.  [data.get] raises [AttributeError] at line 79,
    before the [try] block, and the answer is the page of status 500.
    So it is for the body [null] and for the body [[]]. *)
Lemma C7_body_without_text_answered_500 :
  let answer data :=
    Server.dispatch Sample.home Sample.stack Sample.loaded Sample.world0
      (Server.Arrival (Server.PostTts data) 1700000000 0) in
  Server.text_to_speech Sample.home Sample.stack JNull 1700000000
    Sample.loaded Sample.world0
    = (Sample.world0, inl (AttributeError "'NoneType' object has no attribute 'get'")) ∧
  answer JNull = (Sample.world0, Response 500 ErrorPage) ∧
  answer (JArr []) = (Sample.world0, Response 500 ErrorPage) ∧
  (status (snd (answer JNull)) <? 500)%N = false.
Proof. intros answer. split_and!; reflexivity. Qed.

(** C7, amended: a synthesis request whose JSON body is an object with
    no text, or with a text that is false (the empty string, [null], 0,
    [false], an empty list or object), is answered 400 with the error
    [No text provided] and leaves the world as it was: the filesystem
    holds no new file and the log shows no call to the processor or the
    model.  A body that is not an object is answered with the page of
    status 500 instead, and leaves the world as it was too. *)
Theorem C7_text_missing_or_false_rejected_without_effect
  {Inputs Output Audio : Type} home (stack : @Server.Stack Inputs Output Audio)
  g w data now rand :
  let answer := Server.dispatch home stack g w
                  (Server.Arrival (Server.PostTts data) now rand) in
  let rejected := Response 400 (JsonBody (JObj [("error", JStr "No text provided")])) in
  (∀ d, data = JObj d →
        Json.truthy (default (JStr "") (Json.dict_get d "text")) = false →
        Server.text_to_speech home stack data now g w = (w, inr rejected) ∧
        answer = (w, rejected)) ∧
  ((∀ d, data ≠ JObj d) → answer = (w, Response 500 ErrorPage)).
Proof.
  intros answer rejected. unfold answer, Server.dispatch, Server.route.
  cbn [Server.req Server.now Server.rand]. split.
  - intros d -> Hfalse.
    assert (Server.text_to_speech home stack (JObj d) now g w = (w, inr rejected)) as E.
    { unfold Server.text_to_speech. by rewrite Hfalse. }
    by rewrite E.
  - intros Hd. unfold Server.text_to_speech.
    destruct data as [| | | | | |d]; try done. by destruct (Hd d).
Qed.

Lemma C7_text_missing_or_false_rejected_without_effect_witness :
  let d := [("text", JInt 0); ("voice_id", JStr "deadbeef")] in
  let rejected := Response 400 (JsonBody (JObj [("error", JStr "No text provided")])) in
  Server.text_to_speech Sample.home Sample.stack (JObj d) 1700000000
    Sample.loaded Sample.world0 = (Sample.world0, inr rejected) ∧
  Server.dispatch Sample.home Sample.stack Sample.loaded Sample.world0
    (Server.Arrival (Server.PostTts (JObj d)) 1700000000 0) = (Sample.world0, rejected).
Proof.
  intros d rejected.
  apply (proj1 (C7_text_missing_or_false_rejected_without_effect Sample.home Sample.stack
                  Sample.loaded Sample.world0 (JObj d) 1700000000 0) d);
    reflexivity.
Defined.



Lemma catch_calls (x : Server.world * (exn + response)) :
  Server.calls (fst (Server.catch x)) = Server.calls (fst x).
Proof. by destruct x as [w [e|r]]. Qed.

(** C10: the reference recording of a synthesis request is looked up
    at the path made by joining the caller's [voice_id] under the voices
    directory, as it comes.  With the id [../../../../tmp/x] that path
    leaves the voices directory, and the request is conditioned on the
    file [/tmp/x/reference.wav]; an absolute id discards the voices
    directory altogether. *)
Theorem C10_voice_id_escapes_voices_dir :
  let fs := Sample.with_outside_recording in
  let voice_id := "../../../../tmp/x" in
  let reference :=
    PosixPath.join (Server.VOICES_DIR Sample.home) [voice_id; "reference.wav"] in
  let ask := JObj [("text", JStr "hi"); ("voice_id", JStr voice_id)] in
  Py.has_sep voice_id = true ∧
  Server.resolve_voice Sample.home fs (JStr voice_id) = inr (Some reference) ∧
  FS.resolve fs (Server.VOICES_DIR Sample.home) = inr ["home"; "u"; "qwen3-tts"; "voices"] ∧
  FS.resolve fs reference = inr ["tmp"; "x"; "reference.wav"] ∧
  FS.strip_prefix ["home"; "u"; "qwen3-tts"; "voices"] ["tmp"; "x"; "reference.wav"] = None ∧
  Server.calls (fst (Server.text_to_speech Sample.home Sample.stack ask 1700000002
                       Sample.loaded (Server.World fs [])))
    = [ Server.CallProcessor (JStr "hi") (Some reference); Server.CallGenerate 2048;
        Server.CallDecode;
        Server.CallSoundfile (Server.output_path Sample.home 1700000002) 24000 ] ∧
  ∀ home, PosixPath.join (Server.VOICES_DIR home) ["/tmp/x"; "reference.wav"]
          = "/tmp/x/reference.wav".
Proof.
  intros fs voice_id reference ask.
  split_and!; vm_compute; reflexivity.
Qed.

(** ** The client *)

(** C9: when the health check fails, [generate] prints the two lines
    of guidance on the error stream and exits with status 1, having sent
    the health request only and left its filesystem and its standard
    output as they were; when [generate] returns, the path of the file
    is the one line it added to the standard output. *)
Theorem C9_generate_gated_by_health home urlopen text voice_id now w :
  (snd (Client.check_server urlopen w) = false →
   Client.generate home urlopen text voice_id now w =
   (Client.World (Client.fs w) (Client.stdout w)
      (Client.stderr w ++
         [ "Erreur: serveur local non démarré. Lance VoiceCloneMemo ou:";
           "  bash ~/.voiceclonememo/start.sh" ])
      (Client.sent w ++ [(Client.health_request, 2%N)]),
    Client.Exit 1)) ∧
  (∀ path,
   snd (Client.generate home urlopen text voice_id now w) = Client.Return path →
   let w' := fst (Client.generate home urlopen text voice_id now w) in
   snd (Client.check_server urlopen w) = true ∧
   path = Client.output_path home now ∧
   Client.stdout w' = Client.stdout w ++ [path] ∧
   Client.stderr w' = Client.stderr w ∧
   Client.sent w' = Client.sent w ++ [ (Client.health_request, 2%N);
                                       (Client.tts_request text voice_id, 120%N) ]).
Proof.
  unfold Client.generate, Client.check_server, Client.send,
    Client.print_err, Client.print_out. simpl. split.
  - intros Hdown.
    destruct (urlopen (Client.sent w) Client.health_request 2%N) as [st b|c b|e];
      simpl in *; [rewrite Hdown; simpl|..];
      by rewrite <- (assoc_L (++)).
  - intros path.
    destruct (urlopen (Client.sent w) Client.health_request 2%N) as [st b|c b|e];
      simpl; [|done|done].
    destruct (st =? 200)%N; simpl; [|done].
    destruct (urlopen _ (Client.tts_request text voice_id) 120%N) as [st' b'|c b'|e];
      simpl; [|done|done].
    destruct (FS.open_w _ _) as [e1|fs1]; simpl; [done|].
    destruct (FS.write _ _ _) as [e2|fs2]; simpl; [done|].
    intros [= <-]. simpl. by rewrite <- (assoc_L (++)).
Qed.

Lemma C9_generate_gated_by_health_witness :
  Client.generate Sample.home Sample.network_down "bonjour" None 1700000003
    Sample.client_world
  = (Client.World (Client.fs Sample.client_world) []
       [ "Erreur: serveur local non démarré. Lance VoiceCloneMemo ou:";
         "  bash ~/.voiceclonememo/start.sh" ]
       [(Client.health_request, 2%N)],
     Client.Exit 1) ∧
  let path := "/home/u/.clawdbot/media/tts/tts_1700000003.wav" in
  let w' := fst (Client.generate Sample.home Sample.network_up "bonjour" None 1700000003
                   Sample.client_world) in
  snd (Client.check_server Sample.network_up Sample.client_world) = true ∧
  path = Client.output_path Sample.home 1700000003 ∧
  Client.stdout w' = [] ++ [path] ∧
  Client.stderr w' = [] ∧
  Client.sent w' = [] ++ [ (Client.health_request, 2%N);
                           (Client.tts_request "bonjour" None, 120%N) ].
Proof.
  split.
  - apply (proj1 (C9_generate_gated_by_health Sample.home Sample.network_down
                    "bonjour" None 1700000003 Sample.client_world)).
    reflexivity.
  - intros path w'.
    apply (proj2 (C9_generate_gated_by_health Sample.home Sample.network_up
                    "bonjour" None 1700000003 Sample.client_world) path).
    vm_compute. reflexivity.
Defined.

(** ** Voice ids *)

Section VoiceIds.

Lemma hex_char_inj a b :
  (a < 16)%N → (b < 16)%N → Json.hex_char a = Json.hex_char b → a = b.
Proof.
  intros Ha Hb.
  assert (a = 0 ∨ a = 1 ∨ a = 2 ∨ a = 3 ∨ a = 4 ∨ a = 5 ∨ a = 6 ∨ a = 7 ∨ a = 8
          ∨ a = 9 ∨ a = 10 ∨ a = 11 ∨ a = 12 ∨ a = 13 ∨ a = 14 ∨ a = 15)%N
    as Ea by lia.
  assert (b = 0 ∨ b = 1 ∨ b = 2 ∨ b = 3 ∨ b = 4 ∨ b = 5 ∨ b = 6 ∨ b = 7 ∨ b = 8
          ∨ b = 9 ∨ b = 10 ∨ b = 11 ∨ b = 12 ∨ b = 13 ∨ b = 14 ∨ b = 15)%N
    as Eb by lia.
  destruct_or!; subst; simpl; intros; first [done|discriminate].
Qed.

Lemma hex_char_no_sep n : Json.hex_char n ≠ "/"%char.
Proof. unfold Json.hex_char. by repeat case_match. Qed.

(** Equal digit strings come from numbers equal modulo [16^k]. *)
Lemma hex_go_inj k x y acc acc' :
  Uuid.hex_go k x acc = Uuid.hex_go k y acc' →
  (x mod 16 ^ N.of_nat k = y mod 16 ^ N.of_nat k)%N ∧ acc = acc'.
Proof.
  revert x y acc acc'. induction k as [|k IH]; intros x y acc acc' H.
  - simpl in *. by rewrite !N.mod_1_r.
  - simpl in H. apply IH in H as [Hq Hacc]. injection Hacc as Hd ->.
    split; [|done].
    apply hex_char_inj in Hd; [|by apply N.mod_lt..].
    rewrite Nat2N.inj_succ, N.pow_succ_r'.
    rewrite !N.Div0.mod_mul_r. by rewrite Hq, Hd.
Qed.

Lemma hex_go_acc k n acc : Uuid.hex_go k n acc = Uuid.hex_go k n "" +:+ acc.
Proof.
  revert n acc. induction k as [|k IH]; intros n acc; simpl; [done|].
  rewrite (IH _ (String _ acc)), (IH _ (String _ "")).
  by rewrite str_app_assoc.
Qed.

Lemma hex_go_split k j n acc :
  Uuid.hex_go (k + j) n acc
  = Uuid.hex_go k (n / 16 ^ N.of_nat j) "" +:+ Uuid.hex_go j n acc.
Proof.
  revert n acc. induction j as [|j IH]; intros n acc.
  - rewrite Nat.add_0_r. simpl. rewrite N.div_1_r. apply hex_go_acc.
  - rewrite Nat.add_succ_r. simpl Uuid.hex_go. rewrite IH.
    rewrite Nat2N.inj_succ, N.pow_succ_r', N.Div0.div_div. done.
Qed.

Lemma hex_go_length k n : String.length (Uuid.hex_go k n "") = k.
Proof.
  assert (∀ acc, String.length (Uuid.hex_go k n acc) = k + String.length acc) as H.
  { revert n. induction k as [|k IH]; intros n acc; simpl; [done|].
    rewrite IH. simpl. lia. }
  rewrite H. simpl. lia.
Qed.

Lemma substring_prefix a b : String.substring 0 (String.length a) (a +:+ b) = a.
Proof.
  induction a as [|c a IH]; [by destruct b|].
  rewrite app_cons. simpl. by rewrite IH.
Qed.

(** Forcing the version and variant bits leaves the 32 leading bits
    of the 128 as they were drawn. *)
Lemma uuid4_top r : (Uuid.uuid4 r / 2 ^ 96 = r / 2 ^ 96)%N.
Proof.
  rewrite <- !N.shiftr_div_pow2. apply N.bits_inj. intros i.
  rewrite !N.shiftr_spec by lia. unfold Uuid.uuid4.
  rewrite N.lor_spec, N.ldiff_spec, N.lor_spec, N.ldiff_spec.
  assert (∀ c, (N.log2 c < 96)%N → N.testbit c (i + 96) = false) as Hc.
  { intros c Hlt. apply N.bits_above_log2. lia. }
  rewrite (Hc (N.shiftl 49152 48)), (Hc (N.shiftl 32768 48)),
    (Hc (N.shiftl 61440 64)), (Hc (N.shiftl 4 76)) by (vm_compute; reflexivity).
  by rewrite !orb_false_r, !andb_true_r.
Qed.

(** The voice id is the eight hexadecimal digits of the leading 32 bits. *)
Lemma voice_id_of_digits r :
  Server.voice_id_of r = Uuid.hex_go 8 (r / 2 ^ 96) "".
Proof.
  unfold Server.voice_id_of, Py.take, Uuid.str, Uuid.hex32.
  change 32 with (8 + 24). rewrite hex_go_split.
  change (16 ^ N.of_nat 24)%N with (2 ^ 96)%N. rewrite uuid4_top.
  set (a := Uuid.hex_go 8 (r / 2 ^ 96) "").
  assert (∀ rest, String.substring 0 8 (a +:+ rest) = a) as Ha.
  { intros rest. pose proof (substring_prefix a rest) as H.
    unfold a in H at 1. by rewrite hex_go_length in H. }
  by rewrite !Ha.
Qed.

Lemma voice_id_of_eq_iff r1 r2 :
  (r1 < 2 ^ 128)%N → (r2 < 2 ^ 128)%N →
  Server.voice_id_of r1 = Server.voice_id_of r2 ↔ (r1 / 2 ^ 96 = r2 / 2 ^ 96)%N.
Proof.
  intros H1 H2. rewrite !voice_id_of_digits. split; [|by intros ->].
  intros [Hm _]%hex_go_inj.
  change (16 ^ N.of_nat 8)%N with (2 ^ 32)%N in Hm.
  assert (∀ r, (r < 2 ^ 128)%N → (r / 2 ^ 96 < 2 ^ 32)%N) as Hlt.
  { intros r Hr. apply N.Div0.div_lt_upper_bound.
    by change (2 ^ 96 * 2 ^ 32)%N with (2 ^ 128)%N. }
  by rewrite !N.mod_small in Hm by auto.
Qed.

(** A voice id is a plain file name: hexadecimal digits only. *)
Lemma voice_id_of_plain r : FS.plain_name (Server.voice_id_of r) = true.
Proof.
  rewrite voice_id_of_digits. generalize (r / 2 ^ 96)%N. intros x.
  cbn [Uuid.hex_go]. unfold FS.plain_name, FS.is_dot. cbn [Py.has_sep].
  rewrite !(bool_decide_eq_false_2 (Json.hex_char _ = "/"%char))
    by apply hex_char_no_sep.
  rewrite !bool_decide_eq_false_2 by discriminate. done.
Qed.

End VoiceIds.

(** ** Paths of the registry *)

Section RegistryPaths.

Variable home : string.

Implicit Types (fs : gmap (list string) node) (vp : list string) (d f : string).

Lemma VOICES_DIR_eq :
  Server.VOICES_DIR home = Py.rstrip_sep home +:+ "/qwen3-tts/voices".
Proof. unfold Server.VOICES_DIR. by rewrite expanduser_home. Qed.

Lemma OUTPUT_DIR_eq :
  Server.OUTPUT_DIR home = Py.rstrip_sep home +:+ "/qwen3-tts/output".
Proof. unfold Server.OUTPUT_DIR. by rewrite expanduser_home. Qed.

Lemma VOICES_DIR_nonempty : Server.VOICES_DIR home ≠ "".
Proof. rewrite VOICES_DIR_eq. by apply app_nonempty_r. Qed.

Lemma VOICES_DIR_open : Py.ends_with_sep (Server.VOICES_DIR home) = false.
Proof. rewrite VOICES_DIR_eq. by rewrite ends_with_sep_app. Qed.

Lemma OUTPUT_DIR_nonempty : Server.OUTPUT_DIR home ≠ "".
Proof. rewrite OUTPUT_DIR_eq. by apply app_nonempty_r. Qed.

Lemma OUTPUT_DIR_open : Py.ends_with_sep (Server.OUTPUT_DIR home) = false.
Proof. rewrite OUTPUT_DIR_eq. by rewrite ends_with_sep_app. Qed.

Lemma plain_name_no_sep d : FS.plain_name d = true → Py.has_sep d = false.
Proof. unfold FS.plain_name. by intros [[?%negb_true_iff _]%andb_true_iff _]%andb_true_iff. Qed.

Lemma plain_name_not_dot d : FS.plain_name d = true → FS.is_dot d = false.
Proof. unfold FS.plain_name. by intros [[_ ?%negb_true_iff]%andb_true_iff _]%andb_true_iff. Qed.

Lemma plain_name_not_dotdot d : FS.plain_name d = true → d ≠ "..".
Proof.
  unfold FS.plain_name.
  by intros [_ ?%negb_true_iff%bool_decide_eq_false]%andb_true_iff.
Qed.

Lemma plain_name_nonempty d : FS.plain_name d = true → d ≠ "".
Proof.
  intros H%plain_name_not_dot ->. discriminate.
Qed.

Lemma ends_with_sep_no_sep d : Py.has_sep d = false → Py.ends_with_sep d = false.
Proof.
  induction d as [|c d IH]; [done|]. simpl.
  intros [Hc Hd]%orb_false_elim. destruct d; [done|]. by apply IH.
Qed.

(** Joining a plain name under a directory adds one component. *)
Lemma join2_plain dir d :
  dir ≠ "" → Py.ends_with_sep dir = false → Py.has_sep d = false →
  PosixPath.join2 dir d = dir +:+ "/" +:+ d ∧
  Py.split_sep (PosixPath.join2 dir d) = Py.split_sep dir ++ [d].
Proof.
  intros Hd He Hs.
  assert (PosixPath.join2 dir d = dir +:+ "/" +:+ d) as E.
  { apply join2_relative; auto using starts_with_sep_no_sep. }
  split; [done|]. by rewrite E, split_sep_app_sep, (split_sep_no_sep d).
Qed.

Lemma join2_plain_open dir d :
  dir ≠ "" → Py.ends_with_sep dir = false → FS.plain_name d = true →
  PosixPath.join2 dir d ≠ "" ∧ Py.ends_with_sep (PosixPath.join2 dir d) = false.
Proof.
  intros Hd He Hp. pose proof (plain_name_no_sep d Hp) as Hs.
  destruct (join2_plain dir d Hd He Hs) as [-> _]. split.
  - apply app_nonempty_r. discriminate.
  - rewrite ends_with_sep_app by discriminate.
    change ("/" +:+ d) with (String "/" d).
    pose proof (plain_name_nonempty d Hp).
    destruct d as [|c d]; [done|]. simpl.
    by apply (ends_with_sep_no_sep (String c d)).
Qed.

(** The components of [VOICES_DIR/d] and of [VOICES_DIR/d/f]. *)
Lemma split_voice_dir d :
  FS.plain_name d = true →
  Py.split_sep (Server.voice_dir home d) = Py.split_sep (Server.VOICES_DIR home) ++ [d].
Proof.
  intros Hp. unfold Server.voice_dir, PosixPath.join. simpl.
  apply join2_plain; auto using VOICES_DIR_nonempty, VOICES_DIR_open, plain_name_no_sep.
Qed.

Lemma split_profile_file d f :
  FS.plain_name d = true → Py.has_sep f = false →
  Py.split_sep (PosixPath.join (Server.VOICES_DIR home) [d; f])
  = Py.split_sep (Server.VOICES_DIR home) ++ [d; f].
Proof.
  intros Hp Hf. unfold PosixPath.join. simpl.
  destruct (join2_plain_open (Server.VOICES_DIR home) d) as [Hne Hop];
    auto using VOICES_DIR_nonempty, VOICES_DIR_open.
  destruct (join2_plain _ f Hne Hop Hf) as [_ ->].
  destruct (join2_plain (Server.VOICES_DIR home) d) as [_ ->];
    auto using VOICES_DIR_nonempty, VOICES_DIR_open, plain_name_no_sep.
  by rewrite <- (assoc_L (++)).
Qed.

Lemma profile_file_nonempty d f :
  FS.plain_name d = true → Py.has_sep f = false →
  PosixPath.join (Server.VOICES_DIR home) [d; f] ≠ "".
Proof.
  intros Hp Hf E. pose proof (split_profile_file d f Hp Hf) as H.
  rewrite E in H. simpl in H.
  pose proof (split_sep_nonempty (Server.VOICES_DIR home)).
  destruct (Py.split_sep (Server.VOICES_DIR home)) as [|a [|b l]]; simplify_eq/=.
Qed.

End RegistryPaths.

(** ** The registry on the filesystem *)

Section RegistryFs.

Variable home : string.
Variable fs : gmap (list string) node.
Variable vp : list string.

(** The voices directory exists, at [vp]. *)
Hypothesis voices_at : FS.resolve fs (Server.VOICES_DIR home) = inr vp.
Hypothesis voices_dir : FS.node_at fs vp = Some Dir.

Lemma node_at_snoc (m : gmap (list string) node) p c : FS.node_at m (p ++ [c]) = m !! (p ++ [c]).
Proof. by destruct p. Qed.

Lemma walk_plain (m : gmap (list string) node) cur c rest :
  FS.node_at m cur = Some Dir → FS.plain_name c = true →
  FS.walk m cur (c :: rest) =
  match m !! (cur ++ [c]) with
  | Some _ => FS.walk m (cur ++ [c]) rest
  | None => inl ENOENT
  end.
Proof.
  intros Hd Hp. simpl. rewrite Hd, (plain_name_not_dot c Hp).
  by rewrite bool_decide_eq_false_2 by by apply plain_name_not_dotdot.
Qed.

Lemma walk_voices : FS.walk fs [] (Py.split_sep (Server.VOICES_DIR home)) = inr vp.
Proof using voices_at.
  unfold FS.resolve in voices_at.
  by rewrite bool_decide_eq_false_2 in voices_at by apply VOICES_DIR_nonempty.
Qed.

(** Where [VOICES_DIR/d/f] leads. *)
Lemma resolve_profile_file d f :
  FS.plain_name d = true → FS.plain_name f = true →
  FS.resolve fs (PosixPath.join (Server.VOICES_DIR home) [d; f]) =
  match fs !! (vp ++ [d]) with
  | Some Dir =>
      match fs !! (vp ++ [d; f]) with
      | Some _ => inr (vp ++ [d; f])
      | None => inl ENOENT
      end
  | Some (File _) => inl ENOTDIR
  | None => inl ENOENT
  end.
Proof using voices_at voices_dir.
  intros Hd Hf. unfold FS.resolve.
  rewrite bool_decide_eq_false_2
    by (apply profile_file_nonempty; auto using plain_name_no_sep).
  rewrite split_profile_file by auto using plain_name_no_sep.
  rewrite walk_app, walk_voices, walk_plain by done.
  destruct (fs !! (vp ++ [d])) as [n|] eqn:Hn; [|done].
  destruct n as [x|].
  - simpl. by rewrite node_at_snoc, Hn.
  - rewrite walk_plain by (by rewrite ?node_at_snoc).
    rewrite <- (assoc_L (++)). simpl. by destruct (fs !! (vp ++ [d; f])).
Qed.

(** Where [open(VOICES_DIR/d/f, "w")] puts its file. *)
Lemma target_profile_file d f :
  FS.plain_name d = true → FS.plain_name f = true →
  let path := PosixPath.join (Server.VOICES_DIR home) [d; f] in
  FS.target fs path =
  match fs !! (vp ++ [d]) with
  | Some Dir => inr (vp ++ [d; f])
  | Some (File _) => inl (OSError ENOTDIR path)
  | None => inl (OSError ENOENT path)
  end.
Proof using voices_at voices_dir.
  intros Hd Hf path. unfold FS.target.
  rewrite bool_decide_eq_false_2
    by (apply profile_file_nonempty; auto using plain_name_no_sep).
  unfold path. rewrite split_profile_file by auto using plain_name_no_sep.
  change [d; f] with ([d] ++ [f]). rewrite (assoc_L (++)).
  rewrite removelast_last, last_last.
  rewrite walk_app, walk_voices, walk_plain by done.
  destruct (fs !! (vp ++ [d])) as [n|] eqn:Hn; [|done]. simpl.
  rewrite node_at_snoc, Hn. destruct n; [done|].
  rewrite (plain_name_not_dot f Hf). simpl.
  rewrite bool_decide_eq_false_2 by by apply plain_name_not_dotdot.
  by rewrite <- (assoc_L (++)).
Qed.

(** [os.makedirs(VOICES_DIR/d, exist_ok=True)] *)
Lemma makedirs_voice_dir d :
  FS.plain_name d = true →
  FS.makedirs fs (Server.voice_dir home d) =
  match fs !! (vp ++ [d]) with
  | Some Dir => inr fs
  | Some (File _) => inl (OSError EEXIST (Server.voice_dir home d))
  | None => inr (<[vp ++ [d] := Dir]> fs)
  end.
Proof using voices_at voices_dir.
  intros Hd. unfold FS.makedirs.
  assert (Server.voice_dir home d ≠ "") as Hne.
  { intros E. pose proof (split_voice_dir home d Hd) as H. rewrite E in H.
    pose proof (split_sep_nonempty (Server.VOICES_DIR home)).
    destruct (Py.split_sep (Server.VOICES_DIR home)) as [|a [|b l]]; simplify_eq/=. }
  rewrite bool_decide_eq_false_2 by done.
  rewrite split_voice_dir by done.
  rewrite (makedirs_from_walk _ _ _ _ _ _ walk_voices).
  simpl. rewrite voices_dir, (plain_name_not_dot d Hd).
  rewrite bool_decide_eq_false_2 by by apply plain_name_not_dotdot.
  destruct (fs !! (vp ++ [d])) as [n|] eqn:Hn.
  - rewrite node_at_snoc, Hn. by destruct n.
  - by rewrite node_at_snoc, lookup_insert_eq.
Qed.

End RegistryFs.

(** ** Cloning a voice *)

Section Clone.

Variable home : string.

Implicit Types (fs : gmap (list string) node) (vp : list string) (d f : string).

Lemma registry_at_extends fs fs' vp :
  FS.extends fs fs' → Server.registry_at home fs vp → Server.registry_at home fs' vp.
Proof.
  intros Hext [Hr Hd]. split; eauto using resolve_extends, extends_node_at_dir.
Qed.

Lemma open_w_profile_file fs vp d f :
  Server.registry_at home fs vp → FS.plain_name d = true → FS.plain_name f = true →
  FS.open_w fs (PosixPath.join (Server.VOICES_DIR home) [d; f]) =
  match fs !! (vp ++ [d]) with
  | Some Dir =>
      match fs !! (vp ++ [d; f]) with
      | Some Dir => inl (OSError EISDIR (PosixPath.join (Server.VOICES_DIR home) [d; f]))
      | _ => inr (<[vp ++ [d; f] := File ""]> fs)
      end
  | Some (File _) => inl (OSError ENOTDIR (PosixPath.join (Server.VOICES_DIR home) [d; f]))
  | None => inl (OSError ENOENT (PosixPath.join (Server.VOICES_DIR home) [d; f]))
  end.
Proof.
  intros [Hr Hd] Hpd Hpf. unfold FS.open_w.
  rewrite (target_profile_file home fs vp Hr Hd d f Hpd Hpf).
  by destruct (fs !! (vp ++ [d])) as [[|]|].
Qed.

Lemma write_profile_file fs vp d f data :
  Server.registry_at home fs vp → FS.plain_name d = true → FS.plain_name f = true →
  FS.write fs (PosixPath.join (Server.VOICES_DIR home) [d; f]) data =
  match fs !! (vp ++ [d]) with
  | Some Dir =>
      match fs !! (vp ++ [d; f]) with
      | Some (File _) => inr (<[vp ++ [d; f] := File data]> fs)
      | Some Dir => inl (OSError EISDIR (PosixPath.join (Server.VOICES_DIR home) [d; f]))
      | None => inl (OSError ENOENT (PosixPath.join (Server.VOICES_DIR home) [d; f]))
      end
  | Some (File _) => inl (OSError ENOTDIR (PosixPath.join (Server.VOICES_DIR home) [d; f]))
  | None => inl (OSError ENOENT (PosixPath.join (Server.VOICES_DIR home) [d; f]))
  end.
Proof.
  intros [Hr Hd] Hpd Hpf. unfold FS.write.
  rewrite (resolve_profile_file home fs vp Hr Hd d f Hpd Hpf).
  destruct (fs !! (vp ++ [d])) as [[|]|]; try done.
  destruct (fs !! (vp ++ [d; f])) as [[|]|] eqn:E; try done; by rewrite E.
Qed.

Lemma registry_at_insert_file fs vp key data :
  Server.registry_at home fs vp → fs !! key ≠ Some Dir →
  Server.registry_at home (<[key := File data]> fs) vp.
Proof.
  intros Hreg Hk. eapply registry_at_extends; [|exact Hreg].
  apply extends_insert. intros [x|] Hn; [done|by rewrite Hn in Hk].
Qed.

(** The four file operations of a clone request, on a profile
    directory that exists: they succeed and leave the two files. *)
Lemma clone_files_run fs vp d data record :
  Server.registry_at home fs vp → FS.plain_name d = true →
  fs !! (vp ++ [d]) = Some Dir →
  fs !! (vp ++ [d; "reference.wav"]) ≠ Some Dir →
  fs !! (vp ++ [d; "meta.json"]) ≠ Some Dir →
  ∃ fs', run_ops fs [ OpenW (Server.audio_path home d);
                      Write (Server.audio_path home d) data;
                      OpenW (Server.meta_path home d);
                      Write (Server.meta_path home d) record ] = (fs', None) ∧
         fs' !! (vp ++ [d]) = Some Dir ∧
         fs' !! (vp ++ [d; "reference.wav"]) = Some (File data) ∧
         fs' !! (vp ++ [d; "meta.json"]) = Some (File record).
Proof.
  intros Hreg Hd Hdir Ha Hm.
  change (Server.audio_path home d)
    with (PosixPath.join (Server.VOICES_DIR home) [d; "reference.wav"]).
  change (Server.meta_path home d)
    with (PosixPath.join (Server.VOICES_DIR home) [d; "meta.json"]).
  assert (vp ++ [d; "reference.wav"] ≠ vp ++ [d]) as N1
    by (intros H%app_inv_head; discriminate).
  assert (vp ++ [d; "meta.json"] ≠ vp ++ [d]) as N2
    by (intros H%app_inv_head; discriminate).
  assert (vp ++ [d; "reference.wav"] ≠ vp ++ [d; "meta.json"]) as N3
    by (intros H%app_inv_head; discriminate).
  set (a := vp ++ [d; "reference.wav"]) in *.
  set (m := vp ++ [d; "meta.json"]) in *.
  set (fs1 := <[a := File ""]> fs).
  set (fs2 := <[a := File data]> fs1).
  set (fs3 := <[m := File ""]> fs2).
  set (fs4 := <[m := File record]> fs3).
  assert (Server.registry_at home fs1 vp) as R1 by by apply registry_at_insert_file.
  assert (Server.registry_at home fs2 vp) as R2.
  { apply registry_at_insert_file; [done|]. unfold fs1. by rewrite lookup_insert_eq. }
  assert (Server.registry_at home fs3 vp) as R3.
  { apply registry_at_insert_file; [done|]. unfold fs2, fs1.
    by rewrite !lookup_insert_ne. }
  exists fs4. split_and!.
  - cbn [run_ops exec_op].
    rewrite (open_w_profile_file fs vp d "reference.wav" Hreg Hd eq_refl), Hdir.
    fold a. replace (match fs !! a with Some Dir => _ | _ => inr (<[a:=File ""]> fs) end)
      with (inr (B:=gmap (list string) node) (A:=exn) fs1)
      by (by destruct (fs !! a) as [[|]|]).
    rewrite (write_profile_file fs1 vp d "reference.wav" data R1 Hd eq_refl).
    fold a. unfold fs1 at 1 2. rewrite lookup_insert_ne, Hdir, lookup_insert_eq by done.
    fold fs1 fs2.
    rewrite (open_w_profile_file fs2 vp d "meta.json" R2 Hd eq_refl).
    fold m. unfold fs2 at 1 2, fs1 at 1 2. rewrite !lookup_insert_ne, Hdir by done.
    fold fs1 fs2.
    replace (match fs !! m with Some Dir => _ | _ => inr (<[m:=File ""]> fs2) end)
      with (inr (B:=gmap (list string) node) (A:=exn) fs3)
      by (by destruct (fs !! m) as [[|]|]).
    rewrite (write_profile_file fs3 vp d "meta.json" record R3 Hd eq_refl).
    fold m. unfold fs3 at 1 2, fs2 at 1, fs1 at 1.
    rewrite !lookup_insert_ne, Hdir, lookup_insert_eq by done. done.
  - unfold fs4, fs3, fs2, fs1. by rewrite !lookup_insert_ne.
  - unfold fs4, fs3, fs2. rewrite !lookup_insert_ne by by apply not_eq_sym.
    by rewrite lookup_insert_eq.
  - unfold fs4. by rewrite lookup_insert_eq.
Qed.

Lemma run_ops_cons fs op ops :
  run_ops fs (op :: ops) =
  match exec_op fs op with
  | inl e => (fs, Some e)
  | inr fs' => run_ops fs' ops
  end.
Proof. reflexivity. Qed.

(** A clone request whose place in the registry is usable runs to its
    end and leaves the profile directory with its two files. *)
Lemma clone_ops_run fs vp d name data :
  Server.registry_at home fs vp → FS.plain_name d = true →
  Server.slot_usable fs vp d →
  ∃ fs', run_ops fs (Server.clone_ops home d name data) = (fs', None) ∧
         fs' !! (vp ++ [d]) = Some Dir ∧
         fs' !! (vp ++ [d; "reference.wav"]) = Some (File data) ∧
         fs' !! (vp ++ [d; "meta.json"])
           = Some (File (Json.dumps (Server.meta home name d))).
Proof.
  intros Hreg Hd (Hslot & Ha & Hm). unfold Server.clone_ops.
  rewrite run_ops_cons. cbn [exec_op].
  destruct Hreg as [Hr Hv].
  rewrite (makedirs_voice_dir home fs vp Hr Hv d Hd).
  assert (vp ++ [d; "reference.wav"] ≠ vp ++ [d]) as N1
    by (intros H%app_inv_head; discriminate).
  assert (vp ++ [d; "meta.json"] ≠ vp ++ [d]) as N2
    by (intros H%app_inv_head; discriminate).
  destruct (fs !! (vp ++ [d])) as [[x|]|] eqn:E.
  - by destruct (Hslot x).
  - by apply clone_files_run.
  - apply clone_files_run; [|done|..].
    + eapply registry_at_extends; [|by split].
      apply extends_insert. intros n0. by rewrite E.
    + by rewrite lookup_insert_eq.
    + by rewrite lookup_insert_ne by by apply not_eq_sym.
    + by rewrite lookup_insert_ne by by apply not_eq_sym.
Qed.

End Clone.

(** ** Resolving the voice of a synthesis request *)

(** C2, as the specification states it, fails.  A [voice_id] that is
    true and is not a string names no stored profile, and the request
    fails while the voice is resolved: [os.path.join] raises [TypeError]
    and the answer is 500, with no call to the processor.  And an id
    that names no stored profile can still point to a recording: with
    an empty registry, the id [../../../../tmp/x] conditions the
    synthesis on the file [/tmp/x/reference.wav]. *)
Lemma C2_voice_resolution_can_fail :
  let ask v := JObj [("text", JStr "hi"); ("voice_id", v)] in
  FS.children (Server.fs Sample.world0) Sample.voices = [] ∧
  Server.resolve_voice Sample.home (Server.fs Sample.world0) (JInt 7)
    = inl (TypeError
             "join() argument must be str, bytes, or os.PathLike object, not 'int'") ∧
  Server.text_to_speech Sample.home Sample.stack (ask (JInt 7)) 1700000002
    Sample.loaded Sample.world0
    = (Sample.world0,
       inr (Response 500
              (JsonBody
                 (JObj [("error",
                         JStr "join() argument must be str, bytes, or os.PathLike object, not 'int'")])))) ∧
  FS.children Sample.with_outside_recording Sample.voices = [] ∧
  Server.calls (fst (Server.text_to_speech Sample.home Sample.stack
                       (ask (JStr "../../../../tmp/x")) 1700000002 Sample.loaded
                       (Server.World Sample.with_outside_recording [])))
    = [ Server.CallProcessor (JStr "hi")
          (Some "/home/u/qwen3-tts/voices/../../../../tmp/x/reference.wav");
        Server.CallGenerate 2048; Server.CallDecode;
        Server.CallSoundfile (Server.output_path Sample.home 1700000002) 24000 ].
Proof. intros ask. split_and!; vm_compute; reflexivity. Qed.

(** C2, amended: with a text to speak, what a request does with its
    [voice_id] depends on the kind of the id.  An id that is absent or
    false (the empty string, [null], 0, [false]), or a string for which
    no file [VOICES_DIR/<id>/reference.wav] exists, raises nothing while
    the voice is resolved and runs the pipeline on the text alone.  A
    string for which that file exists runs it on that recording.  Either
    way the processor is the first call made, with exactly that choice.
    An id that is true and not a string fails in the resolution: the
    answer is 500 with the message of the [TypeError], and nothing has
    changed.  For an id that is a plain name, in a registry that exists,
    the file exists exactly when the registry holds a profile directory
    of that name with a [reference.wav] in it. *)
Theorem C2_voice_resolution_by_kind_of_id
  {Inputs Output Audio : Type} home (stack : @Server.Stack Inputs Output Audio)
  g w d now text :
  Json.dict_get d "text" = Some text → Json.truthy text = true →
  let voice_id := default (JStr "") (Json.dict_get d "voice_id") in
  let reference s := PosixPath.join (Server.VOICES_DIR home) [s; "reference.wav"] in
  let answer := Server.text_to_speech home stack (JObj d) now g w in
  (Json.truthy voice_id = false ∨
   (∃ s, voice_id = JStr s ∧ FS.exists_ (Server.fs w) (reference s) = false) →
   Server.resolve_voice home (Server.fs w) voice_id = inr None ∧
   answer = Server.catch (Server.pipeline home stack g now text None w) ∧
   ∀ p, Server.processor g = Some p →
     ∃ more, Server.calls (fst answer)
             = Server.calls w ++ Server.CallProcessor text None :: more) ∧
  (∀ s, voice_id = JStr s → s ≠ "" →
        FS.exists_ (Server.fs w) (reference s) = true →
   Server.resolve_voice home (Server.fs w) voice_id = inr (Some (reference s)) ∧
   answer = Server.catch
              (Server.pipeline home stack g now text (Some (reference s)) w) ∧
   ∀ p, Server.processor g = Some p →
     ∃ more, Server.calls (fst answer)
             = Server.calls w ++ Server.CallProcessor text (Some (reference s)) :: more) ∧
  (Json.truthy voice_id = true → (∀ s, voice_id ≠ JStr s) →
   answer =
   (w, inr (Response 500
              (JsonBody
                 (JObj [("error",
                         JStr ("join() argument must be str, bytes, or os.PathLike object, not '"
                                 +:+ Json.type_name voice_id +:+ "'"))]))))) ∧
  (∀ vp s, Server.registry_at home (Server.fs w) vp → FS.plain_name s = true →
     (FS.exists_ (Server.fs w) (reference s) = true ↔
      Server.fs w !! (vp ++ [s]) = Some Dir ∧
      is_Some (Server.fs w !! (vp ++ [s; "reference.wav"])))).
Proof.
  intros Ht Hy voice_id reference answer.
  assert (∀ r, Server.resolve_voice home (Server.fs w) voice_id = inr r →
    Server.resolve_voice home (Server.fs w) voice_id = inr r ∧
    answer = Server.catch (Server.pipeline home stack g now text r w) ∧
    ∀ p, Server.processor g = Some p →
      ∃ more, Server.calls (fst answer)
              = Server.calls w ++ Server.CallProcessor text r :: more) as Hgen.
  { intros r Hr.
    assert (answer = Server.catch (Server.pipeline home stack g now text r w)) as E.
    { unfold answer. rewrite (tts_unfold home stack g w d now text Ht Hy).
      f_equal. by apply synthesize_resolved. }
    split_and!; [done|done|]. intros p Hp. rewrite E, catch_calls.
    by apply pipeline_first_call with (p := p). }
  split_and!.
  - intros Hv. apply Hgen. unfold Server.resolve_voice.
    destruct Hv as [-> | (s & -> & Hex)]; [done|].
    unfold reference in Hex. rewrite Hex. by destruct (Json.truthy (JStr s)).
  - intros s Hs Hne Hex. apply Hgen. rewrite Hs.
    unfold Server.resolve_voice. unfold reference in Hex. rewrite Hex.
    unfold Json.truthy. by rewrite bool_decide_eq_false_2.
  - intros Htrue Hkind. unfold answer.
    rewrite (tts_unfold home stack g w d now text Ht Hy). fold voice_id.
    unfold Server.synthesize, Server.bind, Server.read_fs, Server.resolve_voice.
    rewrite Htrue. destruct voice_id; try done. by destruct (Hkind s).
  - intros vp s [Hr Hv] Hs. unfold FS.exists_, reference.
    rewrite (resolve_profile_file home (Server.fs w) vp Hr Hv s "reference.wav" Hs eq_refl).
    destruct (Server.fs w !! (vp ++ [s])) as [[x|]|];
      [split; [done|by intros [? _]]| |split; [done|by intros [? _]]].
    destruct (Server.fs w !! (vp ++ [s; "reference.wav"])) as [n|].
    + split; [eauto|done].
    + split; [done|]. by intros [_ [? ?]].
Qed.

Lemma C2_voice_resolution_by_kind_of_id_witness :
  let reference s := PosixPath.join (Server.VOICES_DIR Sample.home) [s; "reference.wav"] in
  let ask v := [("text", JStr "hello"); ("voice_id", v)] in
  let answer v := Server.text_to_speech Sample.home Sample.stack (JObj (ask v)) 1700000001
                    Sample.loaded Sample.world1 in
  (Server.resolve_voice Sample.home (Server.fs Sample.world1)
     (default (JStr "") (Json.dict_get (ask (JStr "nobody")) "voice_id")) = inr None ∧
   answer (JStr "nobody")
     = Server.catch (Server.pipeline Sample.home Sample.stack Sample.loaded
                       1700000001 (JStr "hello") None Sample.world1) ∧
   ∀ p, Server.processor Sample.loaded = Some p →
     ∃ more, Server.calls (fst (answer (JStr "nobody")))
             = Server.calls Sample.world1
               ++ Server.CallProcessor (JStr "hello") None :: more) ∧
  (Server.resolve_voice Sample.home (Server.fs Sample.world1)
     (default (JStr "") (Json.dict_get (ask (JStr "deadbeef")) "voice_id"))
     = inr (Some (reference "deadbeef")) ∧
   answer (JStr "deadbeef") = Server.catch
       (Server.pipeline Sample.home Sample.stack Sample.loaded 1700000001 (JStr "hello")
          (Some (reference "deadbeef")) Sample.world1) ∧
   ∀ p, Server.processor Sample.loaded = Some p →
     ∃ more, Server.calls (fst (answer (JStr "deadbeef")))
             = Server.calls Sample.world1
               ++ Server.CallProcessor (JStr "hello") (Some (reference "deadbeef")) :: more) ∧
  answer (JBool true) =
  (Sample.world1,
   inr (Response 500
          (JsonBody
             (JObj [("error",
                     JStr ("join() argument must be str, bytes, or os.PathLike object, not '"
                             +:+ Json.type_name
                                   (default (JStr "")
                                      (Json.dict_get (ask (JBool true)) "voice_id"))
                             +:+ "'"))])))).
Proof.
  intros reference ask answer. split; [|split].
  - destruct (C2_voice_resolution_by_kind_of_id Sample.home Sample.stack Sample.loaded
                Sample.world1 (ask (JStr "nobody")) 1700000001 (JStr "hello")
                eq_refl eq_refl) as (H & _).
    apply H. right. exists "nobody". split; [reflexivity|]. vm_compute. reflexivity.
  - destruct (C2_voice_resolution_by_kind_of_id Sample.home Sample.stack Sample.loaded
                Sample.world1 (ask (JStr "deadbeef")) 1700000001 (JStr "hello")
                eq_refl eq_refl) as (_ & H & _).
    apply (H "deadbeef"); [reflexivity|discriminate|vm_compute; reflexivity].
  - destruct (C2_voice_resolution_by_kind_of_id Sample.home Sample.stack Sample.loaded
                Sample.world1 (ask (JBool true)) 1700000001 (JStr "hello")
                eq_refl eq_refl) as (_ & _ & H & _).
    apply H; [reflexivity|discriminate].
Defined.

(** C5, as the specification states it, fails: a clone request whose
    audio part is present but empty is not rejected.  It is answered 200
    with a new voice id, and an empty reference recording is stored. *)
Lemma C5_empty_audio_accepted :
  let files := [("audio", Server.Upload "" "")] in
  let answer := Server.clone_voice Sample.home files [] 1700000004
                  0x0badcafe000000000000000000000000 Sample.loaded Sample.world0 in
  Server.content (Server.Upload "" "") = "" ∧
  snd answer = inr (Response 200
                      (JsonBody (JObj [("voice_id", JStr "0badcafe");
                                       ("name", JStr "voice_1700000004")]))) ∧
  Server.fs (fst answer) !! (Sample.voices ++ ["0badcafe"; "reference.wav"])
    = Some (File "").
Proof. split_and!; vm_compute; reflexivity. Qed.

(** C5, amended: a clone request is answered 400 exactly when it has
    no part named "audio", whatever the part holds.  A request with the
    part is never answered with another status than 200 by the view, and
    where the voices directory exists and the place of the new id is
    usable it is answered 200 with the new id and the name given, or
    "voice_" and the time when none was given, the two files stored. *)
Theorem C5_clone_rejected_iff_audio_part_missing
  {Inputs Output Audio : Type} home (g : @Server.globals Inputs Output Audio)
  w files form now rand :
  let answer := Server.clone_voice home files form now rand g w in
  let name := default ("voice_" +:+ Py.str_of_int now) (Server.multi_get form "name") in
  let voice_id := Server.voice_id_of rand in
  (Server.multi_get files "audio" = None →
   answer = (w, inr (Response 400 (JsonBody (JObj [("error", JStr "No audio file")]))))) ∧
  (∀ audio_file, Server.multi_get files "audio" = Some audio_file →
   (∀ r, snd answer = inr r → status r = 200%N) ∧
   ∀ vp, Server.registry_at home (Server.fs w) vp →
         Server.slot_usable (Server.fs w) vp voice_id →
     ∃ fs', answer =
            (Server.World fs' (Server.calls w),
             inr (Response 200 (JsonBody (JObj [("voice_id", JStr voice_id);
                                                ("name", JStr name)])))) ∧
            fs' !! (vp ++ [voice_id; "reference.wav"])
              = Some (File (Server.content audio_file)) ∧
            fs' !! (vp ++ [voice_id; "meta.json"])
              = Some (File (Json.dumps (Server.meta home name voice_id)))).
Proof.
  intros answer name voice_id. unfold answer, Server.clone_voice. split.
  - by intros ->.
  - intros audio_file ->. fold name voice_id. split.
    + intros r. destruct (run_ops _ _) as [fs' [e|]]; simpl; [done|].
      by intros [= <-].
    + intros vp Hreg Hslot.
      destruct (clone_ops_run home (Server.fs w) vp voice_id name
                  (Server.content audio_file) Hreg (voice_id_of_plain rand) Hslot)
        as (fs' & -> & _ & Ha & Hm).
      by exists fs'.
Qed.

Lemma C5_clone_rejected_iff_audio_part_missing_witness :
  Server.clone_voice Sample.home [] [("name", "Nobody")] 1700000000 7
    Sample.loaded Sample.world0
  = (Sample.world0, inr (Response 400 (JsonBody (JObj [("error", JStr "No audio file")])))) ∧
  ∃ fs', Server.clone_voice Sample.home
           [("audio", Server.Upload "alice.wav" "RIFF-alice")] [("name", "Alice")]
           1700000000 0xdeadbeef0123456789abcdef01234567 Sample.loaded Sample.world0
         = (Server.World fs' [],
            inr (Response 200 (JsonBody (JObj [("voice_id", JStr "deadbeef");
                                               ("name", JStr "Alice")])))) ∧
         fs' !! (Sample.voices ++ ["deadbeef"; "reference.wav"])
           = Some (File "RIFF-alice") ∧
         fs' !! (Sample.voices ++ ["deadbeef"; "meta.json"])
           = Some (File (Json.dumps (Server.meta Sample.home "Alice" "deadbeef"))).
Proof.
  split.
  - apply (proj1 (C5_clone_rejected_iff_audio_part_missing Sample.home Sample.loaded
                    Sample.world0 [] [("name", "Nobody")] 1700000000 7)).
    reflexivity.
  - apply (proj2 (proj2 (C5_clone_rejected_iff_audio_part_missing Sample.home
             Sample.loaded Sample.world0
             [("audio", Server.Upload "alice.wav" "RIFF-alice")] [("name", "Alice")]
             1700000000 0xdeadbeef0123456789abcdef01234567)
           (Server.Upload "alice.wav" "RIFF-alice") eq_refl) Sample.voices).
    + split; vm_compute; reflexivity.
    + split_and!; [intros x|..]; vm_compute; discriminate.
Defined.

(** C3, as the specification states it, fails: two clone requests of
    one run whose UUIDs differ are both answered 200 with the same voice
    id, since the id keeps the first eight digits only; the second
    request overwrote the recording of the first. *)
Lemma C3_two_clones_same_voice_id :
  Server.rand Sample.alice ≠ Server.rand Sample.bob ∧
  Uuid.str (Uuid.uuid4 (Server.rand Sample.alice))
    ≠ Uuid.str (Uuid.uuid4 (Server.rand Sample.bob)) ∧
  let run := Server.serve Sample.home Sample.stack Sample.loaded Sample.world0
               [Sample.alice; Sample.bob] in
  snd run = [ Response 200 (JsonBody (JObj [("voice_id", JStr "deadbeef");
                                            ("name", JStr "Alice")]));
              Response 200 (JsonBody (JObj [("voice_id", JStr "deadbeef");
                                            ("name", JStr "Bob")])) ] ∧
  Server.fs (fst run) !! (Sample.voices ++ ["deadbeef"; "reference.wav"])
    = Some (File "RIFF-bob").
Proof.
  split; [by vm_compute|]. split; [by vm_compute|].
  intros run. split; vm_compute; reflexivity.
Qed.

(** C3, amended: the voice id a clone request returns is the first
    eight hexadecimal digits of the UUID it draws, and no id is
    regenerated; two requests answered 200 return different ids exactly
    when the leading 32 bits of their UUIDs differ. *)
Theorem C3_voice_ids_differ_iff_uuid_prefixes_differ
  {Inputs Output Audio : Type} home (g : @Server.globals Inputs Output Audio)
  w1 files1 form1 now1 rand1 r1 w2 files2 form2 now2 rand2 r2 :
  (rand1 < 2 ^ 128)%N → (rand2 < 2 ^ 128)%N →
  snd (Server.clone_voice home files1 form1 now1 rand1 g w1) = inr r1 →
  status r1 = 200%N →
  snd (Server.clone_voice home files2 form2 now2 rand2 g w2) = inr r2 →
  status r2 = 200%N →
  ∃ id1 name1 id2 name2,
    payload r1 = JsonBody (JObj [("voice_id", JStr id1); ("name", JStr name1)]) ∧
    payload r2 = JsonBody (JObj [("voice_id", JStr id2); ("name", JStr name2)]) ∧
    id1 = Uuid.hex_go 8 (rand1 / 2 ^ 96) "" ∧
    id2 = Uuid.hex_go 8 (rand2 / 2 ^ 96) "" ∧
    (id1 ≠ id2 ↔ (rand1 / 2 ^ 96)%N ≠ (rand2 / 2 ^ 96)%N).
Proof.
  intros Hb1 Hb2 H1 S1 H2 S2.
  assert (∀ w files form now rand r,
    snd (Server.clone_voice home files form now rand g w) = inr r →
    status r = 200%N →
    ∃ name, payload r = JsonBody (JObj [("voice_id", JStr (Server.voice_id_of rand));
                                        ("name", JStr name)])) as Hshape.
  { intros w files form now rand r. unfold Server.clone_voice.
    destruct (Server.multi_get files "audio"); [|by intros [= <-]].
    destruct (run_ops _ _) as [fs' [e|]]; [done|].
    intros [= <-] _. eauto. }
  destruct (Hshape _ _ _ _ _ _ H1 S1) as [name1 P1].
  destruct (Hshape _ _ _ _ _ _ H2 S2) as [name2 P2].
  exists (Server.voice_id_of rand1), name1, (Server.voice_id_of rand2), name2.
  split_and!; auto using voice_id_of_digits.
  by rewrite (voice_id_of_eq_iff rand1 rand2 Hb1 Hb2).
Qed.

Lemma C3_voice_ids_differ_iff_uuid_prefixes_differ_witness :
  ∃ id1 name1 id2 name2,
    payload (Response 200 (JsonBody (JObj [("voice_id", JStr "deadbeef");
                                           ("name", JStr "Alice")])))
      = JsonBody (JObj [("voice_id", JStr id1); ("name", JStr name1)]) ∧
    payload (Response 200 (JsonBody (JObj [("voice_id", JStr "0badcafe");
                                           ("name", JStr "voice_1700000004")])))
      = JsonBody (JObj [("voice_id", JStr id2); ("name", JStr name2)]) ∧
    id1 = Uuid.hex_go 8 (Server.rand Sample.alice / 2 ^ 96) "" ∧
    id2 = Uuid.hex_go 8 (Server.rand Sample.silent / 2 ^ 96) "" ∧
    (id1 ≠ id2 ↔
     (Server.rand Sample.alice / 2 ^ 96)%N ≠ (Server.rand Sample.silent / 2 ^ 96)%N).
Proof.
  apply (C3_voice_ids_differ_iff_uuid_prefixes_differ Sample.home Sample.loaded
           Sample.world0
           [("audio", Server.Upload "alice.wav" "RIFF-alice")] [("name", "Alice")]
           1700000000 (Server.rand Sample.alice)
           (Response 200 (JsonBody (JObj [("voice_id", JStr "deadbeef");
                                          ("name", JStr "Alice")])))
           Sample.world0
           [("audio", Server.Upload "" "")] [] 1700000004 (Server.rand Sample.silent)
           (Response 200 (JsonBody (JObj [("voice_id", JStr "0badcafe");
                                          ("name", JStr "voice_1700000004")])))).
  - vm_compute. reflexivity.
  - vm_compute. reflexivity.
  - vm_compute. reflexivity.
  - reflexivity.
  - vm_compute. reflexivity.
  - reflexivity.
Defined.

(** ** Listing the voices *)

Section Listing.

Implicit Types (fs : gmap (list string) node) (vp p k : list string).

Lemma strip_prefix_Some p k r : FS.strip_prefix p k = Some r ↔ k = p ++ r.
Proof.
  revert k. induction p as [|a p IH]; intros k; simpl.
  - split; [by intros [= ->]|by intros ->].
  - destruct k as [|b k]; [by split|].
    case_bool_decide as E.
    + subst b. rewrite IH. split; [by intros ->|by intros [= ->]].
    + split; [done|]. intros [= -> _]. done.
Qed.

(** The entries of a directory are the names bound just below it,
    each listed once. *)
Lemma elem_of_children fs p n : n ∈ FS.children fs p ↔ is_Some (fs !! (p ++ [n])).
Proof.
  unfold FS.children. rewrite list_elem_of_omap. split.
  - intros ([k v] & Hin%elem_of_map_to_list & Hf). simpl in Hf.
    destruct (FS.strip_prefix p k) as [[|x [|y l]]|] eqn:E; simplify_eq.
    apply strip_prefix_Some in E as ->. eauto.
  - intros [v Hv]. exists (p ++ [n], v). split; [by apply elem_of_map_to_list|].
    simpl. by rewrite (proj2 (strip_prefix_Some p (p ++ [n]) [n]) eq_refl).
Qed.


Lemma omap_cons_eq {A B} (f : A → option B) x l :
  omap f (x :: l) = match f x with Some y => y :: omap f l | None => omap f l end.
Proof. reflexivity. Qed.

Lemma node_at_snoc_2 fs p a b : FS.node_at fs (p ++ [a; b]) = fs !! (p ++ [a; b]).
Proof. by destruct p. Qed.

End Listing.

Section ListingRegistry.

Context {Inputs Output Audio : Type}.
Variable home : string.
Variable stack : @Server.Stack Inputs Output Audio.

Implicit Types (fs : gmap (list string) node) (vp : list string).

(** The loop of [list_voices] over entries with plain names, none of
    which has a record that cannot be read: it collects the records
    that are there. *)
Lemma load_metas_readable fs vp ds voices :
  Server.registry_at home fs vp →
  (∀ d, d ∈ ds → FS.plain_name d = true ∧ Server.record_readable stack fs vp d) →
  Server.load_metas home stack fs ds voices
  = inr (voices ++ omap (Server.record_of stack fs vp) ds).
Proof.
  intros [Hr Hv]. revert voices.
  induction ds as [|d ds IH]; intros voices Hds.
  - simpl. by rewrite (right_id_L [] (++)).
  - cbn [Server.load_metas]. rewrite omap_cons_eq.
    destruct (Hds d) as [Hp Hread]; [by left|].
    assert (∀ d', d' ∈ ds → FS.plain_name d' = true ∧ Server.record_readable stack fs vp d')
      as Hds' by (intros d' Hin; apply Hds; by right).
    unfold FS.exists_, FS.read.
    rewrite (resolve_profile_file home fs vp Hr Hv d "meta.json" Hp eq_refl).
    unfold Server.record_of at 1. unfold Server.record_readable in Hread.
    destruct (fs !! (vp ++ [d])) as [[x|]|] eqn:Ed; try by apply IH.
    specialize (Hread eq_refl).
    destruct (fs !! (vp ++ [d; "meta.json"])) as [[text|]|] eqn:Em;
      [| done | by apply IH].
    rewrite node_at_snoc_2, Em. destruct Hread as [j Hj]. rewrite Hj.
    rewrite IH by done. by rewrite <- (assoc_L (++)).
Qed.


End ListingRegistry.




(** ** Files written by requests *)

Section Writes.

Variable home : string.

Implicit Types (fs : gmap (list string) node) (vp p q : list string).

Lemma has_sep_app a b : Py.has_sep (a +:+ b) = Py.has_sep a || Py.has_sep b.
Proof.
  induction a as [|c a IH]; [done|].
  rewrite app_cons. simpl. by rewrite IH, orb_assoc.
Qed.

Lemma pretty_N_go_no_sep (x : N) s :
  Py.has_sep s = false → Py.has_sep (pretty_N_go x s) = false.
Proof.
  revert s. induction (N.lt_wf_0 x) as [x _ IH]; intros s Hs.
  destruct (decide (x = 0)%N) as [->|Hx]; [by rewrite pretty_N_go_0|].
  rewrite pretty_N_go_step by lia. apply IH; [apply N.div_lt; lia|].
  simpl. rewrite Hs, orb_false_r. unfold pretty_N_char.
  by repeat case_match.
Qed.

Lemma str_of_int_no_sep n : Py.has_sep (Py.str_of_int n) = false.
Proof.
  unfold Py.str_of_int, pretty, pretty_N. case_decide; [done|].
  by apply pretty_N_go_no_sep.
Qed.

(** The name of the file a synthesis request writes. *)
Lemma output_name_plain now :
  FS.plain_name ("memo_" +:+ Py.str_of_int now +:+ ".wav") = true.
Proof.
  unfold FS.plain_name, FS.is_dot.
  rewrite !has_sep_app, str_of_int_no_sep.
  by rewrite !bool_decide_eq_false_2 by discriminate.
Qed.

Lemma output_name_not_meta now : "memo_" +:+ Py.str_of_int now +:+ ".wav" ≠ "meta.json".
Proof. discriminate. Qed.

Lemma split_output_path now :
  Py.split_sep (Server.output_path home now)
  = Py.split_sep (Server.OUTPUT_DIR home) ++ ["memo_" +:+ Py.str_of_int now +:+ ".wav"].
Proof.
  unfold Server.output_path, PosixPath.join. simpl.
  apply join2_plain; auto using OUTPUT_DIR_nonempty, OUTPUT_DIR_open.
  apply plain_name_no_sep, output_name_plain.
Qed.

(** What a successful [open(path, "w")] and a successful write change. *)
Lemma open_w_key fs path fs' :
  FS.open_w fs path = inr fs' →
  ∃ q, fs' = <[q ++ [List.last (Py.split_sep path) ""] := File ""]> fs.
Proof.
  unfold FS.open_w, FS.target. case_bool_decide; [done|].
  destruct (FS.walk fs [] _) as [|q]; [done|].
  destruct (FS.node_at fs q) as [[|]|]; try done.
  destruct (_ || _); [done|].
  destruct (fs !! _) as [[|]|]; intros ?; simplify_eq; eauto.
Qed.

Lemma write_key fs path data fs' :
  FS.write fs path data = inr fs' →
  ∃ p, FS.resolve fs path = inr p ∧ fs' = <[p := File data]> fs.
Proof.
  unfold FS.write. destruct (FS.resolve fs path) as [|p]; [done|].
  destruct (fs !! p) as [[|]|]; intros ?; simplify_eq; eauto.
Qed.

Lemma walk_last fs cur cs c p :
  FS.plain_name c = true → FS.walk fs cur (cs ++ [c]) = inr p → ∃ q, p = q ++ [c].
Proof.
  intros Hc. rewrite walk_app. destruct (FS.walk fs cur cs) as [|q]; [done|].
  simpl. destruct (FS.node_at fs q) as [[|]|]; try done.
  rewrite (plain_name_not_dot c Hc).
  rewrite bool_decide_eq_false_2 by by apply plain_name_not_dotdot.
  destruct (fs !! (q ++ [c])); [|done]. intros [= <-]. eauto.
Qed.

(** The operations of a synthesis request touch a file whose name is
    not [meta.json]. *)
Lemma tts_op_key fs fs' op now bytes :
  op ∈ Server.tts_ops home now bytes → exec_op fs op = inr fs' →
  ∃ q c x, c ≠ "meta.json" ∧ fs' = <[q ++ [c] := File x]> fs.
Proof.
  unfold Server.tts_ops. intros Hin Hex.
  apply elem_of_cons in Hin as [->|Hin];
    [|apply list_elem_of_singleton in Hin as ->]; simpl in Hex.
  - apply open_w_key in Hex as [q ->]. rewrite split_output_path, last_last.
    eauto using output_name_not_meta.
  - apply write_key in Hex as (p & Hr & ->). unfold FS.resolve in Hr.
    case_bool_decide; [done|]. rewrite split_output_path in Hr.
    apply walk_last in Hr as [q ->]; [|apply output_name_plain].
    eauto using output_name_not_meta.
Qed.

End Writes.

(** ** The invariant of a run *)

Section RunInvariant.

Variable home : string.

Implicit Types (fs : gmap (list string) node) (vp p q : list string).

(** The directories [os.makedirs] was asked for exist afterwards. *)
Lemma makedirs_from_resolves fs cur cs path fs' :
  FS.makedirs_from fs cur cs path = inr fs' →
  ∃ p, FS.walk fs' cur cs = inr p ∧ FS.node_at fs' p = Some Dir.
Proof.
  revert fs cur. induction cs as [|c cs IH]; intros fs cur Hm.
  - simpl in Hm. destruct (FS.node_at fs cur) as [[|]|] eqn:Hn; simplify_eq.
    by exists cur.
  - pose proof (makedirs_from_extends _ _ _ _ _ Hm) as Hext.
    simpl in Hm. destruct (FS.node_at fs cur) as [[|]|] eqn:Hn; try done.
    pose proof (extends_node_at_dir _ _ _ Hext Hn) as Hn'.
    simpl. rewrite Hn'.
    destruct (FS.is_dot c); [by apply IH in Hm|].
    case_bool_decide; [by apply IH in Hm|].
    destruct (fs !! (cur ++ [c])) as [n|] eqn:Hc.
    + destruct (Hext _ _ Hc) as (n' & -> & _). by apply IH in Hm.
    + pose proof (makedirs_from_extends _ _ _ _ _ Hm) as Hext2.
      destruct (Hext2 (cur ++ [c]) Dir) as (n' & -> & _);
        [by rewrite lookup_insert_eq|].
      by apply IH in Hm.
Qed.

(** Once the module is imported the voices directory exists. *)
Lemma import_module_registry fs0 fs :
  Server.import_module home fs0 = inr fs → ∃ vp, Server.registry_at home fs vp.
Proof.
  unfold Server.import_module.
  destruct (FS.makedirs fs0 (Server.VOICES_DIR home)) as [|fs1] eqn:E1; [done|].
  intros E2. unfold FS.makedirs in E1, E2.
  rewrite bool_decide_eq_false_2 in E1 by apply VOICES_DIR_nonempty.
  rewrite bool_decide_eq_false_2 in E2 by apply OUTPUT_DIR_nonempty.
  apply makedirs_from_resolves in E1 as (vp & Hw & Hd).
  exists vp. apply (registry_at_extends home fs1).
  - by apply makedirs_from_extends in E2.
  - split; [|done]. unfold FS.resolve.
    by rewrite bool_decide_eq_false_2 by apply VOICES_DIR_nonempty.
Qed.

Lemma in_flight_extends fs fs' vp t :
  FS.extends fs fs' → Server.in_flight home fs vp t → Server.in_flight home fs' vp t.
Proof.
  intros Hext [Htts|(rand & name & data & k & -> & Hk)]; [by left|].
  right. exists rand, name, data, k. split; [done|].
  intros Hle. eapply extends_is_Some; eauto.
Qed.

(** Binding a key keeps every record with its recording, as long as
    the key is not a record without one. *)
Lemma orphan_free_insert fs vp key n :
  (∀ d, is_Some (fs !! (vp ++ [d; "meta.json"])) →
        is_Some (fs !! (vp ++ [d; "reference.wav"]))) →
  (∀ d, key = vp ++ [d; "meta.json"] → is_Some (fs !! (vp ++ [d; "reference.wav"]))) →
  ∀ d, is_Some (<[key := n]> fs !! (vp ++ [d; "meta.json"])) →
       is_Some (<[key := n]> fs !! (vp ++ [d; "reference.wav"])).
Proof.
  intros Horph Hkey d Hs.
  assert (is_Some (fs !! (vp ++ [d; "reference.wav"]))) as Ha.
  { destruct (decide (key = vp ++ [d; "meta.json"])) as [->|Hne]; [by apply Hkey|].
    rewrite lookup_insert_ne in Hs by done. by apply Horph. }
  destruct (decide (key = vp ++ [d; "reference.wav"])) as [->|Hne].
  - by rewrite lookup_insert_eq.
  - by rewrite lookup_insert_ne.
Qed.

(** One operation of a thread in order keeps every record with its
    recording and leaves the thread in order. *)
Lemma thread_step fs fs' vp op rest :
  Server.registry_at home fs vp →
  (∀ d, is_Some (fs !! (vp ++ [d; "meta.json"])) →
        is_Some (fs !! (vp ++ [d; "reference.wav"]))) →
  Server.in_flight home fs vp (op :: rest) →
  exec_op fs op = inr fs' →
  (∀ d, is_Some (fs' !! (vp ++ [d; "meta.json"])) →
        is_Some (fs' !! (vp ++ [d; "reference.wav"]))) ∧
  Server.in_flight home fs' vp rest.
Proof.
  intros Hreg Horph Hfl Hex.
  pose proof (exec_op_extends _ _ _ Hex) as Hext.
  destruct Hfl as [(now & bytes & k & Ht)|(rand & name & data & k & Ht & Hk)].
  - assert (op ∈ Server.tts_ops home now bytes ∧
            rest = drop (S k) (Server.tts_ops home now bytes)) as [Hin ->].
    { unfold Server.tts_ops in *.
      destruct k as [|[|k]]; simpl in Ht; rewrite ?drop_nil in Ht; simplify_eq;
        split; [set_solver|done|set_solver|done]. }
    split; [|left; eauto].
    destruct (tts_op_key home fs fs' op now bytes Hin Hex) as (q & c & x & Hc & ->).
    apply orphan_free_insert; [done|].
    intros d Hq. change [d; "meta.json"] with ([d] ++ ["meta.json"]) in Hq.
    rewrite (assoc_L (++)) in Hq. by apply app_inj_tail in Hq as [_ ?].
  - set (v := Server.voice_id_of rand) in *.
    pose proof (voice_id_of_plain rand) as Hv. fold v in Hv.
    assert (∀ k', rest = drop k' (Server.clone_ops home v name data) →
            (2 ≤ k' → is_Some (fs' !! (vp ++ [v; "reference.wav"]))) →
            Server.in_flight home fs' vp rest) as Hnext.
    { intros k' E Hk'. right. exists rand, name, data, k'. by fold v. }
    unfold Server.clone_ops in Ht.
    change (Server.audio_path home v)
      with (PosixPath.join (Server.VOICES_DIR home) [v; "reference.wav"]) in Ht.
    change (Server.meta_path home v)
      with (PosixPath.join (Server.VOICES_DIR home) [v; "meta.json"]) in Ht.
    destruct k as [|[|[|[|[|k]]]]]; cbn [drop] in Ht; rewrite ?drop_nil in Ht;
      simplify_eq; cbn [exec_op] in Hex.
    + destruct Hreg as [Hr Hd].
      rewrite (makedirs_voice_dir home fs vp Hr Hd v Hv) in Hex.
      split; [|apply (Hnext 1); [done|lia]].
      destruct (fs !! (vp ++ [v])) as [[|]|]; simplify_eq; [done|].
      apply orphan_free_insert; [done|].
      intros d E%app_inv_head. discriminate.
    + rewrite (open_w_profile_file home fs vp v "reference.wav" Hreg Hv eq_refl) in Hex.
      assert (fs' = <[vp ++ [v; "reference.wav"] := File ""]> fs) as ->.
      { destruct (fs !! (vp ++ [v])) as [[|]|]; try done.
        by destruct (fs !! (vp ++ [v; "reference.wav"])) as [[|]|]; simplify_eq. }
      split; [|apply (Hnext 2); [done|by rewrite lookup_insert_eq]].
      apply orphan_free_insert; [done|].
      intros d E%app_inv_head. discriminate.
    + rewrite (write_profile_file home fs vp v "reference.wav" data Hreg Hv eq_refl)
        in Hex.
      assert (fs' = <[vp ++ [v; "reference.wav"] := File data]> fs) as ->.
      { destruct (fs !! (vp ++ [v])) as [[|]|]; try done.
        by destruct (fs !! (vp ++ [v; "reference.wav"])) as [[|]|]; simplify_eq. }
      split; [|apply (Hnext 3); [done|by rewrite lookup_insert_eq]].
      apply orphan_free_insert; [done|].
      intros d E%app_inv_head. discriminate.
    + rewrite (open_w_profile_file home fs vp v "meta.json" Hreg Hv eq_refl) in Hex.
      assert (fs' = <[vp ++ [v; "meta.json"] := File ""]> fs) as E'.
      { destruct (fs !! (vp ++ [v])) as [[|]|]; try done.
        by destruct (fs !! (vp ++ [v; "meta.json"])) as [[|]|]; simplify_eq. }
      split; [|apply (Hnext 4); [done|intros _; eapply extends_is_Some; eauto with lia]].
      rewrite E'. apply orphan_free_insert; [done|].
      intros d E%app_inv_head. injection E as <-. apply Hk. lia.
    + rewrite (write_profile_file home fs vp v "meta.json" _ Hreg Hv eq_refl) in Hex.
      match type of Hex with context [File ?r] =>
        assert (fs' = <[vp ++ [v; "meta.json"] := File r]> fs) as E'
      end.
      { destruct (fs !! (vp ++ [v])) as [[|]|]; try done.
        by destruct (fs !! (vp ++ [v; "meta.json"])) as [[|]|]; simplify_eq. }
      split; [|apply (Hnext 5); [done|intros _; eapply extends_is_Some; eauto with lia]].
      rewrite E'. apply orphan_free_insert; [done|].
      intros d E%app_inv_head. injection E as <-. apply Hk. lia.
Qed.

Lemma consistent_step s s' :
  Server.consistent home s → Server.step home s s' → Server.consistent home s'.
Proof.
  intros (vp & Hreg & Horph & Hts) Hstep.
  destruct Hstep as [fs ts rand name data | fs ts now bytes
                    | fs fs' ts1 op rest ts2 Hex | fs e ts1 op rest ts2 Hex];
    simpl in *; exists vp.
  - split_and!; [done..|]. constructor; [|done].
    right. exists rand, name, data, 0. split; [done|lia].
  - split_and!; [done..|]. constructor; [|done].
    left. by exists now, bytes, 0.
  - apply Forall_app in Hts as [H1 H2]. apply Forall_cons in H2 as [Ht H2].
    pose proof (exec_op_extends _ _ _ Hex) as Hext.
    destruct (thread_step fs fs' vp op rest Hreg Horph Ht Hex) as [Horph' Ht'].
    split_and!; [by eapply registry_at_extends|done|].
    apply Forall_app. split; [|constructor; [done|]];
      (eapply Forall_impl; [eassumption|]); intros t; by apply in_flight_extends.
  - apply Forall_app in Hts as [H1 H2]. apply Forall_cons in H2 as [_ H2].
    split_and!; [done..|]. apply Forall_app. by split.
Qed.

(** Every state of a run satisfies the invariant. *)
Lemma reachable_consistent s : Server.reachable home s → Server.consistent home s.
Proof.
  induction 1 as [fs0 fs Himp Horph|s s' _ IH Hstep]; [|by eapply consistent_step].
  destruct (import_module_registry fs0 fs Himp) as [vp Hreg].
  exists vp. split_and!; [done| |constructor].
  intros d. apply (Horph vp d). by destruct Hreg.
Qed.

End RunInvariant.

(** A thread that performs its next operations without an exception
    takes the run from one of its states to another. *)
Lemma reachable_run_ops home fs ops rest fs' :
  Server.reachable home (fs, [ops ++ rest]) →
  run_ops fs ops = (fs', None) →
  Server.reachable home (fs', [rest]).
Proof.
  revert fs. induction ops as [|op ops IH]; intros fs R; simpl.
  - by intros [= <-].
  - destruct (exec_op fs op) as [e|fs1] eqn:E; [done|]. apply IH.
    eapply Server.reach_step; [exact R|].
    by apply (Server.step_op home fs fs1 [] op (ops ++ rest) []).
Qed.

Lemma run_ops_done fs ops :
  snd (run_ops fs ops) = None → run_ops fs ops = (fst (run_ops fs ops), None).
Proof. by destruct (run_ops fs ops) as [fs' r]; simpl; intros ->. Qed.

(** Alice's clone request is in flight and has stored her recording. *)
Lemma alice_mid_clone_reachable :
  Server.reachable Sample.home (Sample.after_recording, [drop 3 Sample.alice_ops]).
Proof.
  assert (Server.reachable Sample.home (Sample.booted, [])) as R0.
  { apply (Server.reach_start Sample.home Sample.base).
    - assert (succeeds (Server.import_module Sample.home Sample.base) = true) as Hs
        by (vm_compute; reflexivity).
      unfold Sample.booted.
      by destruct (Server.import_module Sample.home Sample.base).
    - intros vp d Hr [n Hn]. vm_compute in Hr. injection Hr as <-.
      apply elem_of_map_to_list in Hn. vm_compute in Hn.
      repeat (apply elem_of_cons in Hn as [Hn|Hn]; [discriminate|]).
      by apply elem_of_nil in Hn. }
  assert (Server.reachable Sample.home (Sample.booted, [Sample.alice_ops])) as R1.
  { eapply Server.reach_step; [exact R0|]. apply Server.step_clone. }
  apply (reachable_run_ops Sample.home Sample.booted (take 3 Sample.alice_ops)).
  - by rewrite take_drop.
  - apply run_ops_done. vm_compute. reflexivity.
Qed.

(** C6, as the specification states it, fails: the two files of a
    profile are not created as a pair.  The state in which Alice's clone
    request has stored her recording and not yet her metadata is a state
    of the run, and it holds the recording without the record. *)
Lemma C6_recording_without_metadata_reachable :
  Server.reachable Sample.home (Sample.after_recording, [drop 3 Sample.alice_ops]) ∧
  Sample.after_recording !! (Sample.voices ++ ["deadbeef"]) = Some Dir ∧
  Sample.after_recording !! (Sample.voices ++ ["deadbeef"; "reference.wav"])
    = Some (File "RIFF-alice") ∧
  Sample.after_recording !! (Sample.voices ++ ["deadbeef"; "meta.json"]) = None.
Proof.
  split; [apply alice_mid_clone_reachable|]. split_and!; vm_compute; reflexivity.
Qed.

(** C6, amended: in every state of a run, the states between the
    filesystem operations of requests in flight included, a profile that
    has a metadata record has its reference recording; the converse can
    fail while a clone request is in flight.  From such a state a clone
    request that runs alone to its end, its place being usable, leaves
    the profile with both files. *)
Theorem C6_metadata_never_without_recording home s :
  Server.reachable home s →
  Server.no_orphan_meta home s.1 ∧
  ∀ vp rand name data,
    Server.registry_at home s.1 vp →
    Server.slot_usable s.1 vp (Server.voice_id_of rand) →
    ∃ fs', run_ops s.1 (Server.clone_ops home (Server.voice_id_of rand) name data)
             = (fs', None) ∧
           fs' !! (vp ++ [Server.voice_id_of rand; "reference.wav"]) = Some (File data) ∧
           fs' !! (vp ++ [Server.voice_id_of rand; "meta.json"])
             = Some (File (Json.dumps (Server.meta home name (Server.voice_id_of rand)))).
Proof.
  intros (vp & [Hr Hd] & Horph & _)%reachable_consistent. split.
  - intros vp' d Hr'. rewrite Hr in Hr'. injection Hr' as <-. apply Horph.
  - intros vp' rand name data Hreg Hslot.
    destruct (clone_ops_run home s.1 vp' (Server.voice_id_of rand) name data
                Hreg (voice_id_of_plain rand) Hslot) as (fs' & E & _ & Ha & Hm).
    by exists fs'.
Qed.

Lemma C6_metadata_never_without_recording_witness :
  Server.no_orphan_meta Sample.home Sample.after_recording ∧
  ∀ vp rand name data,
    Server.registry_at Sample.home Sample.after_recording vp →
    Server.slot_usable Sample.after_recording vp (Server.voice_id_of rand) →
    ∃ fs', run_ops Sample.after_recording
             (Server.clone_ops Sample.home (Server.voice_id_of rand) name data)
             = (fs', None) ∧
           fs' !! (vp ++ [Server.voice_id_of rand; "reference.wav"]) = Some (File data) ∧
           fs' !! (vp ++ [Server.voice_id_of rand; "meta.json"])
             = Some (File (Json.dumps
                             (Server.meta Sample.home name (Server.voice_id_of rand)))).
Proof.
  exact (C6_metadata_never_without_recording Sample.home
           (Sample.after_recording, [drop 3 Sample.alice_ops])
           alice_mid_clone_reachable).
Defined.

(** * Further properties of the service and of the client *)

(** ** Files directly under a directory *)

Section ChildFile.

Variable fs : gmap (list string) node.
Variable dir : string.
Variable dp : list string.

Hypothesis dir_nonempty : dir ≠ "".
Hypothesis dir_open : Py.ends_with_sep dir = false.
Hypothesis dir_at : FS.resolve fs dir = inr dp.
Hypothesis dir_is_dir : FS.node_at fs dp = Some Dir.

Lemma walk_dir : FS.walk fs [] (Py.split_sep dir) = inr dp.
Proof using dir_nonempty dir_at.
  unfold FS.resolve in dir_at. by rewrite bool_decide_eq_false_2 in dir_at.
Qed.

Lemma child_nonempty f : FS.plain_name f = true → PosixPath.join dir [f] ≠ "".
Proof using dir_nonempty dir_open.
  intros Hf. by apply join2_plain_open.
Qed.

Lemma split_child f :
  FS.plain_name f = true →
  Py.split_sep (PosixPath.join dir [f]) = Py.split_sep dir ++ [f].
Proof using dir_nonempty dir_open.
  intros Hf. apply join2_plain; auto using plain_name_no_sep.
Qed.

Lemma resolve_child f :
  FS.plain_name f = true →
  FS.resolve fs (PosixPath.join dir [f]) =
  match fs !! (dp ++ [f]) with
  | Some _ => inr (dp ++ [f])
  | None => inl ENOENT
  end.
Proof using All.
  intros Hf. unfold FS.resolve.
  rewrite bool_decide_eq_false_2 by by apply child_nonempty.
  rewrite split_child, walk_app, walk_dir, walk_plain by done.
  by destruct (fs !! (dp ++ [f])).
Qed.

Lemma target_child f :
  FS.plain_name f = true → FS.target fs (PosixPath.join dir [f]) = inr (dp ++ [f]).
Proof using All.
  intros Hf. unfold FS.target.
  rewrite bool_decide_eq_false_2 by by apply child_nonempty.
  rewrite split_child, removelast_last, last_last, walk_dir, dir_is_dir by done.
  rewrite (plain_name_not_dot f Hf). simpl.
  by rewrite bool_decide_eq_false_2 by by apply plain_name_not_dotdot.
Qed.

Lemma open_w_child f :
  FS.plain_name f = true →
  FS.open_w fs (PosixPath.join dir [f]) =
  match fs !! (dp ++ [f]) with
  | Some Dir => inl (OSError EISDIR (PosixPath.join dir [f]))
  | _ => inr (<[dp ++ [f] := File ""]> fs)
  end.
Proof using All.
  intros Hf. unfold FS.open_w. by rewrite target_child.
Qed.

Lemma write_child f data :
  FS.plain_name f = true →
  FS.write fs (PosixPath.join dir [f]) data =
  match fs !! (dp ++ [f]) with
  | Some (File _) => inr (<[dp ++ [f] := File data]> fs)
  | Some Dir => inl (OSError EISDIR (PosixPath.join dir [f]))
  | None => inl (OSError ENOENT (PosixPath.join dir [f]))
  end.
Proof using All.
  intros Hf. unfold FS.write. rewrite resolve_child by done.
  destruct (fs !! (dp ++ [f])) as [[|]|] eqn:E; try done; by rewrite E.
Qed.

Lemma read_child f :
  FS.plain_name f = true →
  FS.read fs (PosixPath.join dir [f]) =
  match fs !! (dp ++ [f]) with
  | Some (File data) => inr data
  | Some Dir => inl (OSError EISDIR (PosixPath.join dir [f]))
  | None => inl (OSError ENOENT (PosixPath.join dir [f]))
  end.
Proof using All.
  intros Hf. unfold FS.read. rewrite resolve_child by done.
  destruct (fs !! (dp ++ [f])) as [[|]|] eqn:E; try done;
    by rewrite node_at_snoc, E.
Qed.

End ChildFile.

(** A directory stays where it is when a file is put on the
    filesystem. *)
Lemma dir_at_insert_file (fs : gmap (list string) node) dir dp key data :
  FS.resolve fs dir = inr dp → FS.node_at fs dp = Some Dir →
  fs !! key ≠ Some Dir →
  FS.resolve (<[key := File data]> fs) dir = inr dp ∧
  FS.node_at (<[key := File data]> fs) dp = Some Dir.
Proof.
  intros Hr Hd Hk.
  assert (FS.extends fs (<[key := File data]> fs)) as Hext.
  { apply extends_insert. intros [x|] Hn; [done|by rewrite Hn in Hk]. }
  split; eauto using resolve_extends, extends_node_at_dir.
Qed.

(** Opening a file under a directory for writing, then writing it:
    the file holds the data, and reading it gives the data back. *)
Lemma store_child (fs : gmap (list string) node) dir dp f data :
  dir ≠ "" → Py.ends_with_sep dir = false →
  FS.resolve fs dir = inr dp → FS.node_at fs dp = Some Dir →
  FS.plain_name f = true → fs !! (dp ++ [f]) ≠ Some Dir →
  let path := PosixPath.join dir [f] in
  let fs1 := <[dp ++ [f] := File ""]> fs in
  let fs2 := <[dp ++ [f] := File data]> fs1 in
  FS.open_w fs path = inr fs1 ∧ FS.write fs1 path data = inr fs2 ∧
  FS.read fs2 path = inr data.
Proof.
  intros Hne Hop Hr Hd Hf Hk path fs1 fs2.
  destruct (dir_at_insert_file fs dir dp (dp ++ [f]) "" Hr Hd Hk) as [Hr1 Hd1].
  fold fs1 in Hr1, Hd1.
  assert (fs1 !! (dp ++ [f]) = Some (File "")) as E1
    by (unfold fs1; by rewrite lookup_insert_eq).
  destruct (dir_at_insert_file fs1 dir dp (dp ++ [f]) data Hr1 Hd1) as [Hr2 Hd2];
    [by rewrite E1|]. fold fs2 in Hr2, Hd2.
  split_and!.
  - unfold path. rewrite (open_w_child fs dir dp) by done.
    by destruct (fs !! (dp ++ [f])) as [[|]|].
  - unfold path. rewrite (write_child fs1 dir dp) by done. by rewrite E1.
  - unfold path. rewrite (read_child fs2 dir dp) by done.
    unfold fs2. by rewrite lookup_insert_eq.
Qed.

(** ** A synthesis request that succeeds *)

(** X1: When the model runtime is loaded, every stage of the pipeline
    returns and the output directory exists, a synthesis request for
    the text [text] is answered 200 with the bytes that soundfile
    produced, of type [audio/wav]; these bytes are stored in the file
    [memo_<now>.wav] of the output directory, and the inference stack
    was called four times: the processor on the text and the resolved
    reference, [generate] with 2048 new tokens, [decode], and soundfile
    at 24000 Hz. *)
Theorem tts_success_stores_and_sends_the_audio
  {Inputs Output Audio : Type} home (stack : @Server.Stack Inputs Output Audio)
  g w d now text ref_audio p m inputs inputs' output output0 audio samples bytes op :
  let name := "memo_" +:+ Py.str_of_int now +:+ ".wav" in
  Json.dict_get d "text" = Some text → Json.truthy text = true →
  Server.resolve_voice home (Server.fs w)
    (default (JStr "") (Json.dict_get d "voice_id")) = inr ref_audio →
  Server.processor g = Some p → Server.model g = Some m →
  Server.proc_call p text ref_audio (Server.fs w) = inr inputs →
  Server.to_device stack (Server.device stack) inputs = inr inputs' →
  Server.generate m inputs' 2048 = inr output →
  Server.first stack output = inr output0 →
  Server.proc_decode p output0 = inr audio →
  Server.soundfile_array stack audio = inr samples →
  Server.soundfile_encode stack samples 24000 = inr bytes →
  FS.resolve (Server.fs w) (Server.OUTPUT_DIR home) = inr op →
  FS.node_at (Server.fs w) op = Some Dir →
  Server.fs w !! (op ++ [name]) ≠ Some Dir →
  Server.text_to_speech home stack (JObj d) now g w =
  (Server.World
     (<[op ++ [name] := File bytes]> (<[op ++ [name] := File ""]> (Server.fs w)))
     (Server.calls w ++
        [ Server.CallProcessor text ref_audio; Server.CallGenerate 2048;
          Server.CallDecode;
          Server.CallSoundfile (Server.output_path home now) 24000 ]),
   inr (Response 200 (FileBody "audio/wav" bytes))).
Proof.
  intros name Htext Htrue Hvoice Hp Hm Hcall Hto Hgen Hfirst Hdec Harr Henc Hr Hd Hk.
  pose proof (store_child (Server.fs w) (Server.OUTPUT_DIR home) op name bytes
                (OUTPUT_DIR_nonempty home) (OUTPUT_DIR_open home) Hr Hd
                (output_name_plain now) Hk) as Hs.
  cbv zeta in Hs. destruct Hs as (Hopen & Hwrite & Hread).
  change (PosixPath.join (Server.OUTPUT_DIR home) [name])
    with (Server.output_path home now) in Hopen, Hwrite, Hread.
  rewrite (tts_unfold home stack g w d now text Htext Htrue).
  rewrite (synthesize_resolved home stack g w now text _ ref_audio Hvoice).
  unfold Server.pipeline, Server.bind, Server.lift, Server.read_fs, Server.log,
    Server.sf_do, Server.ret, Server.the_processor, Server.the_model.
  rewrite Hp, Hm. cbn [Server.fs Server.calls exec_op].
  rewrite Hcall, Hto, Hgen, Hfirst, Hdec, Harr, Hopen.
  cbn [Server.fs Server.calls]. rewrite Henc, Hwrite.
  cbn [Server.fs Server.calls Server.catch]. rewrite Hread.
  cbn [Server.catch]. by rewrite <- !(assoc_L (++)).
Qed.

Lemma tts_success_stores_and_sends_the_audio_witness :
  let name := "memo_" +:+ Py.str_of_int 1700000002 +:+ ".wav" in
  let op := ["home"; "u"; "qwen3-tts"; "output"] in
  Server.text_to_speech Sample.home Sample.stack
    (JObj [("text", JStr "bonjour")]) 1700000002 Sample.loaded Sample.world0 =
  (Server.World
     (<[op ++ [name] := File "RIFF"]>
        (<[op ++ [name] := File ""]> (Server.fs Sample.world0)))
     (Server.calls Sample.world0 ++
        [ Server.CallProcessor (JStr "bonjour") None; Server.CallGenerate 2048;
          Server.CallDecode;
          Server.CallSoundfile (Server.output_path Sample.home 1700000002) 24000 ]),
   inr (Response 200 (FileBody "audio/wav" "RIFF"))).
Proof.
  intros name op.
  apply (tts_success_stores_and_sends_the_audio Sample.home Sample.stack
           Sample.loaded Sample.world0 [("text", JStr "bonjour")] 1700000002
           (JStr "bonjour") None Sample.the_processor Sample.the_model
           tt tt tt tt tt tt "RIFF" op);
    [reflexivity..| | |].
  all: vm_compute.
  1, 2: reflexivity.
  discriminate.
Defined.

(** ** What every request preserves *)

(** A relation between the world before and the world after that is
    reflexive, transitive and kept by every step of a computation is
    kept by the computation. *)
Section Preserved.

Context {Inputs Output Audio : Type}.
Variable home : string.
Variable stack : @Server.Stack Inputs Output Audio.
Variable R : Server.world → Server.world → Prop.

Hypothesis R_refl : ∀ w, R w w.
Hypothesis R_trans : ∀ w1 w2 w3, R w1 w2 → R w2 w3 → R w1 w3.

Implicit Types (g : @Server.globals Inputs Output Audio) (w : Server.world).

Lemma bind_preserves {A B} (m : Server.M A) (k : A → Server.M B) :
  (∀ w, R w (fst (m w))) → (∀ a w, R w (fst (k a w))) →
  ∀ w, R w (fst (Server.bind m k w)).
Proof using R_trans.
  intros Hm Hk w. unfold Server.bind. specialize (Hm w).
  destruct (m w) as [w1 [e|a]]; simpl in *; [done|].
  eapply R_trans; [exact Hm|apply Hk].
Qed.

Lemma sf_do_preserves path op :
  (∀ w fs', exec_op (Server.fs w) op = inr fs' →
            R w (Server.World fs' (Server.calls w))) →
  ∀ w, R w (fst (Server.sf_do path op w)).
Proof using R_refl.
  intros Hop w. unfold Server.sf_do.
  destruct (exec_op (Server.fs w) op) as [e|fs'] eqn:E; simpl; auto.
Qed.

(** The pipeline keeps a relation that adding to the log and the two
    file operations on the output file keep. *)
Lemma pipeline_preserves g now text ref_audio :
  (∀ w c, R w (Server.World (Server.fs w) (Server.calls w ++ [c]))) →
  (∀ w op bytes fs', op ∈ Server.tts_ops home now bytes →
     exec_op (Server.fs w) op = inr fs' → R w (Server.World fs' (Server.calls w))) →
  ∀ w, R w (fst (Server.pipeline home stack g now text ref_audio w)).
Proof using R_refl R_trans.
  intros Hlog Hop. unfold Server.pipeline.
  repeat (apply bind_preserves; [|intros ?]);
    try (intros w; apply R_refl);
    try (intros w; apply Hlog);
    apply sf_do_preserves; intros w fs' Hex.
  - eapply (Hop w _ ""); [|exact Hex]. unfold Server.tts_ops. by left.
  - eapply (Hop w _ _); [|exact Hex]. unfold Server.tts_ops. right. by left.
Qed.

Lemma text_to_speech_preserves g now data :
  (∀ w c, R w (Server.World (Server.fs w) (Server.calls w ++ [c]))) →
  (∀ w op bytes fs', op ∈ Server.tts_ops home now bytes →
     exec_op (Server.fs w) op = inr fs' → R w (Server.World fs' (Server.calls w))) →
  ∀ w, R w (fst (Server.text_to_speech home stack data now g w)).
Proof using R_refl R_trans.
  intros Hlog Hop w. unfold Server.text_to_speech.
  destruct data; try apply R_refl.
  destruct (negb _); [apply R_refl|].
  assert (R w (fst (Server.synthesize home stack g now
                      (default (JStr "") (Json.dict_get fields "text"))
                      (default (JStr "") (Json.dict_get fields "voice_id")) w))) as H.
  { unfold Server.synthesize. apply bind_preserves; [intros w0; apply R_refl|].
    intros a w0. by apply pipeline_preserves. }
  by destruct (Server.synthesize _ _ _ _ _ _ w) as [w' [e|r]].
Qed.

(** A clone request keeps a relation that its file operations keep. *)
Lemma clone_voice_preserves g files form now rand :
  (∀ w op name data fs',
     op ∈ Server.clone_ops home (Server.voice_id_of rand) name data →
     exec_op (Server.fs w) op = inr fs' → R w (Server.World fs' (Server.calls w))) →
  ∀ w, R w (fst (Server.clone_voice home files form now rand g w)).
Proof using R_refl R_trans.
  intros Hop w. unfold Server.clone_voice.
  destruct (Server.multi_get files "audio") as [audio|]; [|apply R_refl].
  set (name := default _ _). set (ops := Server.clone_ops _ _ _ _).
  assert (∀ l w0, (∀ op, op ∈ l → op ∈ ops) →
            R w0 (Server.World (fst (run_ops (Server.fs w0) l)) (Server.calls w0))) as H.
  { induction l as [|op l IH]; intros w0 Hl.
    - destruct w0; apply R_refl.
    - rewrite run_ops_cons.
      destruct (exec_op (Server.fs w0) op) as [e|fs1] eqn:E.
      + destruct w0; apply R_refl.
      + eapply R_trans.
        * eapply (Hop w0 op name (Server.content audio)); [|exact E]. apply Hl. by left.
        * apply (IH (Server.World fs1 (Server.calls w0))). intros op' Hin.
          apply Hl. by right. }
  specialize (H ops w (fun _ Hin => Hin)).
  by destruct (run_ops (Server.fs w) ops) as [fs' [e|]].
Qed.

End Preserved.

(** ** The service never removes anything *)

Section Monotone.

Context {Inputs Output Audio : Type}.
Variable home : string.
Variable stack : @Server.Stack Inputs Output Audio.

Implicit Types (g : @Server.globals Inputs Output Audio) (w : Server.world).

Lemma dispatch_extends g w a :
  FS.extends (Server.fs w) (Server.fs (fst (Server.dispatch home stack g w a))).
Proof.
  set (R := fun w1 w2 : Server.world => FS.extends (Server.fs w1) (Server.fs w2)).
  assert (∀ w0, R w0 w0) as Hrefl by (intros w0; apply extends_refl).
  assert (∀ w1 w2 w3, R w1 w2 → R w2 w3 → R w1 w3) as Htrans
    by (intros w1 w2 w3; apply extends_trans).
  assert (R w (fst (Server.route home stack a g w))) as H.
  { unfold Server.route. destruct (Server.req a) as [|files form|data|].
    - apply Hrefl.
    - apply clone_voice_preserves; [done..|].
      intros w0 op name data fs' _ Hex. by apply exec_op_extends in Hex.
    - apply text_to_speech_preserves; [done..| |].
      + intros w0 c. apply extends_refl.
      + intros w0 op bytes fs' _ Hex. by apply exec_op_extends in Hex.
    - unfold Server.list_voices. destruct (FS.listdir _ _); [apply Hrefl|].
      destruct (Server.load_metas _ _ _ _); apply Hrefl. }
  unfold Server.dispatch. by destruct (Server.route home stack a g w) as [w' [e|r]].
Qed.

End Monotone.

(** X2: Whatever requests the service handles, and whatever their
    outcomes, every file and directory that was on the filesystem is
    still there afterwards, a file still a file and a directory still a
    directory: the service removes nothing. *)
Theorem serve_removes_nothing
  {Inputs Output Audio : Type} home (stack : @Server.Stack Inputs Output Audio)
  g w reqs :
  FS.extends (Server.fs w) (Server.fs (fst (Server.serve home stack g w reqs))).
Proof.
  revert w. induction reqs as [|a reqs IH]; intros w; [apply extends_refl|].
  cbn [Server.serve].
  pose proof (dispatch_extends home stack g w a) as H1.
  destruct (Server.dispatch home stack g w a) as [w1 r].
  specialize (IH w1).
  destruct (Server.serve home stack g w1 reqs) as [w2 rs].
  eapply extends_trans; [exact H1|exact IH].
Qed.

(** ** What a request writes *)

Section Frames.

Context {Inputs Output Audio : Type}.
Variable home : string.
Variable stack : @Server.Stack Inputs Output Audio.

Implicit Types (g : @Server.globals Inputs Output Audio) (w : Server.world).
Implicit Types (fs : gmap (list string) node) (vp op key : list string).

(** An operation of a clone request that succeeds leaves the
    filesystem as it was or puts one entry of the profile. *)
Lemma clone_op_writes fs vp d name data o fs' :
  Server.registry_at home fs vp → FS.plain_name d = true →
  o ∈ Server.clone_ops home d name data → exec_op fs o = inr fs' →
  fs' = fs ∨ ∃ k n, k ∈ [vp ++ [d]; vp ++ [d; "reference.wav"]; vp ++ [d; "meta.json"]]
                    ∧ fs' = <[k := n]> fs.
Proof.
  intros Hreg Hd Hin Hex. unfold Server.clone_ops in Hin.
  change (Server.audio_path home d)
    with (PosixPath.join (Server.VOICES_DIR home) [d; "reference.wav"]) in Hin.
  change (Server.meta_path home d)
    with (PosixPath.join (Server.VOICES_DIR home) [d; "meta.json"]) in Hin.
  repeat (apply elem_of_cons in Hin as [->|Hin]); [..|by apply elem_of_nil in Hin];
    cbn [exec_op] in Hex.
  - destruct Hreg as [Hr Hv]. rewrite (makedirs_voice_dir home fs vp Hr Hv d Hd) in Hex.
    destruct (fs !! (vp ++ [d])) as [[|]|]; simplify_eq; [by left|].
    right. eexists _, _. split; [|done]. by left.
  - rewrite (open_w_profile_file home fs vp d "reference.wav" Hreg Hd eq_refl) in Hex.
    destruct (fs !! (vp ++ [d])) as [[|]|]; try done. right.
    exists (vp ++ [d; "reference.wav"]), (File ""). split; [right; by left|].
    destruct (fs !! (vp ++ [d; "reference.wav"])) as [[|]|]; by simplify_eq.
  - rewrite (write_profile_file home fs vp d "reference.wav" _ Hreg Hd eq_refl) in Hex.
    destruct (fs !! (vp ++ [d])) as [[|]|]; try done. right.
    exists (vp ++ [d; "reference.wav"]), (File data). split; [right; by left|].
    destruct (fs !! (vp ++ [d; "reference.wav"])) as [[|]|]; by simplify_eq.
  - rewrite (open_w_profile_file home fs vp d "meta.json" Hreg Hd eq_refl) in Hex.
    destruct (fs !! (vp ++ [d])) as [[|]|]; try done. right.
    exists (vp ++ [d; "meta.json"]), (File ""). split; [right; right; by left|].
    destruct (fs !! (vp ++ [d; "meta.json"])) as [[|]|]; by simplify_eq.
  - rewrite (write_profile_file home fs vp d "meta.json" _ Hreg Hd eq_refl) in Hex.
    destruct (fs !! (vp ++ [d])) as [[|]|]; try done. right.
    eexists (vp ++ [d; "meta.json"]), _. split; [right; right; by left|].
    destruct (fs !! (vp ++ [d; "meta.json"])) as [[|]|]; by simplify_eq.
Qed.

Lemma clone_voice_frame g w files form now rand vp key :
  Server.registry_at home (Server.fs w) vp →
  key ∉ [vp ++ [Server.voice_id_of rand];
         vp ++ [Server.voice_id_of rand; "reference.wav"];
         vp ++ [Server.voice_id_of rand; "meta.json"]] →
  Server.fs (fst (Server.clone_voice home files form now rand g w)) !! key
    = Server.fs w !! key.
Proof.
  intros Hreg Hkey.
  set (R := fun w1 w2 : Server.world =>
    Server.registry_at home (Server.fs w1) vp →
    Server.registry_at home (Server.fs w2) vp ∧
    Server.fs w2 !! key = Server.fs w1 !! key).
  assert (R w (fst (Server.clone_voice home files form now rand g w))) as H.
  { apply clone_voice_preserves.
    - by intros w0 H0.
    - intros w1 w2 w3 H12 H23 H1. destruct (H12 H1) as [H2 E2].
      destruct (H23 H2) as [H3 E3]. split; [done|]. by rewrite E3.
    - intros w0 o name data fs' Hin Hex H0. split.
      + eapply registry_at_extends; [|exact H0]. by apply exec_op_extends in Hex.
      + cbn [Server.fs].
        destruct (clone_op_writes _ vp _ name data o fs' H0
                    (voice_id_of_plain rand) Hin Hex) as [->|(k & n & Hk & ->)];
          [done|].
        apply lookup_insert_ne. by intros ->. }
  by destruct (H Hreg).
Qed.

(** An operation of a synthesis request that succeeds writes the
    file [memo_<now>.wav] of the output directory. *)
Lemma tts_op_writes fs op now bytes o fs' :
  FS.resolve fs (Server.OUTPUT_DIR home) = inr op → FS.node_at fs op = Some Dir →
  o ∈ Server.tts_ops home now bytes → exec_op fs o = inr fs' →
  ∃ n, fs' = <[op ++ ["memo_" +:+ Py.str_of_int now +:+ ".wav"] := n]> fs.
Proof.
  intros Hr Hd Hin Hex. unfold Server.tts_ops in Hin.
  change (Server.output_path home now)
    with (PosixPath.join (Server.OUTPUT_DIR home)
            ["memo_" +:+ Py.str_of_int now +:+ ".wav"]) in Hin.
  pose proof (OUTPUT_DIR_nonempty home) as Hne.
  pose proof (OUTPUT_DIR_open home) as Hop.
  pose proof (output_name_plain now) as Hp.
  repeat (apply elem_of_cons in Hin as [->|Hin]); [..|by apply elem_of_nil in Hin];
    cbn [exec_op] in Hex.
  - rewrite (open_w_child fs _ op Hne Hop Hr Hd _ Hp) in Hex.
    destruct (fs !! _) as [[|]|]; simplify_eq; eauto.
  - rewrite (write_child fs _ op Hne Hop Hr Hd _ _ Hp) in Hex.
    destruct (fs !! _) as [[|]|]; simplify_eq; eauto.
Qed.

End Frames.

(** X3: Where the voices directory exists, a clone request changes at most
    the three entries of its own profile: the profile directory, its
    [reference.wav] and its [meta.json].  Every other path holds after
    the request what it held before, whether the request succeeded or
    stopped on an exception, and the inference stack is not called. *)
Theorem clone_touches_only_its_profile
  {Inputs Output Audio : Type} home (g : @Server.globals Inputs Output Audio)
  w files form now rand vp key :
  Server.registry_at home (Server.fs w) vp →
  key ≠ vp ++ [Server.voice_id_of rand] →
  key ≠ vp ++ [Server.voice_id_of rand; "reference.wav"] →
  key ≠ vp ++ [Server.voice_id_of rand; "meta.json"] →
  let w' := fst (Server.clone_voice home files form now rand g w) in
  Server.fs w' !! key = Server.fs w !! key ∧ Server.calls w' = Server.calls w.
Proof.
  intros Hreg K1 K2 K3 w'. split.
  - apply (clone_voice_frame home g w files form now rand vp key Hreg).
    rewrite !not_elem_of_cons. split_and!; [done..|apply not_elem_of_nil].
  - unfold w', Server.clone_voice.
    destruct (Server.multi_get files "audio"); [|done].
    by destruct (run_ops _ _) as [fs' [e|]].
Qed.

Lemma clone_touches_only_its_profile_witness :
  let w := Sample.world0 in
  let key := Sample.voices ++ ["0badcafe"; "meta.json"] in
  let w' := fst (Server.clone_voice Sample.home
                   [("audio", Server.Upload "alice.wav" "RIFF-alice")]
                   [("name", "Alice")] 1700000000
                   0xdeadbeef0123456789abcdef01234567 Sample.loaded w) in
  Server.fs w' !! key = Server.fs w !! key ∧ Server.calls w' = Server.calls w.
Proof.
  intros w key.
  apply (clone_touches_only_its_profile Sample.home Sample.loaded w
           [("audio", Server.Upload "alice.wav" "RIFF-alice")] [("name", "Alice")]
           1700000000 0xdeadbeef0123456789abcdef01234567 Sample.voices key).
  - split; vm_compute; reflexivity.
  - vm_compute. discriminate.
  - vm_compute. discriminate.
  - vm_compute. discriminate.
Defined.

(** X4: Where the output directory exists, a synthesis request changes at
    most one entry of the filesystem, the file [memo_<now>.wav] of the
    output directory: every other path, the voice registry included,
    holds after the request what it held before, whatever the answer. *)
Theorem synthesis_touches_only_its_output_file
  {Inputs Output Audio : Type} home (stack : @Server.Stack Inputs Output Audio)
  g w data now op key :
  FS.resolve (Server.fs w) (Server.OUTPUT_DIR home) = inr op →
  FS.node_at (Server.fs w) op = Some Dir →
  key ≠ op ++ ["memo_" +:+ Py.str_of_int now +:+ ".wav"] →
  Server.fs (fst (Server.text_to_speech home stack data now g w)) !! key
    = Server.fs w !! key.
Proof.
  intros Hr Hd Hkey.
  set (I := fun fs => FS.resolve fs (Server.OUTPUT_DIR home) = inr op ∧
                      FS.node_at fs op = Some Dir).
  set (R := fun w1 w2 : Server.world =>
    I (Server.fs w1) → I (Server.fs w2) ∧ Server.fs w2 !! key = Server.fs w1 !! key).
  assert (R w (fst (Server.text_to_speech home stack data now g w))) as H.
  { apply text_to_speech_preserves.
    - by intros w0 H0.
    - intros w1 w2 w3 H12 H23 H1. destruct (H12 H1) as [H2 E2].
      destruct (H23 H2) as [H3 E3]. split; [done|]. by rewrite E3.
    - by intros w0 c H0.
    - intros w0 o bytes fs' Hin Hex [H0r H0d].
      pose proof (exec_op_extends _ _ _ Hex) as Hext. split.
      + split; eauto using resolve_extends, extends_node_at_dir.
      + cbn [Server.fs].
        destruct (tts_op_writes home _ op now bytes o fs' H0r H0d Hin Hex) as [n ->].
        by apply lookup_insert_ne. }
  by destruct (H (conj Hr Hd)).
Qed.

Lemma synthesis_touches_only_its_output_file_witness :
  let key := Sample.voices ++ ["deadbeef"; "reference.wav"] in
  Server.fs (fst (Server.text_to_speech Sample.home Sample.stack
                    (JObj [("text", JStr "bonjour"); ("voice_id", JStr "deadbeef")])
                    1700000002 Sample.loaded Sample.world1)) !! key
    = Server.fs Sample.world1 !! key.
Proof.
  intros key.
  apply (synthesis_touches_only_its_output_file Sample.home Sample.stack Sample.loaded
           Sample.world1 _ 1700000002 ["home"; "u"; "qwen3-tts"; "output"] key).
  - vm_compute. reflexivity.
  - vm_compute. reflexivity.
  - vm_compute. discriminate.
Defined.

(** ** The answers to a synthesis request *)

Section Answers.

Context {Inputs Output Audio : Type}.
Variable home : string.
Variable stack : @Server.Stack Inputs Output Audio.

Implicit Types (g : @Server.globals Inputs Output Audio) (w : Server.world).

Lemma bind_returns {A B} (m : Server.M A) (k : A → Server.M B) w w' b :
  Server.bind m k w = (w', inr b) →
  ∃ a w1, m w = (w1, inr a) ∧ k a w1 = (w', inr b).
Proof.
  unfold Server.bind. destruct (m w) as [w1 [e|a]]; [done|]. eauto.
Qed.

(** What the pipeline returns is the stored audio, as a WAV file. *)
Lemma pipeline_returns g now text ref_audio w w' r :
  Server.pipeline home stack g now text ref_audio w = (w', inr r) →
  ∃ bytes, r = Response 200 (FileBody "audio/wav" bytes).
Proof.
  unfold Server.pipeline. intros H.
  repeat (apply bind_returns in H as (? & ? & _ & H)).
  unfold Server.ret in H. simplify_eq. eauto.
Qed.

Lemma synthesize_returns g now text voice_id w w' r :
  Server.synthesize home stack g now text voice_id w = (w', inr r) →
  ∃ bytes, r = Response 200 (FileBody "audio/wav" bytes).
Proof.
  unfold Server.synthesize. intros (ref_audio & w1 & _ & H)%bind_returns.
  by apply pipeline_returns in H.
Qed.

End Answers.

(** X5: Once [request.get_json()] has returned the value [data], from
    line 79 on, the answer to a synthesis request is one of four.  A
    value that is not a dict leaves the view with an exception: the
    answer is Flask's page of status 500 and nothing has changed.  A dict
    whose text is missing or false is answered 400, "No text provided",
    and nothing has changed.  Any other dict is answered either 200 with
    a file of type [audio/wav], or 500 with a JSON object whose one field
    [error] is the message of the exception.  What Flask answers by
    itself to a body that [get_json] refuses comes before that line and
    is not part of this. *)
Theorem synthesis_answers_classified
  {Inputs Output Audio : Type} home (stack : @Server.Stack Inputs Output Audio)
  g w data now rand :
  let a := Server.Arrival (Server.PostTts data) now rand in
  let w' := fst (Server.dispatch home stack g w a) in
  let r := snd (Server.dispatch home stack g w a) in
  match data with
  | JObj d =>
      if Json.truthy (default (JStr "") (Json.dict_get d "text"))
      then (∃ bytes, r = Response 200 (FileBody "audio/wav" bytes)) ∨
           (∃ e, r = Response 500 (JsonBody (JObj [("error", JStr (str_exn e))])))
      else r = Response 400 (JsonBody (JObj [("error", JStr "No text provided")])) ∧
           w' = w
  | _ => r = Response 500 ErrorPage ∧ w' = w
  end.
Proof.
  intros a w' r. unfold w', r, a, Server.dispatch, Server.route.
  cbn [Server.req Server.now]. unfold Server.text_to_speech.
  destruct data as [| | | | | |d]; try done.
  destruct (Json.truthy _); cbn [negb]; [|done].
  destruct (Server.synthesize _ _ _ _ _ _ w) as [w1 [e|resp]] eqn:E;
    cbn [Server.catch fst snd].
  - right. by exists e.
  - left. by apply synthesize_returns in E.
Qed.

(** X6: Before [load_model] has run the two globals are [None]: a
    synthesis request with a text is then answered 500, with the message
    of the [TypeError] for calling [None] unless resolving the voice
    raised first, and neither the filesystem nor the inference stack
    is touched. *)
Theorem synthesis_before_load_answers_500
  {Inputs Output Audio : Type} home (stack : @Server.Stack Inputs Output Audio)
  g w d now text :
  Server.processor g = None →
  Json.dict_get d "text" = Some text → Json.truthy text = true →
  Server.text_to_speech home stack (JObj d) now g w =
  (w, inr (Response 500
             (JsonBody
                (JObj [("error",
                        JStr match Server.resolve_voice home (Server.fs w)
                                     (default (JStr "") (Json.dict_get d "voice_id")) with
                             | inl e => str_exn e
                             | inr _ => "'NoneType' object is not callable"
                             end)])))).
Proof.
  intros Hp Htext Htrue.
  rewrite (tts_unfold home stack g w d now text Htext Htrue).
  unfold Server.synthesize, Server.bind at 1, Server.read_fs.
  destruct (Server.resolve_voice _ _ _) as [e|ref_audio]; [done|].
  unfold Server.pipeline, Server.bind at 1, Server.lift, Server.the_processor.
  by rewrite Hp.
Qed.

Lemma synthesis_before_load_answers_500_witness :
  Server.text_to_speech Sample.home Sample.stack
    (JObj [("text", JStr "bonjour")]) 1700000002 Sample.unloaded Sample.world0 =
  (Sample.world0,
   inr (Response 500
          (JsonBody
             (JObj [("error",
                     JStr match Server.resolve_voice Sample.home (Server.fs Sample.world0)
                                  (default (JStr "")
                                     (Json.dict_get [("text", JStr "bonjour")] "voice_id"))
                          with
                          | inl e => str_exn e
                          | inr _ => "'NoneType' object is not callable"
                          end)])))).
Proof.
  apply (synthesis_before_load_answers_500 Sample.home Sample.stack Sample.unloaded
           Sample.world0 [("text", JStr "bonjour")] 1700000002 (JStr "bonjour"));
    reflexivity.
Defined.

(** X7: A [voice_id] that is true and is not a string (a number, a list,
    a dict, [true]) makes [os.path.join] raise before the processor is
    called: the request is answered 500 with the message of the
    [TypeError], which names the type, and nothing has changed. *)
Theorem synthesis_rejects_voice_id_that_is_not_a_string
  {Inputs Output Audio : Type} home (stack : @Server.Stack Inputs Output Audio)
  g w d now text v :
  Json.dict_get d "text" = Some text → Json.truthy text = true →
  Json.dict_get d "voice_id" = Some v → Json.truthy v = true →
  (∀ s, v ≠ JStr s) →
  Server.text_to_speech home stack (JObj d) now g w =
  (w, inr (Response 500
             (JsonBody
                (JObj [("error",
                        JStr ("join() argument must be str, bytes, or os.PathLike object, not '"
                                +:+ Json.type_name v +:+ "'"))])))).
Proof.
  intros Htext Htrue Hv Hvt Hs.
  rewrite (tts_unfold home stack g w d now text Htext Htrue), Hv.
  unfold Server.synthesize, Server.bind, Server.read_fs, Server.resolve_voice.
  cbn [default from_option id]. rewrite Hvt.
  destruct v; try done. by destruct (Hs s).
Qed.

Lemma synthesis_rejects_voice_id_that_is_not_a_string_witness :
  Server.text_to_speech Sample.home Sample.stack
    (JObj [("text", JStr "bonjour"); ("voice_id", JArr [JStr "deadbeef"])])
    1700000002 Sample.loaded Sample.world0 =
  (Sample.world0,
   inr (Response 500
          (JsonBody
             (JObj [("error",
                     JStr ("join() argument must be str, bytes, or os.PathLike object, not '"
                             +:+ Json.type_name (JArr [JStr "deadbeef"]) +:+ "'"))])))).
Proof.
  apply (synthesis_rejects_voice_id_that_is_not_a_string Sample.home Sample.stack
           Sample.loaded Sample.world0
           [("text", JStr "bonjour"); ("voice_id", JArr [JStr "deadbeef"])]
           1700000002 (JStr "bonjour") (JArr [JStr "deadbeef"]));
    [reflexivity..|discriminate].
Defined.

(** ** Records written with [json.dump] and read with [json.load] *)

Section JsonRoundTrip.

Implicit Types (fields : list (string * string)) (acc : list (string * json)).

(** The decoder reads an escaped character back. *)
Lemma string_body_escape_char c t :
  JsonDecode.string_body (Json.escape_char c +:+ t) =
  match JsonDecode.string_body t with
  | Some (u, r) => Some (String c u, r)
  | None => None
  end.
Proof.
  destruct c as [[] [] [] [] [] [] [] []]; reflexivity.
Qed.

Lemma string_body_escape s rest :
  JsonDecode.string_body (Json.escape s +:+ String dquote rest) = Some (s, rest).
Proof.
  induction s as [|c s IH]; [done|].
  cbn [Json.escape]. by rewrite str_app_assoc, string_body_escape_char, IH.
Qed.

Lemma quote_app s rest :
  Json.quote s +:+ rest = String dquote (Json.escape s +:+ String dquote rest).
Proof. unfold Json.quote. by rewrite app_cons, str_app_assoc. Qed.

(** A string value, after the space that follows the colon. *)
Lemma value_quoted fuel s rest :
  JsonDecode.value (S fuel) (String " " (Json.quote s +:+ rest)) = Some (JStr s, rest).
Proof.
  rewrite quote_app.
  change (JsonDecode.value (S fuel) (String " " (String dquote ?r)))
    with (match JsonDecode.string_body r with
          | Some (t, r') => Some (JStr t, r')
          | None => None
          end).
  by rewrite string_body_escape.
Qed.

Lemma value_object fuel r :
  JsonDecode.value (S fuel) (String "{" r) =
  match JsonDecode.skip_ws r with
  | String c' r' =>
      if bool_decide (c' = "}"%char) then Some (JObj [], r')
      else JsonDecode.members_with (JsonDecode.value fuel) (String.length r) r []
  | "" => None
  end.
Proof. reflexivity. Qed.

(** The text of the member [k: v] and what follows it. *)
Lemma member_app k v tail :
  (Json.quote k +:+ ": " +:+ Json.quote v) +:+ tail =
  String dquote (Json.escape k +:+
    String dquote (String ":" (String " " (Json.quote v +:+ tail)))).
Proof. by rewrite !str_app_assoc, quote_app. Qed.

(** The text [json.dumps] writes for the members of a dict of strings. *)
Lemma concat_members_cons k v fields tail :
  String.concat ", "
    (map (fun kv : string * json => Json.quote (fst kv) +:+ ": " +:+ Json.dumps (snd kv))
         (map (fun kv => (fst kv, JStr (snd kv))) ((k, v) :: fields))) +:+ tail =
  String dquote (Json.escape k +:+
    String dquote (String ":" (String " " (Json.quote v +:+
      match fields with
      | [] => tail
      | _ => String "," (String " "
               (String.concat ", "
                  (map (fun kv : string * json =>
                          Json.quote (fst kv) +:+ ": " +:+ Json.dumps (snd kv))
                       (map (fun kv => (fst kv, JStr (snd kv))) fields)) +:+ tail))
      end)))).
Proof.
  destruct fields as [|[k2 v2] fields].
  - cbn [map String.concat fst snd Json.dumps]. apply member_app.
  - cbn [map String.concat fst snd Json.dumps].
    rewrite str_app_assoc. rewrite (str_app_assoc ", "). apply member_app.
Qed.

(** The loop over the members reads them all back, in order. *)
Lemma members_with_strings pv fields :
  (∀ v rest, pv (String " " (Json.quote v +:+ rest)) = Some (JStr v, rest)) →
  ∀ n acc rest s,
    fields ≠ [] → length fields ≤ n →
    JsonDecode.skip_ws s =
      String.concat ", "
        (map (fun kv : string * json =>
                Json.quote (fst kv) +:+ ": " +:+ Json.dumps (snd kv))
             (map (fun kv => (fst kv, JStr (snd kv))) fields)) +:+ String "}" rest →
    JsonDecode.members_with pv n s acc =
    Some (JObj (foldl (fun a kv => Json.dict_set a (fst kv) (JStr (snd kv))) acc fields),
          rest).
Proof.
  intros Hpv. induction fields as [|[k v] fields IH]; intros n acc rest s Hne Hn Hs;
    [done|].
  destruct n as [|n]; [simpl in Hn; lia|].
  rewrite concat_members_cons in Hs.
  cbn [JsonDecode.members_with]. rewrite Hs.
  rewrite bool_decide_eq_true_2 by done.
  rewrite string_body_escape.
  cbn [foldl fst snd].
  change (JsonDecode.skip_ws (String ":" ?x)) with (String ":" x).
  lazy beta iota. rewrite bool_decide_eq_true_2 by done. rewrite Hpv.
  destruct fields as [|[k2 v2] fields]; [done|].
  change (JsonDecode.skip_ws (String "," ?x)) with (String "," x).
  lazy beta iota. rewrite bool_decide_eq_true_2 by done.
  apply IH; [done|simpl in *; lia|].
  change (JsonDecode.skip_ws (String " " ?x)) with (JsonDecode.skip_ws x).
  by rewrite concat_members_cons.
Qed.

Lemma length_app a b : String.length (a +:+ b) = String.length a + String.length b.
Proof. induction a as [|c a IH]; [done|]. rewrite app_cons. simpl. by rewrite IH. Qed.

Lemma members_text_length fields tail :
  length fields ≤
  String.length
    (String.concat ", "
       (map (fun kv : string * json => Json.quote (fst kv) +:+ ": " +:+ Json.dumps (snd kv))
            (map (fun kv => (fst kv, JStr (snd kv))) fields)) +:+ tail).
Proof.
  revert tail. induction fields as [|[k v] fields IH]; intros tail; [simpl; lia|].
  rewrite concat_members_cons. cbn [String.length length].
  rewrite length_app. cbn [String.length]. rewrite length_app.
  destruct fields as [|kv fields]; [simpl; lia|].
  cbn [String.length]. specialize (IH tail). lia.
Qed.

(** Setting fresh keys one after the other builds the dict in order. *)
Lemma dict_set_fresh acc k v : k ∉ acc.*1 → Json.dict_set acc k v = acc ++ [(k, v)].
Proof.
  induction acc as [|[k' v'] acc IH]; [done|]. simpl.
  intros [Hk Hacc]%not_elem_of_cons.
  rewrite bool_decide_eq_false_2 by done. by rewrite IH.
Qed.

Lemma foldl_dict_set_fresh fields acc :
  NoDup (acc.*1 ++ fields.*1) →
  foldl (fun a kv => Json.dict_set a (fst kv) (JStr (snd kv))) acc fields
  = acc ++ map (fun kv => (fst kv, JStr (snd kv))) fields.
Proof.
  revert acc. induction fields as [|[k v] fields IH]; intros acc Hnd.
  - simpl. by rewrite (right_id_L [] (++)).
  - cbn [foldl map fst snd]. rewrite dict_set_fresh.
    + rewrite IH.
      * by rewrite <- (assoc_L (++)).
      * rewrite fmap_app. simpl. by rewrite <- (assoc_L (++)).
    + simpl in Hnd. apply NoDup_app in Hnd as (_ & Hnd & _).
      intros Hin. apply (Hnd k Hin). by left.
Qed.

(** A dict of strings with distinct keys, written by [json.dumps], is
    what [json.loads] returns for the text. *)
Lemma loads_dumps_strings fields :
  NoDup fields.*1 →
  JsonDecode.loads (Json.dumps (JObj (map (fun kv => (fst kv, JStr (snd kv))) fields)))
  = Some (JObj (map (fun kv => (fst kv, JStr (snd kv))) fields)).
Proof.
  intros Hnd. destruct fields as [|[k v] fields]; [done|].
  unfold JsonDecode.loads. cbn [Json.dumps].
  set (text := String.concat _ _ +:+ "}").
  change ("{" +:+ text) with (String "{" text). cbn [String.length].
  rewrite value_object. unfold text at 1. rewrite concat_members_cons.
  change (JsonDecode.skip_ws (String dquote ?x)) with (String dquote x).
  lazy beta iota. rewrite bool_decide_eq_false_2 by done.
  rewrite (members_with_strings _ ((k, v) :: fields) (value_quoted _) _ [] "" text);
    [|done|apply members_text_length|].
  - rewrite foldl_dict_set_fresh by done. done.
  - unfold text. rewrite concat_members_cons.
    by change (JsonDecode.skip_ws (String dquote ?x)) with (String dquote x).
Qed.

End JsonRoundTrip.


Ltac distinct_keys :=
  simpl;
  repeat (apply NoDup_cons_2;
          [rewrite ?not_elem_of_cons; split_and?; try discriminate; apply not_elem_of_nil|]);
  apply NoDup_nil_2.

(** X9: The body of the request that [generate] posts is a JSON document
    that decodes to a dict holding the text under [text], as it was
    given, and the voice under [voice_id] when a non-empty one was
    given; with no voice, or an empty one, the dict has no [voice_id]. *)
Theorem tts_request_body_decodes text voice_id :
  ∃ body d,
    Client.data (Client.tts_request text voice_id) = Some body ∧
    JsonDecode.loads body = Some (JObj d) ∧
    Json.dict_get d "text" = Some (JStr text) ∧
    Json.dict_get d "voice_id" =
      match voice_id with
      | Some v => if bool_decide (v = "") then None else Some (JStr v)
      | None => None
      end.
Proof.
  unfold Client.tts_request. cbn [Client.data].
  assert (NoDup ["text"]) as N1 by distinct_keys.
  assert (NoDup ["text"; "voice_id"]) as N2 by distinct_keys.
  destruct voice_id as [v|]; [case_bool_decide|]; eexists _, _.
  - split; [done|]. split; [exact (loads_dumps_strings [("text", text)] N1)|done].
  - split; [done|].
    split; [exact (loads_dumps_strings [("text", text); ("voice_id", v)] N2)|done].
  - split; [done|]. split; [exact (loads_dumps_strings [("text", text)] N1)|done].
Qed.

(** ** A voice, once cloned *)

Section Cloned.

Context {Inputs Output Audio : Type}.
Variable home : string.

Implicit Types (g : @Server.globals Inputs Output Audio) (w : Server.world).
Implicit Types (fs : gmap (list string) node) (vp key : list string).

Lemma run_ops_extends fs ops : FS.extends fs (fst (run_ops fs ops)).
Proof.
  revert fs. induction ops as [|o ops IH]; intros fs; [apply extends_refl|].
  rewrite run_ops_cons. destruct (exec_op fs o) as [e|fs1] eqn:E; [apply extends_refl|].
  eapply extends_trans; [by eapply exec_op_extends|apply IH].
Qed.

(** The paths of another profile are not among those of the profile
    [d]. *)
Lemma other_profile_dir vp d d' :
  d' ≠ d →
  vp ++ [d'] ∉ [vp ++ [d]; vp ++ [d; "reference.wav"]; vp ++ [d; "meta.json"]].
Proof.
  intros Hd. rewrite !not_elem_of_cons.
  split_and!; [intros H%app_inv_head..|apply not_elem_of_nil]; by simplify_eq.
Qed.

Lemma other_profile_file vp d d' f :
  d' ≠ d →
  vp ++ [d'; f] ∉ [vp ++ [d]; vp ++ [d; "reference.wav"]; vp ++ [d; "meta.json"]].
Proof.
  intros Hd. rewrite !not_elem_of_cons.
  split_and!; [intros H%app_inv_head..|apply not_elem_of_nil]; by simplify_eq.
Qed.

(** A clone request on a usable place of the registry: its answer,
    the three entries it leaves, and the rest as it was. *)
Lemma clone_voice_runs g w files form now rand vp audio :
  Server.registry_at home (Server.fs w) vp →
  Server.slot_usable (Server.fs w) vp (Server.voice_id_of rand) →
  Server.multi_get files "audio" = Some audio →
  let d := Server.voice_id_of rand in
  let name := default ("voice_" +:+ Py.str_of_int now) (Server.multi_get form "name") in
  ∃ fs',
    Server.clone_voice home files form now rand g w =
      (Server.World fs' (Server.calls w),
       inr (Response 200 (JsonBody (JObj [("voice_id", JStr d); ("name", JStr name)]))))
    ∧ Server.registry_at home fs' vp
    ∧ fs' !! (vp ++ [d]) = Some Dir
    ∧ fs' !! (vp ++ [d; "reference.wav"]) = Some (File (Server.content audio))
    ∧ fs' !! (vp ++ [d; "meta.json"]) = Some (File (Json.dumps (Server.meta home name d)))
    ∧ ∀ key, key ∉ [vp ++ [d]; vp ++ [d; "reference.wav"]; vp ++ [d; "meta.json"]] →
             fs' !! key = Server.fs w !! key.
Proof.
  intros Hreg Hslot Haudio d name.
  destruct (clone_ops_run home (Server.fs w) vp d name (Server.content audio) Hreg
              (voice_id_of_plain rand) Hslot) as (fs' & Hrun & Ed & Ea & Em).
  assert (Server.clone_voice home files form now rand g w =
          (Server.World fs' (Server.calls w),
           inr (Response 200 (JsonBody (JObj [("voice_id", JStr d); ("name", JStr name)])))))
    as Hclone.
  { unfold Server.clone_voice. rewrite Haudio. cbv zeta. fold d name. by rewrite Hrun. }
  exists fs'. split_and!; try done.
  - eapply registry_at_extends; [|exact Hreg].
    pose proof (run_ops_extends (Server.fs w)
                  (Server.clone_ops home d name (Server.content audio))) as H.
    by rewrite Hrun in H.
  - intros key Hkey.
    pose proof (clone_voice_frame home g w files form now rand vp key Hreg Hkey) as H.
    by rewrite Hclone in H.
Qed.

End Cloned.

(** X10: A voice that was cloned is listed.  Where the voices directory
    exists, every entry of it has a plain name and a record that
    [json.load] decodes, the place of the new profile is usable, and
    [json.load] reads back the record of the new voice as [json.dump]
    wrote it, a clone request with an audio part is answered 200, and
    listing the voices afterwards is answered 200 with a list that holds
    the record of the new voice: its name, its id and the path of its
    recording.  The other records of the list are those of the other
    profiles, unchanged, and none of them is missing.  The decoder and
    the order of the listing are those of the environment, whatever they
    are. *)
Theorem cloned_voice_is_listed
  {Inputs Output Audio : Type} home (stack : @Server.Stack Inputs Output Audio) g
  w files form now rand vp audio :
  Server.registry_at home (Server.fs w) vp →
  Server.slot_usable (Server.fs w) vp (Server.voice_id_of rand) →
  (∀ d, is_Some (Server.fs w !! (vp ++ [d])) →
        FS.plain_name d = true ∧ Server.record_readable stack (Server.fs w) vp d) →
  Server.multi_get files "audio" = Some audio →
  let voice_id := Server.voice_id_of rand in
  let name := default ("voice_" +:+ Py.str_of_int now) (Server.multi_get form "name") in
  let cloned := Server.clone_voice home files form now rand g w in
  Server.json_load stack (Json.dumps (Server.meta home name voice_id))
    = inr (Server.meta home name voice_id) →
  Server.dir_order stack (FS.children (Server.fs (fst cloned)) vp)
    ≡ₚ FS.children (Server.fs (fst cloned)) vp →
  ∃ voices,
    snd cloned = inr (Response 200 (JsonBody (JObj [("voice_id", JStr voice_id);
                                                    ("name", JStr name)]))) ∧
    Server.list_voices home stack g (fst cloned)
      = (fst cloned, inr (Response 200 (JsonBody (JObj [("voices", JArr voices)])))) ∧
    Server.meta home name voice_id ∈ voices ∧
    (∀ j, j ∈ voices →
          j = Server.meta home name voice_id ∨
          ∃ d, d ≠ voice_id ∧ Server.record_of stack (Server.fs w) vp d = Some j) ∧
    (∀ d j, d ≠ voice_id →
            Server.record_of stack (Server.fs w) vp d = Some j → j ∈ voices).
Proof.
  intros Hreg Hslot Hall Haudio voice_id name cloned Hback.
  destruct (clone_voice_runs home g w files form now rand vp audio Hreg Hslot Haudio)
    as (fs' & Hclone & Hreg' & Ed & Ea & Em & Hframe).
  fold voice_id name in Hclone, Ed, Ea, Em, Hframe.
  unfold cloned. rewrite Hclone. cbn [fst snd Server.fs]. intros Hperm.
  set (names := Server.dir_order stack (FS.children fs' vp)) in *.
  assert (∀ d, d ∈ names ↔ is_Some (fs' !! (vp ++ [d]))) as Hnames.
  { intros d. rewrite Hperm. apply elem_of_children. }
  assert (∀ d, d ≠ voice_id →
            fs' !! (vp ++ [d]) = Server.fs w !! (vp ++ [d]) ∧
            fs' !! (vp ++ [d; "meta.json"]) = Server.fs w !! (vp ++ [d; "meta.json"]))
    as Hother.
  { intros d Hd. split; apply Hframe;
      [by apply other_profile_dir|by apply other_profile_file]. }
  assert (Server.record_of stack fs' vp voice_id = Some (Server.meta home name voice_id))
    as Hnew.
  { unfold Server.record_of. by rewrite Ed, Em, Hback. }
  assert (∀ d, d ≠ voice_id →
            Server.record_of stack fs' vp d = Server.record_of stack (Server.fs w) vp d)
    as Hrec.
  { intros d Hd. unfold Server.record_of. by destruct (Hother d Hd) as [-> ->]. }
  exists (omap (Server.record_of stack fs' vp) names). split_and!.
  - done.
  - unfold Server.list_voices, FS.listdir. cbn [Server.fs].
    destruct Hreg' as [Hr Hv]. rewrite Hr, Hv. fold names.
    rewrite (load_metas_readable home stack fs' vp _ [] (conj Hr Hv)); [done|].
    intros d Hd%Hnames.
    destruct (decide (d = voice_id)) as [->|Hne].
    + split; [apply voice_id_of_plain|]. intros _. rewrite Em. eauto.
    + destruct (Hother d Hne) as [E1 E2]. rewrite E1 in Hd.
      destruct (Hall d Hd) as [Hp Hread]. split; [done|].
      unfold Server.record_readable in *. by rewrite E1, E2.
  - apply list_elem_of_omap. exists voice_id. split; [|done].
    apply Hnames. by rewrite Ed.
  - intros j (d & Hd & Hj)%list_elem_of_omap.
    destruct (decide (d = voice_id)) as [->|Hne].
    + left. rewrite Hnew in Hj. by simplify_eq.
    + right. exists d. split; [done|]. by rewrite <- Hrec.
  - intros d j Hne Hj. apply list_elem_of_omap. exists d.
    split; [|by rewrite Hrec].
    apply Hnames. destruct (Hother d Hne) as [-> _].
    unfold Server.record_of in Hj.
    by destruct (Server.fs w !! (vp ++ [d])) as [[|]|].
Qed.

Lemma cloned_voice_is_listed_witness :
  let w := Sample.world1 in
  let files := [("audio", Server.Upload "carol.wav" "RIFF-carol")] in
  let form := [("name", "Carol")] in
  let rand := 0x0badcafe000000000000000000000001%N in
  let voice_id := Server.voice_id_of rand in
  let name := default ("voice_" +:+ Py.str_of_int 1700000009)
                (Server.multi_get form "name") in
  let cloned := Server.clone_voice Sample.home files form 1700000009 rand
                  Sample.loaded w in
  ∃ voices,
    snd cloned = inr (Response 200 (JsonBody (JObj [("voice_id", JStr voice_id);
                                                    ("name", JStr name)]))) ∧
    Server.list_voices Sample.home Sample.stack Sample.loaded (fst cloned)
      = (fst cloned, inr (Response 200 (JsonBody (JObj [("voices", JArr voices)])))) ∧
    Server.meta Sample.home name voice_id ∈ voices ∧
    (∀ j, j ∈ voices →
          j = Server.meta Sample.home name voice_id ∨
          ∃ d, d ≠ voice_id ∧
               Server.record_of Sample.stack (Server.fs w) Sample.voices d = Some j) ∧
    (∀ d j, d ≠ voice_id →
            Server.record_of Sample.stack (Server.fs w) Sample.voices d = Some j →
            j ∈ voices).
Proof.
  intros w files form rand.
  apply (cloned_voice_is_listed Sample.home Sample.stack Sample.loaded w files form
           1700000009 rand Sample.voices (Server.Upload "carol.wav" "RIFF-carol")).
  - split; vm_compute; reflexivity.
  - split_and!; [intros x|..]; vm_compute; discriminate.
  - intros d Hd%elem_of_children.
    assert (FS.children (Server.fs w) Sample.voices = ["deadbeef"]) as E
      by (vm_compute; reflexivity).
    rewrite E in Hd. apply list_elem_of_singleton in Hd as ->.
    split; [reflexivity|]. intros _. vm_compute. eauto.
  - reflexivity.
  - vm_compute. reflexivity.
  - apply reverse_Permutation.
Defined.

(** X11: The id that a clone request returns designates the recording
    that was uploaded: in the world the request leaves, a synthesis
    request naming this id finds the reference recording of the profile,
    which holds the uploaded bytes, and calls the processor with the
    path of that recording. *)
Theorem cloned_voice_conditions_synthesis
  {Inputs Output Audio : Type} home (stack : @Server.Stack Inputs Output Audio)
  g w files form now rand vp audio :
  Server.registry_at home (Server.fs w) vp →
  Server.slot_usable (Server.fs w) vp (Server.voice_id_of rand) →
  Server.multi_get files "audio" = Some audio →
  let voice_id := Server.voice_id_of rand in
  let w1 := fst (Server.clone_voice home files form now rand g w) in
  Server.resolve_voice home (Server.fs w1) (JStr voice_id)
    = inr (Some (Server.audio_path home voice_id)) ∧
  FS.read (Server.fs w1) (Server.audio_path home voice_id)
    = inr (Server.content audio) ∧
  ∀ text later p,
    Json.truthy text = true → Server.processor g = Some p →
    ∃ more,
      Server.calls (fst (Server.text_to_speech home stack
                           (JObj [("text", text); ("voice_id", JStr voice_id)])
                           later g w1))
      = Server.calls w1 ++
        Server.CallProcessor text (Some (Server.audio_path home voice_id)) :: more.
Proof.
  intros Hreg Hslot Haudio voice_id w1.
  destruct (clone_voice_runs home g w files form now rand vp audio Hreg Hslot Haudio)
    as (fs' & Hclone & Hreg' & Ed & Ea & Em & Hframe).
  fold voice_id in Hclone, Ed, Ea, Em, Hframe.
  unfold w1. rewrite Hclone. cbn [fst Server.fs Server.calls].
  pose proof (voice_id_of_plain rand) as Hplain. fold voice_id in Hplain.
  destruct Hreg' as [Hr Hv].
  pose proof (resolve_profile_file home fs' vp Hr Hv voice_id "reference.wav"
                Hplain eq_refl) as Hres.
  rewrite Ed, Ea in Hres.
  change (PosixPath.join (Server.VOICES_DIR home) [voice_id; "reference.wav"])
    with (Server.audio_path home voice_id) in Hres.
  assert (Server.resolve_voice home fs' (JStr voice_id)
          = inr (Some (Server.audio_path home voice_id))) as Hvoice.
  { unfold Server.resolve_voice. cbn [Json.truthy].
    rewrite bool_decide_eq_false_2 by by apply plain_name_nonempty. cbn [negb].
    change (PosixPath.join (Server.VOICES_DIR home) [voice_id; "reference.wav"])
      with (Server.audio_path home voice_id).
    unfold FS.exists_. by rewrite Hres. }
  split_and!.
  - done.
  - unfold FS.read. rewrite Hres. by rewrite node_at_snoc_2, Ea.
  - intros text later p Htrue Hp.
    rewrite (tts_unfold home stack g _ [("text", text); ("voice_id", JStr voice_id)]
               later text eq_refl Htrue).
    change (default (JStr "") (Json.dict_get _ "voice_id")) with (JStr voice_id).
    rewrite (synthesize_resolved home stack g (Server.World fs' (Server.calls w))
               later text _ _ Hvoice).
    destruct (pipeline_first_call home stack g (Server.World fs' (Server.calls w))
                later text (Some (Server.audio_path home voice_id)) p Hp)
      as [more Hmore].
    exists more. cbn [Server.calls] in Hmore. rewrite <- Hmore.
    by destruct (Server.pipeline _ _ _ _ _ _ _) as [w2 [e|r]].
Qed.

Lemma cloned_voice_conditions_synthesis_witness :
  let w := Sample.world0 in
  let files := [("audio", Server.Upload "alice.wav" "RIFF-alice")] in
  let form := [("name", "Alice")] in
  let rand := 0xdeadbeef0123456789abcdef01234567%N in
  let voice_id := Server.voice_id_of rand in
  let w1 := fst (Server.clone_voice Sample.home files form 1700000000 rand
                   Sample.loaded w) in
  Server.resolve_voice Sample.home (Server.fs w1) (JStr voice_id)
    = inr (Some (Server.audio_path Sample.home voice_id)) ∧
  FS.read (Server.fs w1) (Server.audio_path Sample.home voice_id)
    = inr (Server.content (Server.Upload "alice.wav" "RIFF-alice")) ∧
  ∀ text later p,
    Json.truthy text = true → Server.processor Sample.loaded = Some p →
    ∃ more,
      Server.calls (fst (Server.text_to_speech Sample.home Sample.stack
                           (JObj [("text", text); ("voice_id", JStr voice_id)])
                           later Sample.loaded w1))
      = Server.calls w1 ++
        Server.CallProcessor text (Some (Server.audio_path Sample.home voice_id)) :: more.
Proof.
  intros w files form rand.
  apply (cloned_voice_conditions_synthesis Sample.home Sample.stack Sample.loaded w
           files form 1700000000 rand Sample.voices
           (Server.Upload "alice.wav" "RIFF-alice")).
  - split; vm_compute; reflexivity.
  - split_and!; [intros x|..]; vm_compute; discriminate.
  - reflexivity.
Defined.

(** ** The directories made at import *)

Section AtImport.

Variable home : string.

Implicit Types (fs : gmap (list string) node) (cur p : list string).

(** [os.makedirs] adds directories only. *)
Lemma makedirs_from_adds_dirs fs cur cs path fs' k n :
  FS.makedirs_from fs cur cs path = inr fs' →
  fs' !! k = Some n → fs !! k = Some n ∨ (fs !! k = None ∧ n = Dir).
Proof.
  revert fs cur. induction cs as [|c cs IH]; intros fs cur; simpl.
  - destruct (FS.node_at fs cur) as [[|]|]; intros ? ?; simplify_eq. by left.
  - destruct (FS.node_at fs cur) as [[|]|]; try done.
    destruct (FS.is_dot c); [apply IH|].
    case_bool_decide; [apply IH|].
    destruct (fs !! (cur ++ [c])) eqn:Hc; [apply IH|].
    intros Hm Hk. destruct (IH _ _ Hm Hk) as [Hin|[Hin ->]].
    + destruct (decide (k = cur ++ [c])) as [->|Hne].
      * rewrite lookup_insert_eq in Hin. simplify_eq. by right.
      * rewrite lookup_insert_ne in Hin by done. by left.
    + right. split; [|done].
      destruct (decide (k = cur ++ [c])) as [->|Hne]; [done|].
      by rewrite lookup_insert_ne in Hin by done.
Qed.

(** On a path that leads to a directory it changes nothing. *)
Lemma makedirs_existing fs path p :
  FS.resolve fs path = inr p → FS.node_at fs p = Some Dir →
  FS.makedirs fs path = inr fs.
Proof.
  unfold FS.resolve, FS.makedirs. case_bool_decide; [done|]. intros Hw Hd.
  rewrite <- (right_id_L [] (++) (Py.split_sep path)).
  rewrite (makedirs_from_walk _ _ _ _ _ _ Hw). simpl. by rewrite Hd.
Qed.

Lemma makedirs_resolves fs path fs' :
  FS.makedirs fs path = inr fs' →
  ∃ p, FS.resolve fs' path = inr p ∧ FS.node_at fs' p = Some Dir.
Proof.
  unfold FS.makedirs, FS.resolve. case_bool_decide; [done|].
  apply makedirs_from_resolves.
Qed.

Lemma makedirs_extends fs path fs' : FS.makedirs fs path = inr fs' → FS.extends fs fs'.
Proof. unfold FS.makedirs. case_bool_decide; [done|]. apply makedirs_from_extends. Qed.

Lemma makedirs_adds_dirs fs path fs' k n :
  FS.makedirs fs path = inr fs' →
  fs' !! k = Some n → fs !! k = Some n ∨ (fs !! k = None ∧ n = Dir).
Proof. unfold FS.makedirs. case_bool_decide; [done|]. apply makedirs_from_adds_dirs. Qed.

End AtImport.

(** X12: When the import of the module succeeds, the voices directory and
    the output directory both exist afterwards; every entry that was on
    the filesystem is kept as it was, and what was added is directories
    only.  Importing the module again, as a restart of the service does,
    changes nothing. *)
Theorem import_prepares_both_directories home fs0 fs :
  Server.import_module home fs0 = inr fs →
  (∃ vp, Server.registry_at home fs vp) ∧
  (∃ op, FS.resolve fs (Server.OUTPUT_DIR home) = inr op ∧ FS.node_at fs op = Some Dir) ∧
  (∀ k n, fs0 !! k = Some n → fs !! k = Some n) ∧
  (∀ k n, fs !! k = Some n → fs0 !! k = Some n ∨ (fs0 !! k = None ∧ n = Dir)) ∧
  Server.import_module home fs = inr fs.
Proof.
  intros Himp. pose proof Himp as Himp0. unfold Server.import_module in Himp.
  destruct (FS.makedirs fs0 (Server.VOICES_DIR home)) as [|fs1] eqn:E1; [done|].
  destruct (makedirs_resolves _ _ _ E1) as (vp & Hvr & Hvd).
  destruct (makedirs_resolves _ _ _ Himp) as (op & Hor & Hod).
  pose proof (makedirs_extends _ _ _ Himp) as Hext.
  assert (Server.registry_at home fs vp) as Hreg
    by (split; eauto using resolve_extends, extends_node_at_dir).
  assert (∀ k n, fs !! k = Some n → fs0 !! k = Some n ∨ (fs0 !! k = None ∧ n = Dir))
    as Hadds.
  { intros k n Hk.
    destruct (makedirs_adds_dirs _ _ _ _ _ Himp Hk) as [H1|[H1 ->]].
    - apply (makedirs_adds_dirs _ _ _ _ _ E1 H1).
    - right. split; [|done].
      destruct (fs0 !! k) as [n0|] eqn:E0; [|done].
      destruct (makedirs_extends _ _ _ E1 k n0 E0) as (n' & Hn' & _). congruence. }
  split_and!; eauto.
  - intros k n Hk.
    pose proof (makedirs_extends _ _ _ E1) as Hext1.
    destruct (Hext1 k n Hk) as (n1 & H1 & _). destruct (Hext k n1 H1) as (n2 & H2 & _).
    destruct (Hadds k n2 H2) as [H0|[H0 _]]; congruence.
  - unfold Server.import_module. destruct Hreg as [Hr Hd].
    rewrite (makedirs_existing fs _ vp Hr Hd).
    by rewrite (makedirs_existing fs _ op Hor Hod).
Qed.

Lemma import_prepares_both_directories_witness :
  (∃ vp, Server.registry_at Sample.home Sample.booted vp) ∧
  (∃ op, FS.resolve Sample.booted (Server.OUTPUT_DIR Sample.home) = inr op ∧
         FS.node_at Sample.booted op = Some Dir) ∧
  (∀ k n, Sample.base !! k = Some n → Sample.booted !! k = Some n) ∧
  (∀ k n, Sample.booted !! k = Some n →
          Sample.base !! k = Some n ∨ (Sample.base !! k = None ∧ n = Dir)) ∧
  Server.import_module Sample.home Sample.booted = inr Sample.booted.
Proof.
  apply (import_prepares_both_directories Sample.home Sample.base Sample.booted).
  unfold Sample.booted.
  destruct (Server.import_module Sample.home Sample.base) as [e|fs] eqn:E; [|done].
  assert (succeeds (Server.import_module Sample.home Sample.base) = true) as H
    by (vm_compute; reflexivity).
  by rewrite E in H.
Defined.

(** ** The names of the files written *)

Section FileNames.

Variable home : string.

Lemma str_app_inv_head a b c : a +:+ b = a +:+ c → b = c.
Proof. induction a as [|x a IH]; [done|]. rewrite !app_cons. intros [= H]. auto. Qed.

Lemma str_app_inv_tail a b s : a +:+ s = b +:+ s → a = b.
Proof.
  revert b. induction a as [|x a IH]; intros [|y b] H.
  - done.
  - apply (f_equal String.length) in H. rewrite !length_app in H. simpl in H. lia.
  - apply (f_equal String.length) in H. rewrite !length_app in H. simpl in H. lia.
  - rewrite !app_cons in H. injection H as -> H. f_equal. by apply IH.
Qed.

Lemma client_OUTPUT_DIR_eq :
  Client.OUTPUT_DIR home = Py.rstrip_sep home +:+ "/.clawdbot/media/tts".
Proof. unfold Client.OUTPUT_DIR. by rewrite expanduser_home. Qed.

Lemma client_OUTPUT_DIR_nonempty : Client.OUTPUT_DIR home ≠ "".
Proof. rewrite client_OUTPUT_DIR_eq. by apply app_nonempty_r. Qed.

Lemma client_OUTPUT_DIR_open : Py.ends_with_sep (Client.OUTPUT_DIR home) = false.
Proof. rewrite client_OUTPUT_DIR_eq. by rewrite ends_with_sep_app. Qed.

Lemma client_output_name_plain now :
  FS.plain_name ("tts_" +:+ Py.str_of_int now +:+ ".wav") = true.
Proof.
  unfold FS.plain_name, FS.is_dot.
  rewrite !has_sep_app, str_of_int_no_sep.
  by rewrite !bool_decide_eq_false_2 by discriminate.
Qed.

(** A file name made of a prefix, the time and [.wav] under a
    directory: two times give two paths. *)
Lemma stamped_path_inj dir pre (n1 n2 : N) :
  dir ≠ "" → Py.ends_with_sep dir = false → Py.has_sep pre = false →
  PosixPath.join dir [pre +:+ Py.str_of_int n1 +:+ ".wav"]
  = PosixPath.join dir [pre +:+ Py.str_of_int n2 +:+ ".wav"] →
  n1 = n2.
Proof.
  intros Hne Hop Hpre. unfold PosixPath.join. cbn [foldl].
  assert (∀ n, Py.has_sep (pre +:+ Py.str_of_int n +:+ ".wav") = false) as Hs.
  { intros n. by rewrite !has_sep_app, Hpre, str_of_int_no_sep. }
  destruct (join2_plain dir _ Hne Hop (Hs n1)) as [-> _].
  destruct (join2_plain dir _ Hne Hop (Hs n2)) as [-> _].
  intros H%str_app_inv_head%str_app_inv_head%str_app_inv_head%str_app_inv_tail.
  by apply (inj pretty).
Qed.

End FileNames.

(** X13: The file of a synthesis request is named after the second in
    which the request is handled, and so is the file the client stores:
    two requests write to the same path exactly when they fall in the
    same second. *)
Theorem output_files_collide_iff_same_second home (now1 now2 : N) :
  (Server.output_path home now1 = Server.output_path home now2 ↔ now1 = now2) ∧
  (Client.output_path home now1 = Client.output_path home now2 ↔ now1 = now2).
Proof.
  split; (split; [|by intros ->]).
  - apply stamped_path_inj; auto using OUTPUT_DIR_nonempty, OUTPUT_DIR_open.
  - apply stamped_path_inj;
      auto using client_OUTPUT_DIR_nonempty, client_OUTPUT_DIR_open.
Qed.

(** ** The client: [generate] *)

Section Generate.

Variable home : string.
Variable urlopen : list (Client.http_request * N) → Client.http_request → N
                   → Client.http_result.

Implicit Types (w : Client.world).

Lemma check_server_world w :
  fst (Client.check_server urlopen w) =
  Client.World (Client.fs w) (Client.stdout w) (Client.stderr w)
    (Client.sent w ++ [(Client.health_request, 2%N)]).
Proof.
  unfold Client.check_server, Client.send.
  by destruct (urlopen (Client.sent w) Client.health_request 2%N).
Qed.

(** When [generate] leaves through [sys.exit]. *)
Lemma generate_exit text voice_id now w code :
  snd (Client.generate home urlopen text voice_id now w) = Client.Exit code →
  code = 1%N ∧
  Client.stdout (fst (Client.generate home urlopen text voice_id now w))
    = Client.stdout w ∧
  ∃ line more,
    Client.stderr (fst (Client.generate home urlopen text voice_id now w))
      = Client.stderr w ++ line :: more.
Proof.
  unfold Client.generate.
  pose proof (check_server_world w) as Hw.
  destruct (Client.check_server urlopen w) as [w1 up]. simpl in Hw. subst w1.
  destruct up; cbn [negb].
  - unfold Client.send. cbn [Client.fs Client.stdout Client.stderr Client.sent].
    destruct (urlopen _ (Client.tts_request text voice_id) 120%N) as [st b|c b|e].
    + destruct (run_ops _ _) as [fs' [e|]]; simpl; [|done].
      intros [= <-]. eauto.
    + simpl. intros [= <-]. eauto.
    + simpl. intros [= <-]. eauto.
  - simpl. intros [= <-]. split_and!; [done..|].
    eexists _, [_]. by rewrite <- (assoc_L (++)).
Qed.

Lemma generate_return text voice_id now w path :
  snd (Client.generate home urlopen text voice_id now w) = Client.Return path →
  path = Client.output_path home now ∧
  Client.stdout (fst (Client.generate home urlopen text voice_id now w))
    = Client.stdout w ++ [path] ∧
  Client.stderr (fst (Client.generate home urlopen text voice_id now w))
    = Client.stderr w.
Proof.
  unfold Client.generate.
  pose proof (check_server_world w) as Hw.
  destruct (Client.check_server urlopen w) as [w1 up]. simpl in Hw. subst w1.
  destruct up; cbn [negb]; [|done].
  unfold Client.send. cbn [Client.fs Client.stdout Client.stderr Client.sent].
  destruct (urlopen _ (Client.tts_request text voice_id) 120%N) as [st b|c b|e];
    [|done..].
  destruct (run_ops _ _) as [fs' [e|]]; simpl; [done|].
  by intros [= <-].
Qed.

End Generate.

(** X14: Whenever [generate] leaves through [sys.exit], the status is 1,
    nothing was printed on the standard output, and at least one line
    was added to the error stream: a caller that reads the path from the
    standard output gets none. *)
Theorem generate_failure_exits_1 home urlopen text voice_id now w code :
  snd (Client.generate home urlopen text voice_id now w) = Client.Exit code →
  code = 1%N ∧
  Client.stdout (fst (Client.generate home urlopen text voice_id now w))
    = Client.stdout w ∧
  ∃ line more,
    Client.stderr (fst (Client.generate home urlopen text voice_id now w))
      = Client.stderr w ++ line :: more.
Proof. apply generate_exit. Qed.

Lemma generate_failure_exits_1_witness :
  let run := Client.generate Sample.home Sample.network_down "bonjour" None 1700000003
               Sample.client_world in
  1%N = 1%N ∧
  Client.stdout (fst run) = Client.stdout Sample.client_world ∧
  ∃ line more, Client.stderr (fst run) = Client.stderr Sample.client_world ++ line :: more.
Proof.
  apply (generate_failure_exits_1 Sample.home Sample.network_down "bonjour" None
           1700000003 Sample.client_world 1).
  reflexivity.
Defined.

(** X15: When the service is up and answers the synthesis request, and the
    client's output directory exists, [generate] stores the body of the
    answer in the file [tts_<now>.wav] of that directory, prints the
    path of the file as its one line of output and returns it: reading
    the file at the printed path gives the bytes that the service
    sent. *)
Theorem generate_stores_the_audio home urlopen text voice_id now w st audio op :
  snd (Client.check_server urlopen w) = true →
  urlopen (Client.sent w ++ [(Client.health_request, 2%N)])
    (Client.tts_request text voice_id) 120%N = Client.HttpOk st audio →
  FS.resolve (Client.fs w) (Client.OUTPUT_DIR home) = inr op →
  FS.node_at (Client.fs w) op = Some Dir →
  Client.fs w !! (op ++ ["tts_" +:+ Py.str_of_int now +:+ ".wav"]) ≠ Some Dir →
  let key := op ++ ["tts_" +:+ Py.str_of_int now +:+ ".wav"] in
  let fs' := <[key := File audio]> (<[key := File ""]> (Client.fs w)) in
  Client.generate home urlopen text voice_id now w =
    (Client.World fs' (Client.stdout w ++ [Client.output_path home now])
       (Client.stderr w)
       (Client.sent w ++ [(Client.health_request, 2%N);
                          (Client.tts_request text voice_id, 120%N)]),
     Client.Return (Client.output_path home now)) ∧
  FS.read fs' (Client.output_path home now) = inr audio.
Proof.
  intros Hup Hok Hr Hd Hk key fs'.
  pose proof (store_child (Client.fs w) (Client.OUTPUT_DIR home) op _ audio
                (client_OUTPUT_DIR_nonempty home) (client_OUTPUT_DIR_open home) Hr Hd
                (client_output_name_plain now) Hk) as Hs.
  cbv zeta in Hs. destruct Hs as (Hopen & Hwrite & Hread).
  change (PosixPath.join (Client.OUTPUT_DIR home) _)
    with (Client.output_path home now) in Hopen, Hwrite, Hread.
  split; [|exact Hread].
  unfold Client.generate.
  pose proof (check_server_world urlopen w) as Hw.
  destruct (Client.check_server urlopen w) as [w1 up]. simpl in Hw, Hup. subst w1 up.
  cbn [negb]. unfold Client.send.
  cbn [Client.fs Client.stdout Client.stderr Client.sent].
  rewrite Hok. cbn [run_ops exec_op]. rewrite Hopen, Hwrite.
  unfold Client.print_out. cbn [Client.fs Client.stdout Client.stderr Client.sent].
  by rewrite <- (assoc_L (++)).
Qed.

Lemma generate_stores_the_audio_witness :
  let w := Sample.client_world in
  let key := ["home"; "u"; ".clawdbot"; "media"; "tts"]
               ++ ["tts_" +:+ Py.str_of_int 1700000003 +:+ ".wav"] in
  let fs' := <[key := File "RIFF"]> (<[key := File ""]> (Client.fs w)) in
  Client.generate Sample.home Sample.network_up "bonjour" None 1700000003 w =
    (Client.World fs' (Client.stdout w ++ [Client.output_path Sample.home 1700000003])
       (Client.stderr w)
       (Client.sent w ++ [(Client.health_request, 2%N);
                          (Client.tts_request "bonjour" None, 120%N)]),
     Client.Return (Client.output_path Sample.home 1700000003)) ∧
  FS.read fs' (Client.output_path Sample.home 1700000003) = inr "RIFF".
Proof.
  intros w.
  apply (generate_stores_the_audio Sample.home Sample.network_up "bonjour" None
           1700000003 w 200 "RIFF" ["home"; "u"; ".clawdbot"; "media"; "tts"]).
  - reflexivity.
  - reflexivity.
  - vm_compute. reflexivity.
  - vm_compute. reflexivity.
  - vm_compute. discriminate.
Defined.

(** ** The client: [list_voices] and [main] *)

Section ClientListing.

Variable urlopen : list (Client.http_request * N) → Client.http_request → N
                   → Client.http_result.
Variable reason : N → string.
Variable json_loads : string → exn + json.

Implicit Types (w : Client.world) (profiles : list (string * string)).

(** The line printed for a voice that shows its id and its name. *)
Lemma voice_line_shows v name id :
  Client.shows v name id → Client.voice_line v = inr ("  " +:+ id +:+ " - " +:+ name).
Proof. intros (d & -> & Hid & Hname). unfold Client.voice_line. by rewrite Hid, Hname. Qed.

Lemma print_voices_app vs1 vs2 w :
  Client.print_voices (vs1 ++ vs2) w =
  match Client.print_voices vs1 w with
  | (w1, None) => Client.print_voices vs2 w1
  | (w1, Some e) => (w1, Some e)
  end.
Proof.
  revert w. induction vs1 as [|v vs1 IH]; intros w; [done|].
  simpl. destruct (Client.voice_line v); [done|]. apply IH.
Qed.

Lemma print_voices_shown vs profiles w :
  Forall2 (fun v p => Client.shows v (fst p) (snd p)) vs profiles →
  Client.print_voices vs w =
  (Client.World (Client.fs w)
     (Client.stdout w ++ map (fun p => "  " +:+ snd p +:+ " - " +:+ fst p) profiles)
     (Client.stderr w) (Client.sent w), None).
Proof.
  intros H. revert w. induction H as [|v [name id] vs profiles Hv _ IH]; intros w.
  - simpl. rewrite (right_id_L [] (++)). by destruct w.
  - cbn [map Client.print_voices fst snd]. rewrite (voice_line_shows v name id Hv), IH.
    unfold Client.print_out. cbn [Client.fs Client.stdout Client.stderr Client.sent].
    by rewrite <- (assoc_L (++)).
Qed.

(** The loop only prints. *)
Lemma print_voices_world vs w :
  ∃ lines,
    fst (Client.print_voices vs w) =
    Client.World (Client.fs w) (Client.stdout w ++ lines) (Client.stderr w) (Client.sent w).
Proof.
  revert w. induction vs as [|v vs IH]; intros w.
  - exists []. rewrite (right_id_L [] (++)). by destruct w.
  - simpl. destruct (Client.voice_line v) as [e|line].
    + exists []. rewrite (right_id_L [] (++)). by destruct w.
    + destruct (IH (Client.print_out line w)) as [lines ->].
      exists (line :: lines). unfold Client.print_out.
      cbn [Client.fs Client.stdout Client.stderr Client.sent].
      by rewrite <- (assoc_L (++)).
Qed.

(** What [list_voices] does in every case: one request, no file, and
    an error line exactly when it exits. *)
Lemma list_voices_outcome w :
  let w' := fst (Client.list_voices urlopen reason json_loads w) in
  Client.fs w' = Client.fs w ∧
  Client.sent w' = Client.sent w ++ [(Client.voices_request, 5%N)] ∧
  (∃ lines, Client.stdout w' = Client.stdout w ++ lines) ∧
  match snd (Client.list_voices urlopen reason json_loads w) with
  | Client.Return _ => Client.stderr w' = Client.stderr w
  | Client.Exit code =>
      code = 1%N ∧ ∃ e, Client.stderr w' = Client.stderr w ++ ["Erreur: " +:+ str_exn e]
  end.
Proof.
  set (good := fun w0 : Client.world =>
    Client.fs w0 = Client.fs w ∧
    Client.sent w0 = Client.sent w ++ [(Client.voices_request, 5%N)] ∧
    (∃ lines, Client.stdout w0 = Client.stdout w ++ lines) ∧
    Client.stderr w0 = Client.stderr w).
  set (P := fun x : Client.world * Client.result unit =>
    Client.fs (fst x) = Client.fs w ∧
    Client.sent (fst x) = Client.sent w ++ [(Client.voices_request, 5%N)] ∧
    (∃ lines, Client.stdout (fst x) = Client.stdout w ++ lines) ∧
    match snd x with
    | Client.Return _ => Client.stderr (fst x) = Client.stderr w
    | Client.Exit code =>
        code = 1%N ∧
        ∃ e, Client.stderr (fst x) = Client.stderr w ++ ["Erreur: " +:+ str_exn e]
    end).
  change (P (Client.list_voices urlopen reason json_loads w)).
  assert (∀ e w0, good w0 →
            P (Client.print_err ("Erreur: " +:+ str_exn e) w0, Client.Exit 1)) as Hfail.
  { intros e w0 (H1 & H2 & H3 & H4). unfold P. simpl. rewrite H4. eauto 10. }
  assert (∀ w0, good w0 → P (w0, Client.Return tt)) as Hret.
  { intros w0 (H1 & H2 & H3 & H4). unfold P. simpl. eauto. }
  assert (good (Client.World (Client.fs w) (Client.stdout w) (Client.stderr w)
                  (Client.sent w ++ [(Client.voices_request, 5%N)]))) as Hsent.
  { unfold good. simpl. split_and!; try done. exists [].
    by rewrite (right_id_L [] (++)). }
  unfold Client.list_voices, Client.send. cbv zeta.
  destruct (urlopen (Client.sent w) Client.voices_request 5%N) as [st body|c body|e];
    [|by apply Hfail..].
  destruct (json_loads body) as [e|[| | | | | |d]];
    [by apply Hfail|by apply (Hfail (Client.no_get _))..|].
  destruct (negb _).
  { apply Hret. unfold good, Client.print_out. simpl. split_and!; try done.
    by eexists. }
  destruct (Client.iterate _) as [e|vs]; [by apply Hfail|].
  match goal with |- context [Client.print_voices vs ?w0] =>
    destruct (print_voices_world vs w0) as [lines Hw];
    destruct (Client.print_voices vs w0) as [w2 [e|]]
  end; simpl in Hw; subst w2; [apply Hfail|apply Hret];
    unfold good; simpl; eauto 10.
Qed.

End ClientListing.

(** X16: For an answer that [json.loads] decodes to a dict whose
    [voices] is a list of dicts, each with a string under [voice_id] and
    a string under [name] (or without the field, which then shows as [?]
    or [Sans nom]), whatever the other fields and the order of the keys,
    [list_voices] prints one line for each voice, in the order of the
    list: two spaces, the id of the voice, [ - ] and its name.  For the
    empty list it prints the one line that says no voice was cloned.  It
    returns, having sent the one request and written nothing on the
    error stream. *)
Theorem list_voices_prints_the_registry
  urlopen reason json_loads w st body top voices profiles :
  urlopen (Client.sent w) Client.voices_request 5%N = Client.HttpOk st body →
  json_loads body = inr (JObj top) →
  Json.dict_get top "voices" = Some (JArr voices) →
  Forall2 (fun v p => Client.shows v (fst p) (snd p)) voices profiles →
  Client.list_voices urlopen reason json_loads w =
  (Client.World (Client.fs w)
     (Client.stdout w ++
        match profiles with
        | [] => ["Aucune voix clonée. Utilise VoiceCloneMemo pour en créer."]
        | _ => map (fun p => "  " +:+ snd p +:+ " - " +:+ fst p) profiles
        end)
     (Client.stderr w)
     (Client.sent w ++ [(Client.voices_request, 5%N)]),
   Client.Return tt).
Proof.
  intros Hok Hbody Hvoices Hshown. unfold Client.list_voices, Client.send. cbv zeta.
  rewrite Hok, Hbody, Hvoices. cbn [default from_option id].
  destruct Hshown as [|v p voices profiles Hv Hshown]; [done|].
  cbn [Json.truthy negb Client.iterate].
  by rewrite (print_voices_shown (v :: voices) (p :: profiles)) by by constructor.
Qed.

Lemma list_voices_prints_the_registry_witness :
  let w := Sample.client_world in
  let profiles := [("Alice", "deadbeef")] in
  Client.list_voices Sample.network_listing Sample.reason Sample.json_load w =
  (Client.World (Client.fs w)
     (Client.stdout w ++
        match profiles with
        | [] => ["Aucune voix clonée. Utilise VoiceCloneMemo pour en créer."]
        | _ => map (fun p => "  " +:+ snd p +:+ " - " +:+ fst p) profiles
        end)
     (Client.stderr w)
     (Client.sent w ++ [(Client.voices_request, 5%N)]),
   Client.Return tt).
Proof.
  intros w profiles.
  apply (list_voices_prints_the_registry Sample.network_listing Sample.reason
           Sample.json_load w 200
           (Json.dumps (JObj [("voices", JArr [Sample.alice_record])]))
           [("voices", JArr [Sample.alice_record])] [Sample.alice_record] profiles).
  - reflexivity.
  - vm_compute. reflexivity.
  - reflexivity.
  - repeat constructor. eexists. split_and!; reflexivity.
Defined.

(** X17: A voice of the list that is not a dict stops the listing: the
    lines of the voices before it, which show their ids and names, are
    printed, then the message of the [AttributeError] goes to the error
    stream and the client exits with status 1. *)
Theorem list_voices_stops_at_a_bad_voice
  urlopen reason json_loads w st body top shown profiles v rest :
  urlopen (Client.sent w) Client.voices_request 5%N = Client.HttpOk st body →
  json_loads body = inr (JObj top) →
  Json.dict_get top "voices" = Some (JArr (shown ++ v :: rest)) →
  Forall2 (fun v p => Client.shows v (fst p) (snd p)) shown profiles →
  (∀ fields, v ≠ JObj fields) →
  Client.list_voices urlopen reason json_loads w =
  (Client.World (Client.fs w)
     (Client.stdout w ++ map (fun p => "  " +:+ snd p +:+ " - " +:+ fst p) profiles)
     (Client.stderr w ++
        ["Erreur: '" +:+ Json.type_name v +:+ "' object has no attribute 'get'"])
     (Client.sent w ++ [(Client.voices_request, 5%N)]),
   Client.Exit 1).
Proof.
  intros Hok Hbody Hvoices Hshown Hv. unfold Client.list_voices, Client.send. cbv zeta.
  rewrite Hok, Hbody, Hvoices. cbn [default from_option id].
  assert (Json.truthy (JArr (shown ++ v :: rest)) = true) as -> by (by destruct shown).
  cbn [negb Client.iterate].
  rewrite print_voices_app, (print_voices_shown shown profiles) by done.
  cbn [Client.print_voices].
  assert (Client.voice_line v = inl (Client.no_get v)) as ->.
  { destruct v; try done. by destruct (Hv fields). }
  done.
Qed.

Lemma list_voices_stops_at_a_bad_voice_witness :
  let w := Sample.client_world in
  let profiles := [("Alice", "deadbeef")] in
  Client.list_voices Sample.network_listing_bad Sample.reason Sample.json_load w =
  (Client.World (Client.fs w)
     (Client.stdout w ++ map (fun p => "  " +:+ snd p +:+ " - " +:+ fst p) profiles)
     (Client.stderr w ++
        ["Erreur: '" +:+ Json.type_name (JStr "oops")
                     +:+ "' object has no attribute 'get'"])
     (Client.sent w ++ [(Client.voices_request, 5%N)]),
   Client.Exit 1).
Proof.
  intros w profiles.
  apply (list_voices_stops_at_a_bad_voice Sample.network_listing_bad Sample.reason
           Sample.json_load w 200
           (Json.dumps (JObj [("voices", JArr [Sample.alice_record; JStr "oops"])]))
           [("voices", JArr [Sample.alice_record; JStr "oops"])]
           [Sample.alice_record] profiles (JStr "oops") []).
  - reflexivity.
  - vm_compute. reflexivity.
  - reflexivity.
  - repeat constructor. eexists. split_and!; reflexivity.
  - discriminate.
Defined.

(** X18: Whatever the network and the service do, [list_voices] sends the
    one request for the list, with a timeout of 5 seconds, and writes no
    file.  When it returns it has written nothing on the error stream;
    when it leaves through [sys.exit] the status is 1 and the error
    stream has gained one line, [Erreur: ] followed by the message of the
    exception.  What it printed before stays on the standard output. *)
Theorem list_voices_outcomes urlopen reason json_loads w :
  let w' := fst (Client.list_voices urlopen reason json_loads w) in
  Client.fs w' = Client.fs w ∧
  Client.sent w' = Client.sent w ++ [(Client.voices_request, 5%N)] ∧
  (∃ lines, Client.stdout w' = Client.stdout w ++ lines) ∧
  match snd (Client.list_voices urlopen reason json_loads w) with
  | Client.Return _ => Client.stderr w' = Client.stderr w
  | Client.Exit code =>
      code = 1%N ∧ ∃ e, Client.stderr w' = Client.stderr w ++ ["Erreur: " +:+ str_exn e]
  end.
Proof. apply list_voices_outcome. Qed.

(** ** The client: [main] *)

(** X19: With [--status] the client sends the health request, prints one
    line that says whether the service is up, and exits with status 0
    in both cases, whatever the other arguments are: the exit status
    does not tell whether the service runs. *)
Theorem main_status_always_exits_0
  home urlopen reason json_loads usage a now w :
  Client.arg_status a = true →
  ∃ line,
    Client.main home urlopen reason json_loads usage a now w =
    (Client.World (Client.fs w) (Client.stdout w ++ [line]) (Client.stderr w)
       (Client.sent w ++ [(Client.health_request, 2%N)]), 0%N) ∧
    (line = "✅ Serveur local Qwen3-TTS en ligne"
     ↔ snd (Client.check_server urlopen w) = true) ∧
    (line = "❌ Serveur local non démarré"
     ↔ snd (Client.check_server urlopen w) = false).
Proof.
  intros Hs. unfold Client.main. rewrite Hs.
  pose proof (check_server_world urlopen w) as Hw.
  destruct (Client.check_server urlopen w) as [w1 up]. simpl in Hw. subst w1.
  destruct up; eexists; (split; [reflexivity|]); simpl; split; split; done.
Qed.

Lemma main_status_always_exits_0_witness :
  let a := Client.Args (Some "bonjour") None true true in
  let w := Sample.client_world in
  ∃ line,
    Client.main Sample.home Sample.network_down Sample.reason Sample.json_load
      Sample.usage a 1700000003 w =
    (Client.World (Client.fs w) (Client.stdout w ++ [line]) (Client.stderr w)
       (Client.sent w ++ [(Client.health_request, 2%N)]), 0%N) ∧
    (line = "✅ Serveur local Qwen3-TTS en ligne"
     ↔ snd (Client.check_server Sample.network_down w) = true) ∧
    (line = "❌ Serveur local non démarré"
     ↔ snd (Client.check_server Sample.network_down w) = false).
Proof.
  intros a w.
  apply (main_status_always_exits_0 Sample.home Sample.network_down Sample.reason
           Sample.json_load Sample.usage a 1700000003 w).
  reflexivity.
Defined.

(** X20: Once [parse_args()] has returned the arguments, from line 91
    on, the exit status of the client is 0 or 1.  When it is 0 nothing
    was written on the error stream.  When it is 1 the client was not
    asked for the status, and either it printed the help because no text
    was given, having sent no request, or it added to the error stream.
    The exits of [argparse] itself, on a command line that it refuses,
    come before that line and are not part of this. *)
Theorem main_exit_status home urlopen reason json_loads usage a now w :
  let w' := fst (Client.main home urlopen reason json_loads usage a now w) in
  let code := snd (Client.main home urlopen reason json_loads usage a now w) in
  (code = 0%N ∨ code = 1%N) ∧
  (code = 0%N → Client.stderr w' = Client.stderr w) ∧
  (code = 1%N →
   Client.arg_status a = false ∧
   ((w' = Client.print_out usage w ∧ Client.arg_list a = false) ∨
    ∃ line more, Client.stderr w' = Client.stderr w ++ line :: more)).
Proof.
  intros w' code. unfold w', code, Client.main. clear w' code.
  destruct (Client.arg_status a).
  { pose proof (check_server_world urlopen w) as Hw.
    destruct (Client.check_server urlopen w) as [w1 up]. simpl in Hw. subst w1.
    simpl. split_and!; [by left|done|done]. }
  destruct (Client.arg_list a).
  { pose proof (list_voices_outcome urlopen reason json_loads w) as (_ & _ & _ & H).
    destruct (Client.list_voices urlopen reason json_loads w) as [w1 [[]|c]];
      simpl in *.
    - split_and!; [by left|done|done].
    - destruct H as [-> [e He]]. split_and!; [by right|done|].
      intros _. split; [done|]. right. by exists ("Erreur: " +:+ str_exn e), []. }
  assert (∀ t,
    let x := match Client.generate home urlopen t (Client.arg_voice a) now w with
             | (w1, Client.Exit c) => (w1, c)
             | (w1, Client.Return _) => (w1, 0%N)
             end in
    (snd x = 0%N ∨ snd x = 1%N) ∧
    (snd x = 0%N → Client.stderr (fst x) = Client.stderr w) ∧
    (snd x = 1%N →
     false = false ∧
     ((fst x = Client.print_out usage w ∧ false = false) ∨
      ∃ line more, Client.stderr (fst x) = Client.stderr w ++ line :: more))) as Hgen.
  { intros t.
    pose proof (generate_exit home urlopen t (Client.arg_voice a) now w) as Hexit.
    pose proof (generate_return home urlopen t (Client.arg_voice a) now w) as Hreturn.
    destruct (Client.generate home urlopen t (Client.arg_voice a) now w)
      as [w1 [path|c]]; simpl in *.
    - destruct (Hreturn path eq_refl) as (_ & _ & Herr).
      split_and!; [by left|done|done].
    - destruct (Hexit c eq_refl) as (-> & _ & Herr).
      split_and!; [by right|done|]. intros _. split; [done|]. by right. }
  destruct (Client.arg_text a) as [t|].
  - case_bool_decide; [|apply Hgen].
    simpl. split_and!; [by right|done|]. intros _. split; [done|]. by left.
  - simpl. split_and!; [by right|done|]. intros _. split; [done|]. by left.
Qed.

(** X21: Asked for a text, with neither [--status] nor [--list], the
    client exits with status 0 exactly when [generate] returned the path
    of the stored file, and then that path is the one line it printed;
    with no text, or an empty one, it prints the help and exits with
    status 1 without sending any request. *)
Theorem main_text_mode home urlopen reason json_loads usage a now w :
  Client.arg_status a = false → Client.arg_list a = false →
  let w' := fst (Client.main home urlopen reason json_loads usage a now w) in
  let code := snd (Client.main home urlopen reason json_loads usage a now w) in
  match Client.arg_text a with
  | Some (String c t) =>
      let text := String c t in
      w' = fst (Client.generate home urlopen text (Client.arg_voice a) now w) ∧
      (code = 0%N ↔
       snd (Client.generate home urlopen text (Client.arg_voice a) now w)
         = Client.Return (Client.output_path home now)) ∧
      (code = 0%N →
       Client.stdout w' = Client.stdout w ++ [Client.output_path home now])
  | _ =>
      code = 1%N ∧
      w' = Client.World (Client.fs w) (Client.stdout w ++ [usage]) (Client.stderr w)
             (Client.sent w)
  end.
Proof.
  intros Hs Hl w' code. unfold w', code, Client.main. clear w' code.
  rewrite Hs, Hl. destruct (Client.arg_text a) as [[|c t]|]; [done| |done].
  rewrite bool_decide_eq_false_2 by done. cbv zeta.
  pose proof (generate_exit home urlopen (String c t) (Client.arg_voice a) now w)
    as Hexit.
  pose proof (generate_return home urlopen (String c t) (Client.arg_voice a) now w)
    as Hreturn.
  destruct (Client.generate home urlopen (String c t) (Client.arg_voice a) now w)
    as [w1 [path|code]]; simpl in *.
  - destruct (Hreturn path eq_refl) as (-> & Hout & _). by split_and!.
  - destruct (Hexit code eq_refl) as (-> & _ & _). by split_and!.
Qed.

Lemma main_text_mode_witness :
  let a := Client.Args (Some "bonjour") None false false in
  let w := Sample.client_world in
  let w' := fst (Client.main Sample.home Sample.network_up Sample.reason
                   Sample.json_load Sample.usage a 1700000003 w) in
  let code := snd (Client.main Sample.home Sample.network_up Sample.reason
                     Sample.json_load Sample.usage a 1700000003 w) in
  match Client.arg_text a with
  | Some (String c t) =>
      let text := String c t in
      w' = fst (Client.generate Sample.home Sample.network_up text
                  (Client.arg_voice a) 1700000003 w) ∧
      (code = 0%N ↔
       snd (Client.generate Sample.home Sample.network_up text
              (Client.arg_voice a) 1700000003 w)
         = Client.Return (Client.output_path Sample.home 1700000003)) ∧
      (code = 0%N →
       Client.stdout w' = Client.stdout w ++ [Client.output_path Sample.home 1700000003])
  | _ =>
      code = 1%N ∧
      w' = Client.World (Client.fs w) (Client.stdout w ++ [Sample.usage]) (Client.stderr w)
             (Client.sent w)
  end.
Proof.
  intros a w.
  apply (main_text_mode Sample.home Sample.network_up Sample.reason Sample.json_load
           Sample.usage a 1700000003 w); reflexivity.
Defined.
